(** * The consent demo client of examples/react-native/App.js

    A shallow embedding of the React Native demo application: its state
    hooks, the asynchronous handlers [fetchConfiguration], [fetchVendors],
    [fetchToken], [loadSettings], [initializeApp] and [submitConsent], and
    the event loop that interleaves them.  Handlers are terms of a small
    free monad whose nodes are the effects the source performs: state
    setters, alerts, AsyncStorage reads and network requests (the
    suspension points).

    What is taken from the environment rather than computed: the outcome of
    each request (a function of the request and of the requests before it),
    what [JSON.parse] makes of a response body, and the reading of the
    clock.  A handler reads the state cells of the render it was created
    in and writes the current ones; no handler reads a cell after writing
    it, so running one to completion threads a single state. *)

From Stdlib Require Import String Ascii List ZArith Bool Lia DecimalString.
Import ListNotations.

Set Warnings "-register-all".

Local Open Scope Z_scope.
Local Open Scope string_scope.
Local Open Scope list_scope.

Notation "a +++ b" := (String.append a b) (at level 60, right associativity).

(** ** JavaScript values *)

(** The values that reach the handlers: what [JSON.parse] and
    [response.json()] produce, plus [undefined] for absent properties.
    Numbers are kept as integers: the handlers only test them for
    truthiness and print them. *)
Inductive jsval : Type :=
| JUndefined
| JNull
| JBool (b : bool)
| JNum (n : Z)
| JStr (s : string)
| JArr (xs : list jsval)
| JObj (fields : list (string * jsval)).

(** A plain object with string keys, in insertion order.  No key used by
    the handlers is an array index, so insertion order is key order. *)
Definition jsobj (A : Type) : Type := list (string * A).

Fixpoint obj_get {A : Type} (o : jsobj A) (k : string) : option A :=
  match o with
  | [] => None
  | (k', v) :: rest => if String.eqb k' k then Some v else obj_get rest k
  end.

(** [o[k] = v]: overwrite in place when the key exists, append otherwise. *)
Fixpoint obj_set {A : Type} (o : jsobj A) (k : string) (v : A) : jsobj A :=
  match o with
  | [] => [(k, v)]
  | (k', v') :: rest =>
      if String.eqb k' k then (k', v) :: rest else (k', v') :: obj_set rest k v
  end.

Definition obj_keys {A : Type} (o : jsobj A) : list string := map fst o.

Definition obj_values {A : Type} (o : jsobj A) : list A := map snd o.

(** [Boolean(v)]. *)
Definition truthy (v : jsval) : bool :=
  match v with
  | JUndefined | JNull => false
  | JBool b => b
  | JNum n => negb (Z.eqb n 0)
  | JStr s => negb (String.eqb s EmptyString)
  | JArr _ | JObj _ => true
  end.

(** [a || b]. *)
Definition js_or (a b : jsval) : jsval := if truthy a then a else b.

(** ** Numbers as text

    A number of a parsed body is a double: [JNum n] stands for the double
    nearest to the integer [n], which is what [JSON.parse] makes of the
    literal.  [Number.prototype.toString] prints the shortest decimal that
    reads back as that double, in full up to 21 digits and in exponent
    form beyond. *)

(** The double nearest to [m], for [0 <= m]: 53 bits kept, ties to even. *)
Definition nearestDouble (m : Z) : Z :=
  let bits := Z.log2 m + 1 in
  if Z.leb bits 53 then m
  else
    let sh := bits - 53 in
    let q := Z.shiftr m sh in
    let r := m - Z.shiftl q sh in
    let half := Z.shiftl 1 (sh - 1) in
    Z.shiftl (if Z.ltb half r || (Z.eqb r half && Z.odd q) then q + 1 else q) sh.

Definition decimal (m : Z) : string := NilZero.string_of_int (Z.to_int m).

Definition digitCount (m : Z) : Z := Z.of_nat (String.length (decimal m)).

Definition roundTrips (x c : Z) : bool := Z.eqb (nearestDouble c) x.

(** The decimal of [k] digits followed by zeros that reads back as [x],
    if there is one: the nearer of the two around [x], the even one on a
    tie. *)
Definition shortestWith (x k : Z) : option Z :=
  let p := 10 ^ (digitCount x - k) in
  let lo := (x / p) * p in
  let hi := lo + p in
  match roundTrips x lo, roundTrips x hi with
  | true, true =>
      Some (if Z.ltb (x - lo) (hi - x) then lo
            else if Z.ltb (hi - x) (x - lo) then hi
            else if Z.even (x / p) then lo else hi)
  | true, false => Some lo
  | false, true => Some hi
  | false, false => None
  end.

Fixpoint shortest (x k : Z) (fuel : nat) : Z :=
  match fuel with
  | O => x
  | S fuel' =>
      match shortestWith x k with
      | Some c => c
      | None => shortest x (k + 1) fuel'
      end
  end.

Fixpoint dropZeros (cs : list ascii) : list ascii :=
  match cs with
  | "0"%char :: rest => dropZeros rest
  | _ => cs
  end.

(** The digits of [c] without its closing zeros, a point after the first. *)
Definition significand (c : Z) : string :=
  match rev (dropZeros (rev (list_ascii_of_string (decimal c)))) with
  | [] => "0"
  | [d] => String d EmptyString
  | d :: rest => String d ("." +++ string_of_list_ascii rest)
  end.

(** [String(n)] for a number. *)
Definition numberToString (n : Z) : string :=
  let x := nearestDouble (Z.abs n) in
  let sign := if Z.ltb n 0 then "-" else EmptyString in
  if Z.leb (2 ^ 1024) x then sign +++ "Infinity"
  else
    let c := shortest x 1 (Nat.min 17 (Z.to_nat (digitCount x))) in
    if Z.leb (digitCount c) 21 then sign +++ decimal c
    else sign +++ significand c +++ "e+" +++ decimal (digitCount c - 1).

Arguments numberToString : simpl never.

(** ** Values as text *)

(** Whether [String(v)] returns.  The conversion of an object calls its
    [toString]; an object of a parsed body that has a property of that
    name of its own holds no function there, nor under [valueOf], and the
    conversion throws a TypeError.  An array joins the conversions of its
    elements, null and undefined left out. *)
Fixpoint convertible (v : jsval) : bool :=
  match v with
  | JArr xs =>
      forallb (fun x => match x with
                        | JUndefined | JNull => true
                        | _ => convertible x
                        end) xs
  | JObj fields => negb (existsb (fun entry => String.eqb (fst entry) "toString") fields)
  | _ => true
  end.

(** [String(v)], the conversion a template literal applies: the text it
    gives where it returns, see [convertible] and [js_template]. *)
Fixpoint js_to_string (v : jsval) : string :=
  match v with
  | JUndefined => "undefined"
  | JNull => "null"
  | JBool true => "true"
  | JBool false => "false"
  | JNum n => numberToString n
  | JStr s => s
  | JArr xs =>
      String.concat ","
        (map (fun x => match x with
                       | JUndefined | JNull => EmptyString
                       | _ => js_to_string x
                       end) xs)
  | JObj _ => "[object Object]"
  end.

(** What the handlers throw or see thrown. *)
Inductive JsError : Type :=
| NetworkError (message : string)          (* fetch rejected: offline, timeout *)
| TypeError (property : string)            (* property read on null *)
| SyntaxError                              (* response.json() on a non-JSON body *)
| TokenNotFound                            (* new Error('Token not found in API response') *)
| ApiError (status : Z) (errorText : string) (* new Error(`API error ...`) *)
| NotPrimitive.                            (* conversion to text of an object without toString *)

(** [`${v}`] evaluated: the text, or the TypeError thrown. *)
Definition js_template (v : jsval) : JsError + string :=
  if convertible v then inr (js_to_string v) else inl NotPrimitive.

(** Sequencing of expressions that may throw. *)
Definition ebind {A B : Type} (x : JsError + A) (f : A -> JsError + B) : JsError + B :=
  match x with
  | inl e => inl e
  | inr a => f a
  end.

Notation "x <~ p ;; q" := (ebind p (fun x => q))
  (at level 61, p at next level, right associativity).

(** [v.k] for the property names the handlers read. *)
Definition get_prop (v : jsval) (k : string) : JsError + jsval :=
  match v with
  | JUndefined | JNull => inl (TypeError k)
  | JObj fields =>
      match obj_get fields k with
      | Some x => inr x
      | None => inr JUndefined
      end
  | JArr xs =>
      if String.eqb k "length" then inr (JNum (Z.of_nat (length xs))) else inr JUndefined
  | JStr s =>
      if String.eqb k "length" then inr (JNum (Z.of_nat (String.length s))) else inr JUndefined
  | JBool _ | JNum _ => inr JUndefined
  end.

(** ** The network and the device store *)

Inductive Method : Type := GET | POST.

(** A [fetch] call.  The Accept and Content-Type headers are constant in
    the source; the body is kept before [JSON.stringify]. *)
Record Request : Type := mkRequest {
  method : Method;
  url : string;
  authorization : string;
  body : jsval
}.

(** A response whose body has arrived: its text and what [JSON.parse]
    makes of that text ([None]: not JSON).  A body that cannot be read
    rejects like the request itself, and is the outcome [Failed]. *)
Record Response : Type := mkResponse {
  status : Z;
  text : string;
  json : option jsval
}.

(** [response.ok]. *)
Definition ok (r : Response) : bool :=
  Z.leb 200 (status r) && Z.leb (status r) 299.

Inductive FetchOutcome : Type :=
| Failed (message : string)
| Answered (r : Response).

(** AsyncStorage: string keys to string values.  Reads are taken to
    succeed; a rejected read is caught and logged by [loadSettings]. *)
Definition Storage : Type := jsobj string.

(** ** Constants of the module *)

Definition ENVIRONMENTS : jsobj string :=
  [ ("local-dev", "http://localhost:3000/mobile");
    ("staging", "https://staging-api.axeptio.tech/mobile");
    ("production", "https://headless-api.axeptio.tech/mobile") ].

Definition DEFAULT_PROJECT_ID : string := "67fcdb2b52ab9a99a5865f4d".
Definition DEFAULT_ENVIRONMENT : string := "staging".

Definition STORAGE_PROJECT_ID : string := "@axeptio_project_id".
Definition STORAGE_ENVIRONMENT : string := "@axeptio_environment".

(** A vendor as the modal lists it.  The hardcoded table has no [id] and
    no [image]. *)
Record Vendor : Type := mkVendor {
  v_id : jsval;
  v_name : jsval;
  v_description : jsval;
  v_image : jsval
}.

Definition VENDORS : jsobj Vendor :=
  [ ("google_analytics",
     mkVendor JUndefined (JStr "Google Analytics") (JStr "Usage statistics and analytics") JUndefined);
    ("facebook_pixel",
     mkVendor JUndefined (JStr "Facebook Pixel") (JStr "Ad targeting and conversion tracking") JUndefined);
    ("mixpanel",
     mkVendor JUndefined (JStr "Mixpanel") (JStr "Product analytics and user behavior") JUndefined) ].

(** ** Component state *)

(** The three texts [consentStatus] takes. *)
Inductive ConsentStatus : Type :=
| NotSet
| AllAccepted
| CustomPreferences.

(** The [useState] cells of [App] that the handlers read or write. *)
Record AppState : Type := mkAppState {
  modalVisible : bool;
  loading : bool;
  vendorsLoading : bool;
  vendors : jsobj bool;
  apiVendors : jsobj Vendor;
  consentStatus : ConsentStatus;
  lastConsentId : jsval;
  lastConsentToken : jsval;
  currentUserToken : jsval;
  configId : jsval;
  projectId : string;
  environment : string;
  tempProjectId : string;
  tempEnvironment : string
}.

(** The state of the first render. *)
Definition initialState : AppState :=
  {| modalVisible := false;
     loading := false;
     vendorsLoading := true;
     vendors := [];
     apiVendors := VENDORS;
     consentStatus := NotSet;
     lastConsentId := JNull;
     lastConsentToken := JNull;
     currentUserToken := JNull;
     configId := JNull;
     projectId := DEFAULT_PROJECT_ID;
     environment := DEFAULT_ENVIRONMENT;
     tempProjectId := DEFAULT_PROJECT_ID;
     tempEnvironment := DEFAULT_ENVIRONMENT |}.

Definition setModalVisible (b : bool) (s : AppState) : AppState :=
  mkAppState b (loading s) (vendorsLoading s) (vendors s) (apiVendors s)
    (consentStatus s) (lastConsentId s) (lastConsentToken s) (currentUserToken s)
    (configId s) (projectId s) (environment s) (tempProjectId s) (tempEnvironment s).

Definition setLoading (b : bool) (s : AppState) : AppState :=
  mkAppState (modalVisible s) b (vendorsLoading s) (vendors s) (apiVendors s)
    (consentStatus s) (lastConsentId s) (lastConsentToken s) (currentUserToken s)
    (configId s) (projectId s) (environment s) (tempProjectId s) (tempEnvironment s).

Definition setVendorsLoading (b : bool) (s : AppState) : AppState :=
  mkAppState (modalVisible s) (loading s) b (vendors s) (apiVendors s)
    (consentStatus s) (lastConsentId s) (lastConsentToken s) (currentUserToken s)
    (configId s) (projectId s) (environment s) (tempProjectId s) (tempEnvironment s).

Definition setVendors (v : jsobj bool) (s : AppState) : AppState :=
  mkAppState (modalVisible s) (loading s) (vendorsLoading s) v (apiVendors s)
    (consentStatus s) (lastConsentId s) (lastConsentToken s) (currentUserToken s)
    (configId s) (projectId s) (environment s) (tempProjectId s) (tempEnvironment s).

Definition setApiVendors (v : jsobj Vendor) (s : AppState) : AppState :=
  mkAppState (modalVisible s) (loading s) (vendorsLoading s) (vendors s) v
    (consentStatus s) (lastConsentId s) (lastConsentToken s) (currentUserToken s)
    (configId s) (projectId s) (environment s) (tempProjectId s) (tempEnvironment s).

Definition setConsentStatus (c : ConsentStatus) (s : AppState) : AppState :=
  mkAppState (modalVisible s) (loading s) (vendorsLoading s) (vendors s) (apiVendors s)
    c (lastConsentId s) (lastConsentToken s) (currentUserToken s)
    (configId s) (projectId s) (environment s) (tempProjectId s) (tempEnvironment s).

Definition setLastConsentId (v : jsval) (s : AppState) : AppState :=
  mkAppState (modalVisible s) (loading s) (vendorsLoading s) (vendors s) (apiVendors s)
    (consentStatus s) v (lastConsentToken s) (currentUserToken s)
    (configId s) (projectId s) (environment s) (tempProjectId s) (tempEnvironment s).

Definition setLastConsentToken (v : jsval) (s : AppState) : AppState :=
  mkAppState (modalVisible s) (loading s) (vendorsLoading s) (vendors s) (apiVendors s)
    (consentStatus s) (lastConsentId s) v (currentUserToken s)
    (configId s) (projectId s) (environment s) (tempProjectId s) (tempEnvironment s).

Definition setCurrentUserToken (v : jsval) (s : AppState) : AppState :=
  mkAppState (modalVisible s) (loading s) (vendorsLoading s) (vendors s) (apiVendors s)
    (consentStatus s) (lastConsentId s) (lastConsentToken s) v
    (configId s) (projectId s) (environment s) (tempProjectId s) (tempEnvironment s).

Definition setConfigId (v : jsval) (s : AppState) : AppState :=
  mkAppState (modalVisible s) (loading s) (vendorsLoading s) (vendors s) (apiVendors s)
    (consentStatus s) (lastConsentId s) (lastConsentToken s) (currentUserToken s)
    v (projectId s) (environment s) (tempProjectId s) (tempEnvironment s).

Definition setProjectId (p : string) (s : AppState) : AppState :=
  mkAppState (modalVisible s) (loading s) (vendorsLoading s) (vendors s) (apiVendors s)
    (consentStatus s) (lastConsentId s) (lastConsentToken s) (currentUserToken s)
    (configId s) p (environment s) (tempProjectId s) (tempEnvironment s).

Definition setEnvironment (e : string) (s : AppState) : AppState :=
  mkAppState (modalVisible s) (loading s) (vendorsLoading s) (vendors s) (apiVendors s)
    (consentStatus s) (lastConsentId s) (lastConsentToken s) (currentUserToken s)
    (configId s) (projectId s) e (tempProjectId s) (tempEnvironment s).

Definition setTempProjectId (p : string) (s : AppState) : AppState :=
  mkAppState (modalVisible s) (loading s) (vendorsLoading s) (vendors s) (apiVendors s)
    (consentStatus s) (lastConsentId s) (lastConsentToken s) (currentUserToken s)
    (configId s) (projectId s) (environment s) p (tempEnvironment s).

Definition setTempEnvironment (e : string) (s : AppState) : AppState :=
  mkAppState (modalVisible s) (loading s) (vendorsLoading s) (vendors s) (apiVendors s)
    (consentStatus s) (lastConsentId s) (lastConsentToken s) (currentUserToken s)
    (configId s) (projectId s) (environment s) (tempProjectId s) e.

(** Derived values of a render. *)
Definition apiBase (s : AppState) : string :=
  match obj_get ENVIRONMENTS (environment s) with
  | Some u => u
  | None => "https://staging-api.axeptio.tech/mobile"
  end.

Definition apiToken (s : AppState) : string :=
  "project_" +++ projectId s +++ "_test_token".

Definition bearer (s : AppState) : string := "Bearer " +++ apiToken s.

(** ** Effects *)

(** The dialogs the handlers raise, one constructor per [Alert.alert]
    call site, carrying the values interpolated into its text. *)
Inductive Alert : Type :=
| AlertConfigUnavailable                 (* 'Could not fetch configuration. Please try again.' *)
| AlertTokenUnavailable (error : JsError)  (* 'Could not get user token: ...' *)
| AlertSuccess (status : Z) (shownId : jsval) (token : jsval)
                                         (* 'Consent saved successfully!' Status, ID, Token *)
| AlertApiResponse (status : Z) (parsedData : jsval)
                                         (* 'API Response' Status and the parsed body *)
| AlertSaveFailed (error : JsError)      (* 'Failed to save consent: ...' *)
| AlertSaved (status : Z) (shownId : jsval).
                                         (* the success dialog of the earlier demo *)

(** A handler: a tree of the effects it performs.  [Await] is an
    [await fetch(...)]: the handler is suspended until the outcome arrives.
    Logging to the console is left out. *)
Inductive Prog (A : Type) : Type :=
| Ret (a : A)
| Throw (e : JsError)
| SetState (f : AppState -> AppState) (k : Prog A)
| ShowAlert (a : Alert) (k : Prog A)
| GetItem (key : string) (k : option string -> Prog A)
| Await (r : Request) (k : FetchOutcome -> Prog A).

Arguments Ret {A} a.
Arguments Throw {A} e.
Arguments SetState {A} f k.
Arguments ShowAlert {A} a k.
Arguments GetItem {A} key k.
Arguments Await {A} r k.

Fixpoint bind {A B : Type} (p : Prog A) (f : A -> Prog B) : Prog B :=
  match p with
  | Ret a => f a
  | Throw e => Throw e
  | SetState g k => SetState g (bind k f)
  | ShowAlert a k => ShowAlert a (bind k f)
  | GetItem key k => GetItem key (fun v => bind (k v) f)
  | Await r k => Await r (fun o => bind (k o) f)
  end.

(** [try { p } catch (error) { h error }]. *)
Fixpoint try_catch {A : Type} (p : Prog A) (h : JsError -> Prog A) : Prog A :=
  match p with
  | Ret a => Ret a
  | Throw e => h e
  | SetState g k => SetState g (try_catch k h)
  | ShowAlert a k => ShowAlert a (try_catch k h)
  | GetItem key k => GetItem key (fun v => try_catch (k v) h)
  | Await r k => Await r (fun o => try_catch (k o) h)
  end.

(** [try { p } finally { q }]: [q] runs on return and on throw alike. *)
Fixpoint finally {A : Type} (p : Prog A) (q : Prog unit) : Prog A :=
  match p with
  | Ret a => bind q (fun _ => Ret a)
  | Throw e => bind q (fun _ => Throw e)
  | SetState g k => SetState g (finally k q)
  | ShowAlert a k => ShowAlert a (finally k q)
  | GetItem key k => GetItem key (fun v => finally (k v) q)
  | Await r k => Await r (fun o => finally (k o) q)
  end.

Notation "x <- p ;; q" := (bind p (fun x => q))
  (at level 61, p at next level, right associativity).

(** An expression evaluated inside a handler: its value, or its throw. *)
Definition lift {A : Type} (x : JsError + A) : Prog A :=
  match x with
  | inl e => Throw e
  | inr a => Ret a
  end.

(** A property read inside a handler: a [TypeError] is thrown on null. *)
Definition prop (v : jsval) (k : string) : Prog jsval := lift (get_prop v k).

(** [await fetch(r)] followed by nothing: the outcome, a rejection thrown. *)
Definition fetch (r : Request) : Prog Response :=
  Await r (fun o =>
    match o with
    | Failed m => Throw (NetworkError m)
    | Answered resp => Ret resp
    end).

(** [await response.json()]. *)
Definition response_json (r : Response) : Prog jsval :=
  match json r with
  | Some data => Ret data
  | None => Throw SyntaxError
  end.

(** ** The handlers *)

Definition configurationRequest (s : AppState) : Request :=
  mkRequest GET (apiBase s +++ "/configurations/" +++ projectId s) (bearer s) JUndefined.

Definition vendorsRequest (s : AppState) : Request :=
  mkRequest GET (apiBase s +++ "/vendors/" +++ projectId s) (bearer s) JUndefined.

Definition tokenRequest (s : AppState) : Request :=
  mkRequest GET (apiBase s +++ "/token") (bearer s) JUndefined.

(** [fetchConfiguration]: the default configuration id, or null. *)
Definition fetchConfiguration (s : AppState) : Prog jsval :=
  try_catch
    (response <- fetch (configurationRequest s) ;;
     if ok response then
       data <- response_json response ;;
       defaultConfigId <- prop data "defaultConfigId" ;;
       if truthy defaultConfigId
       then SetState (setConfigId defaultConfigId) (Ret defaultConfigId)
       else Ret JNull
     else Ret JNull)
    (fun error => Ret JNull).

(** [fetchToken]: a new user token from the API, or a throw. *)
Definition fetchToken (s : AppState) : Prog jsval :=
  try_catch
    (response <- fetch (tokenRequest s) ;;
     if ok response then
       data <- response_json response ;;
       token <- prop data "token" ;;
       if truthy token then Ret token else Throw TokenNotFound
     else Throw (ApiError (status response) (text response)))
    (fun error => Throw error).

(** [Object.keys(VENDORS).reduce((acc, key) => ({...acc, [key]: false}), {})]. *)
Definition hardcodedPreferences : jsobj bool :=
  fold_left (fun acc key => obj_set acc key false) (obj_keys VENDORS) [].

(** One iteration of the [forEach] over [vendorData.vendors]; the key is
    a template literal, and the conversion of the id or of the name in it
    may throw. *)
Definition addVendor (acc : jsobj Vendor * jsobj bool) (vendor : jsval)
  : JsError + (jsobj Vendor * jsobj bool) :=
  id <~ get_prop vendor "id" ;;
  title <~ get_prop vendor "title" ;;
  name <~ get_prop vendor "name" ;;
  description <~ get_prop vendor "description" ;;
  image <~ get_prop vendor "image" ;;
  _ <~ js_template id ;;
  _ <~ js_template (js_or title name) ;;
  let vendorKey := js_to_string id +++ " (" +++ js_to_string (js_or title name) +++ ")" in
  inr (obj_set (fst acc) vendorKey
         (mkVendor id (js_or title name)
            (js_or description (JStr "No description available")) image),
       obj_set (snd acc) vendorKey false).

Fixpoint forEachVendor (xs : list jsval) (acc : jsobj Vendor * jsobj bool)
  : JsError + (jsobj Vendor * jsobj bool) :=
  match xs with
  | [] => inr acc
  | vendor :: rest =>
      match addVendor acc vendor with
      | inl e => inl e
      | inr acc' => forEachVendor rest acc'
      end
  end.

(** [fetchVendors]: the vendor map of the API, or null. *)
Definition fetchVendors (s : AppState) : Prog (option (jsobj Vendor)) :=
  SetState (setVendorsLoading true)
    (finally
       (try_catch
          (response <- fetch (vendorsRequest s) ;;
           if ok response then
             vendorData <- response_json response ;;
             if truthy vendorData then
               vendorList <- prop vendorData "vendors" ;;
               match vendorList with
               | JArr xs =>
                   match forEachVendor xs ([], []) with
                   | inl e => Throw e
                   | inr (vendorMap, vendorPreferences) =>
                       SetState (setApiVendors vendorMap)
                         (SetState (setVendors vendorPreferences)
                            (SetState (setVendorsLoading false)
                               (Ret (Some vendorMap))))
                   end
               | _ => Ret None
               end
             else Ret None
           else SetState (setVendors hardcodedPreferences) (Ret None))
          (fun error => SetState (setVendors hardcodedPreferences) (Ret None)))
       (SetState (setVendorsLoading false) (Ret tt))).

(** [loadSettings]: the project id and the environment saved on the device. *)
Definition loadSettings (s : AppState) : Prog unit :=
  GetItem STORAGE_PROJECT_ID (fun savedProjectId =>
  GetItem STORAGE_ENVIRONMENT (fun savedEnvironment =>
    let withProject (k : Prog unit) : Prog unit :=
      match savedProjectId with
      | Some p =>
          if negb (String.eqb p EmptyString)
          then SetState (setProjectId p) (SetState (setTempProjectId p) k)
          else k
      | None => k
      end in
    withProject
      match savedEnvironment with
      | Some e =>
          if negb (String.eqb e EmptyString) then
            match obj_get ENVIRONMENTS e with
            | Some _ => SetState (setEnvironment e) (SetState (setTempEnvironment e) (Ret tt))
            | None => Ret tt
            end
          else Ret tt
      | None => Ret tt
      end)).

(** [Object.keys(apiVendors).forEach(...)] of [submitConsent]: the wire key
    and the choice of each listed vendor.  The fold visits the entries of
    [apiVendors], which is what reading [apiVendors[vendorKey]] for each of
    its own keys yields. *)
Definition buildVendorPreferences (s : AppState) (isAcceptAll : bool) : jsobj bool :=
  fold_left
    (fun vendorPreferences entry =>
       let vendorKey := fst entry in
       let vendor := snd entry in
       let formattedKey :=
         js_to_string (v_id vendor) +++ " (" +++ js_to_string (v_name vendor) +++ ")" in
       obj_set vendorPreferences formattedKey
         (isAcceptAll ||
          match obj_get (vendors s) vendorKey with
          | Some choice => choice
          | None => false
          end))
    (apiVendors s) [].

Definition boolObject (o : jsobj bool) : jsval :=
  JObj (map (fun kv => (fst kv, JBool (snd kv))) o).

(** The [consent] object literal of [submitConsent]. *)
Definition consentPayload (s : AppState) (isAcceptAll : bool)
    (currentConfigId tokenToUse : jsval) : jsval :=
  JObj
    [ ("accept", JBool true);
      ("preferences",
       JObj [ ("config",
               JObj [ ("id", currentConfigId);
                      ("language", JStr "en");
                      ("identifier", currentConfigId) ]);
              ("vendors", boolObject (buildVendorPreferences s isAcceptAll)) ]);
      ("googleConsentMode",
       JObj [ ("version", JNum 2);
              ("ad_storage", JStr "denied");
              ("ad_user_data", JStr "denied");
              ("analytics_storage", JStr "denied");
              ("ad_personalization", JStr "denied") ]);
      ("token", tokenToUse) ].

(** The consent request.  The configuration id is written into the
    address as text: it is taken to convert, as the ids the service issues
    do. *)
Definition consentRequest (s : AppState) (isAcceptAll : bool)
    (currentConfigId tokenToUse : jsval) : Request :=
  mkRequest POST
    (apiBase s +++ "/consents/" +++ projectId s +++ "/cookies/"
       +++ js_to_string currentConfigId)
    (bearer s)
    (consentPayload s isAcceptAll currentConfigId tokenToUse).

(** [parsedData.id || parsedData._id || parsedData.consentId ||
    parsedData.uuid || parsedData.insertedId || 'saved']. *)
Definition consentIdOf (parsedData : jsval) : JsError + jsval :=
  id <~ get_prop parsedData "id" ;;
  if truthy id then inr id else
  _id <~ get_prop parsedData "_id" ;;
  if truthy _id then inr _id else
  consentId <~ get_prop parsedData "consentId" ;;
  if truthy consentId then inr consentId else
  uuid <~ get_prop parsedData "uuid" ;;
  if truthy uuid then inr uuid else
  insertedId <~ get_prop parsedData "insertedId" ;;
  if truthy insertedId then inr insertedId else
  inr (JStr "saved").

(** [=== 'saved']. *)
Definition isSavedMarker (v : jsval) : bool :=
  match v with
  | JStr x => String.eqb x "saved"
  | _ => false
  end.

(** The block of [submitConsent] under the comment
    [// Ensure we have a configId]; [None] is its early [return]. *)
Definition ensureConfigId (s : AppState) : Prog (option jsval) :=
  if truthy (configId s) then Ret (Some (configId s))
  else
    fetched <- fetchConfiguration s ;;
    if truthy fetched then Ret (Some fetched)
    else ShowAlert AlertConfigUnavailable (SetState (setLoading false) (Ret None)).

(** The block under [// Ensure we have a valid token from API]; [None] is
    its early [return]. *)
Definition ensureToken (s : AppState) : Prog (option jsval) :=
  if truthy (currentUserToken s) then Ret (Some (currentUserToken s))
  else
    try_catch
      (fetched <- fetchToken s ;;
       SetState (setCurrentUserToken fetched) (Ret (Some fetched)))
      (fun error =>
         ShowAlert (AlertTokenUnavailable error)
           (SetState (setLoading false) (Ret None))).

(** The [try] / [catch] / [finally] statement that posts the consent.
    The text of the success dialog is built after the state is set, and
    the conversion of the id or of the token in it may throw. *)
Definition transmitConsent (s : AppState) (isAcceptAll : bool)
    (currentConfigId tokenToUse : jsval) : Prog unit :=
  finally
    (try_catch
       (response <- fetch (consentRequest s isAcceptAll currentConfigId tokenToUse) ;;
        let parsedData :=
          match json response with
          | Some parsed => parsed
          | None => JObj [("message", JStr (text response))]
          end in
        if ok response || Z.eqb (status response) 201 then
          consentId <- lift (consentIdOf parsedData) ;;
          SetState (setConsentStatus
                      (if isAcceptAll then AllAccepted else CustomPreferences))
            (SetState (setLastConsentId consentId)
               (let shownId := if isSavedMarker consentId then JStr "N/A" else consentId in
                _ <- lift (js_template shownId) ;;
                _ <- lift (js_template tokenToUse) ;;
                ShowAlert (AlertSuccess (status response) shownId tokenToUse) (Ret tt)))
        else
          ShowAlert (AlertApiResponse (status response) parsedData) (Ret tt))
       (fun error => ShowAlert (AlertSaveFailed error) (Ret tt)))
    (SetState (setLoading false) (SetState (setModalVisible false) (Ret tt))).

(** [submitConsent]: the handler of the Save My Choices button.  State
    cells are read from [s], the render the handler closes over. *)
Definition submitConsent (isAcceptAll : bool) (s : AppState) : Prog unit :=
  SetState (setLoading true)
    (resolvedConfig <- ensureConfigId s ;;
     match resolvedConfig with
     | None => Ret tt
     | Some currentConfigId =>
         resolvedToken <- ensureToken s ;;
         match resolvedToken with
         | None => Ret tt
         | Some tokenToUse =>
             SetState (setLastConsentToken tokenToUse)
               (transmitConsent s isAcceptAll currentConfigId tokenToUse)
         end
     end).

(** [initializeApp], the effect run on mount and when settings change. *)
Definition initializeApp (s : AppState) : Prog unit :=
  _ <- fetchConfiguration s ;;
  _ <- fetchVendors s ;;
  try_catch
    (token <- fetchToken s ;;
     SetState (setCurrentUserToken token) (Ret tt))
    (fun error => Ret tt).

(** ** Running a handler to completion *)

(** What a handler leaves behind: the state cells, the device store, and
    the log of requests sent and dialogs shown. *)
Record World : Type := mkWorld {
  app : AppState;
  storage : Storage;
  requests : list Request;
  alerts : list Alert
}.

Definition withApp (f : AppState -> AppState) (w : World) : World :=
  mkWorld (f (app w)) (storage w) (requests w) (alerts w).

Definition sent (r : Request) (w : World) : World :=
  mkWorld (app w) (storage w) (requests w ++ [r]) (alerts w).

Definition shown (a : Alert) (w : World) : World :=
  mkWorld (app w) (storage w) (requests w) (alerts w ++ [a]).

(** How an [async] function settles. *)
Inductive Completion (A : Type) : Type :=
| Returned (a : A)
| Rejected (e : JsError).

Arguments Returned {A} a.
Arguments Rejected {A} e.

(** The remote service: the outcome of a request, given the requests that
    came before it. *)
Definition Network : Type := list Request -> Request -> FetchOutcome.

Fixpoint run {A : Type} (net : Network) (p : Prog A) (w : World) : Completion A * World :=
  match p with
  | Ret a => (Returned a, w)
  | Throw e => (Rejected e, w)
  | SetState f k => run net k (withApp f w)
  | ShowAlert a k => run net k (shown a w)
  | GetItem key k => run net (k (obj_get (storage w) key)) w
  | Await r k => run net (k (net (requests w) r)) (sent r w)
  end.

(** A handler invoked on the current render. *)
Definition call {A : Type} (net : Network) (handler : AppState -> Prog A) (w : World)
  : Completion A * World :=
  run net (handler (app w)) w.

Definition freshWorld (s : AppState) : World := mkWorld s [] [] [].

(** ** Worked scenarios *)

Definition jsonResponse (code : Z) (data : jsval) : FetchOutcome :=
  Answered (mkResponse code EmptyString (Some data)).

(** A service for the default project: configuration [cfg1], vendors
    [v1] and [v2], token [tok1], and [consentAnswer] for a consent. *)
Definition demoServiceWith (consentAnswer : FetchOutcome) : Network :=
  fun _ r =>
    match method r with
    | POST => consentAnswer
    | GET =>
        if String.eqb (url r) (apiBase initialState +++ "/configurations/" +++ DEFAULT_PROJECT_ID)
        then jsonResponse 200
               (JObj [("defaultConfigId", JStr "cfg1")])
        else if String.eqb (url r) (apiBase initialState +++ "/vendors/" +++ DEFAULT_PROJECT_ID)
        then jsonResponse 200
               (JObj [("vendors",
                       JArr [ JObj [("id", JStr "v1"); ("name", JStr "One")];
                              JObj [("id", JStr "v2"); ("title", JStr "Two")] ])])
        else if String.eqb (url r) (apiBase initialState +++ "/token")
        then jsonResponse 200 (JObj [("token", JStr "tok1")])
        else Failed "unknown endpoint"
    end.

(** The example scenario of the specification: HTTP 201 with id [abc]. *)
Definition demoService : Network :=
  demoServiceWith (jsonResponse 201 (JObj [("id", JStr "abc")])).

(** The state once [initializeApp] has run against the demo service:
    configuration [cfg1], token [tok1], two vendors listed. *)
Definition readyState : AppState :=
  app (snd (call demoService initializeApp (freshWorld initialState))).

Definition offline : Network := fun _ _ => Failed "Network request failed".

(** ** What each handler does, by the outcome of its request *)

(** The id [fetchConfiguration] draws from an outcome, if any. *)
Definition configurationAnswer (o : FetchOutcome) : option jsval :=
  match o with
  | Failed _ => None
  | Answered response =>
      if ok response then
        match json response with
        | Some data =>
            match get_prop data "defaultConfigId" with
            | inr id => if truthy id then Some id else None
            | inl _ => None
            end
        | None => None
        end
      else None
  end.

(** The token [fetchToken] draws from an outcome, or what it throws. *)
Definition tokenAnswer (o : FetchOutcome) : JsError + jsval :=
  match o with
  | Failed m => inl (NetworkError m)
  | Answered response =>
      if ok response then
        match json response with
        | Some data =>
            match get_prop data "token" with
            | inr token => if truthy token then inr token else inl TokenNotFound
            | inl e => inl e
            end
        | None => inl SyntaxError
        end
      else inl (ApiError (status response) (text response))
  end.

(** The [finally] block of the consent request. *)
Definition closeModal (w : World) : World :=
  withApp (setModalVisible false) (withApp (setLoading false) w).

(** The body the consent handler works on: the parsed JSON, or the text
    wrapped as [{ message }]. *)
Definition parsedDataOf (response : Response) : jsval :=
  match json response with
  | Some parsed => parsed
  | None => JObj [("message", JStr (text response))]
  end.

(** [response.ok || response.status === 201]. *)
Definition accepted (response : Response) : bool :=
  ok response || Z.eqb (status response) 201.

(** The world after the consent request got outcome [o]. *)
Definition afterConsent (isAcceptAll : bool) (tokenToUse : jsval) (o : FetchOutcome)
    (w : World) : World :=
  match o with
  | Failed m => shown (AlertSaveFailed (NetworkError m)) w
  | Answered response =>
      if accepted response then
        match consentIdOf (parsedDataOf response) with
        | inr consentId =>
            let shownId := if isSavedMarker consentId then JStr "N/A" else consentId in
            shown (if convertible shownId && convertible tokenToUse
                   then AlertSuccess (status response) shownId tokenToUse
                   else AlertSaveFailed NotPrimitive)
              (withApp (setLastConsentId consentId)
                 (withApp (setConsentStatus
                             (if isAcceptAll then AllAccepted else CustomPreferences)) w))
        | inl e => shown (AlertSaveFailed e) w
        end
      else shown (AlertApiResponse (status response) (parsedDataOf response)) w
  end.

(** The configuration id a submission started in [w] works with: the
    cell of the render, or else what the service answers. *)
Definition resolvedConfig (net : Network) (w : World) : option jsval :=
  let s := app w in
  if truthy (configId s) then Some (configId s)
  else configurationAnswer (net (requests w) (configurationRequest s)).

Definition configRequests (s : AppState) : list Request :=
  if truthy (configId s) then [] else [configurationRequest s].

(** The token that submission works with, or why it has none. *)
Definition resolvedToken (net : Network) (w : World) : JsError + jsval :=
  let s := app w in
  if truthy (currentUserToken s) then inr (currentUserToken s)
  else tokenAnswer (net (requests w ++ configRequests s) (tokenRequest s)).

Definition tokenRequests (s : AppState) : list Request :=
  if truthy (currentUserToken s) then [] else [tokenRequest s].

(** The world a submission started in [w] leaves behind. *)
Definition submitted (net : Network) (isAcceptAll : bool) (w : World) : World :=
  let s := app w in
  let w0 := withApp (setLoading true) w in
  match resolvedConfig net w with
  | None =>
      withApp (setLoading false)
        (shown AlertConfigUnavailable (sent (configurationRequest s) w0))
  | Some currentConfigId =>
      let w1 := if truthy (configId s) then w0
                else withApp (setConfigId currentConfigId)
                       (sent (configurationRequest s) w0) in
      match resolvedToken net w with
      | inl e =>
          withApp (setLoading false)
            (shown (AlertTokenUnavailable e) (sent (tokenRequest s) w1))
      | inr tokenToUse =>
          let w2 := if truthy (currentUserToken s) then w1
                    else withApp (setCurrentUserToken tokenToUse)
                           (sent (tokenRequest s) w1) in
          let w3 := withApp (setLastConsentToken tokenToUse) w2 in
          let request := consentRequest s isAcceptAll currentConfigId tokenToUse in
          closeModal
            (afterConsent isAcceptAll tokenToUse (net (requests w3) request)
               (sent request w3))
      end
  end.

(** The requests among [rs] that carry a consent. *)
Definition posts (rs : list Request) : list Request :=
  filter (fun r => match method r with POST => true | GET => false end) rs.

(** The fields of a response body that may hold the record id, in the
    order the handler tries them. *)
Definition recordIdFields : list string :=
  ["id"; "_id"; "consentId"; "uuid"; "insertedId"].

(** The record id the server assigned, when the body holds one. *)
Definition serverRecordId (responseBody : jsval) : option jsval :=
  find truthy
    (map (fun field => match get_prop responseBody field with
                       | inr v => v
                       | inl _ => JUndefined
                       end) recordIdFields).


(** The demo service with HTTP 500 for every consent. *)
Definition failingService : Network :=
  demoServiceWith (Answered (mkResponse 500 "Internal Server Error" None)).


(** What [fetchVendors] makes of an outcome: a vendor list to install, an
    answer it passes over, or the fallback to the hardcoded preferences. *)
Inductive VendorsAnswer : Type :=
| VendorsLoaded (vendorMap : jsobj Vendor) (vendorPreferences : jsobj bool)
| VendorsIgnored
| VendorsFallback.

Definition vendorsAnswer (o : FetchOutcome) : VendorsAnswer :=
  match o with
  | Failed _ => VendorsFallback
  | Answered response =>
      if ok response then
        match json response with
        | None => VendorsFallback
        | Some vendorData =>
            if truthy vendorData then
              match get_prop vendorData "vendors" with
              | inl _ => VendorsFallback
              | inr (JArr xs) =>
                  match forEachVendor xs ([], []) with
                  | inl _ => VendorsFallback
                  | inr (vendorMap, vendorPreferences) =>
                      VendorsLoaded vendorMap vendorPreferences
                  end
              | inr _ => VendorsIgnored
              end
            else VendorsIgnored
        end
      else VendorsFallback
  end.

(** The vendor fetch failed: a network error or an error status. *)
Definition vendorFetchFailed (o : FetchOutcome) : Prop :=
  match o with
  | Failed _ => True
  | Answered response => ok response = false
  end.

(** Every choice of a preference object is a rejection. *)
Definition allRejected (preferences : jsobj bool) : Prop :=
  Forall (fun choice => choice = false) (obj_values preferences).

(** The configuration is unavailable: the request failed, the status is
    an error, the body is not JSON, or the payload has no truthy
    [defaultConfigId]. *)
Definition configUnavailable (o : FetchOutcome) : Prop :=
  match o with
  | Failed _ => True
  | Answered response =>
      ok response = false \/
      json response = None \/
      exists data,
        json response = Some data /\
        forall v, get_prop data "defaultConfigId" = inr v -> truthy v = false
  end.

(** A service that issues a new token at every request: [tok0], [tok1],
    and so on, numbered by the requests it has seen. *)
Definition issuingService : Network :=
  fun history _ =>
    jsonResponse 200
      (JObj [("token",
              JStr ("tok" +++ NilZero.string_of_uint (Nat.to_uint (length history))))]).

(** ** The earlier demo

    The second application of src/unnamed/part_003: three hardcoded vendors,
    fixed project and API token, and a consent token made from the clock.
    It uses the cells modalVisible, loading, vendors, consentStatus,
    lastConsentId and configId. *)
Module SimpleDemo.

Definition PROJECT_ID : string := "67fcdb2b52ab9a99a5865f4d".
Definition API_BASE : string := "https://staging-api.axeptio.tech/mobile".
Definition TEST_API_TOKEN : string := "project_67fcdb2b52ab9a99a5865f4d_test_token".

Definition configurationRequest : Request :=
  mkRequest GET (API_BASE +++ "/configurations/" +++ PROJECT_ID)
    ("Bearer " +++ TEST_API_TOKEN) JUndefined.

Definition fetchConfiguration : Prog jsval :=
  try_catch
    (response <- fetch configurationRequest ;;
     if ok response then
       data <- response_json response ;;
       defaultConfigId <- prop data "defaultConfigId" ;;
       if truthy defaultConfigId
       then SetState (setConfigId defaultConfigId) (Ret defaultConfigId)
       else Ret JNull
     else Ret JNull)
    (fun error => Ret JNull).

(** [isAcceptAll || vendors.key]. *)
Definition choice (s : AppState) (isAcceptAll : bool) (key : string) : jsval :=
  if isAcceptAll then JBool true
  else match obj_get (vendors s) key with
       | Some c => JBool c
       | None => JUndefined
       end.

(** The [consent] object literal; [now] is the reading of [Date.now()]. *)
Definition consentPayload (now : Z) (isAcceptAll : bool) (s : AppState) : jsval :=
  JObj
    [ ("accept", JBool true);
      ("preferences",
       JObj [ ("vendors",
               JObj [ ("google_analytics", choice s isAcceptAll "google_analytics");
                      ("facebook_pixel", choice s isAcceptAll "facebook_pixel");
                      ("mixpanel", choice s isAcceptAll "mixpanel") ]) ]);
      ("token", JStr ("mobile_user_" +++ js_to_string (JNum now))) ].

Definition consentRequest (now : Z) (isAcceptAll : bool) (s : AppState)
    (currentConfigId : jsval) : Request :=
  mkRequest POST
    (API_BASE +++ "/consents/" +++ PROJECT_ID +++ "/cookies/"
       +++ js_to_string currentConfigId)
    ("Bearer " +++ TEST_API_TOKEN)
    (consentPayload now isAcceptAll s).

Definition submitConsent (now : Z) (isAcceptAll : bool) (s : AppState) : Prog unit :=
  SetState (setLoading true)
    (resolvedConfig <-
       (if truthy (configId s) then Ret (Some (configId s))
        else
          fetched <- fetchConfiguration ;;
          if truthy fetched then Ret (Some fetched)
          else ShowAlert AlertConfigUnavailable (SetState (setLoading false) (Ret None))) ;;
     match resolvedConfig with
     | None => Ret tt
     | Some currentConfigId =>
         finally
           (try_catch
              (response <- fetch (consentRequest now isAcceptAll s currentConfigId) ;;
               let parsedData :=
                 match json response with
                 | Some parsed => parsed
                 | None => JObj [("message", JStr (text response))]
                 end in
               if ok response || Z.eqb (status response) 201 then
                 SetState (setConsentStatus
                             (if isAcceptAll then AllAccepted else CustomPreferences))
                   (id <- prop parsedData "id" ;;
                    SetState (setLastConsentId (js_or id (JStr "saved")))
                      (_ <- lift (js_template (js_or id (JStr "N/A"))) ;;
                       ShowAlert (AlertSaved (status response) (js_or id (JStr "N/A")))
                         (Ret tt)))
               else
                 ShowAlert (AlertApiResponse (status response) parsedData) (Ret tt))
              (fun error => ShowAlert (AlertSaveFailed error) (Ret tt)))
           (SetState (setLoading false) (SetState (setModalVisible false) (Ret tt)))
     end).

End SimpleDemo.

(** Every request a handler may send satisfies [P]. *)
Fixpoint sends {A : Type} (P : Request -> Prop) (p : Prog A) : Prop :=
  match p with
  | Ret _ | Throw _ => True
  | SetState _ k | ShowAlert _ k => sends P k
  | GetItem _ k => forall v, sends P (k v)
  | Await r k => P r /\ forall o, sends P (k o)
  end.

(** The wire payload of a consent has [accept: true] at top level. *)
Definition acceptsOnWire (r : Request) : Prop :=
  method r = POST -> get_prop (body r) "accept" = inr (JBool true).

(** The choices of a wire payload: [preferences.vendors]. *)
Definition vendorChoicesOf (payload : jsval) : JsError + jsval :=
  preferences <~ get_prop payload "preferences" ;;
  get_prop preferences "vendors".

(** ** The event loop

    Handlers overlap: while one is suspended at an [await], events start
    others.  The state a handler reads is that of the render it was
    started from; the state it writes is the current one. *)

(** Who started a suspended handler. *)
Inductive Origin : Type :=
| Submission      (* a call of [submitConsent] *)
| Background.     (* the mount effect, [initializeApp] *)

(** A handler suspended at [await fetch(inFlight)]. *)
Record Task : Type := mkTask {
  origin : Origin;
  inFlight : Request;
  resume : FetchOutcome -> Prog unit
}.

Record System : Type := mkSystem {
  world : World;
  pending : list Task
}.

(** Run a handler up to its next [await], or to its end.  A handler that
    ends by a throw is an unhandled rejection: it ends all the same. *)
Fixpoint advance (p : Prog unit) (w : World)
  : World * option (Request * (FetchOutcome -> Prog unit)) :=
  match p with
  | Ret _ | Throw _ => (w, None)
  | SetState f k => advance k (withApp f w)
  | ShowAlert a k => advance k (shown a w)
  | GetItem key k => advance (k (obj_get (storage w) key)) w
  | Await r k => (sent r w, Some (r, k))
  end.

Definition spawn (from : Origin) (p : Prog unit) (sys : System) : System :=
  match advance p (world sys) with
  | (w', None) => mkSystem w' (pending sys)
  | (w', Some (r, k)) => mkSystem w' (pending sys ++ [mkTask from r k])
  end.

Definition removeAt {A : Type} (i : nat) (l : list A) : list A :=
  firstn i l ++ skipn (S i) l.

Inductive Event : Type :=
| PressSave (isAcceptAll : bool)   (* a tap on Save My Choices *)
| CallSubmit (isAcceptAll : bool)  (* [submitConsent] called whatever the button shows *)
| Mount                            (* the effect that runs [initializeApp] *)
| Settle (i : nat) (o : FetchOutcome). (* the i-th request in flight gets its outcome *)

(** The button is rendered with [disabled={loading || vendorsLoading}]: a
    tap on it while disabled starts nothing.  The render is taken to be up
    to date when an event arrives. *)
Definition react (e : Event) (sys : System) : System :=
  let s := app (world sys) in
  match e with
  | PressSave isAcceptAll =>
      if loading s || vendorsLoading s then sys
      else spawn Submission (submitConsent isAcceptAll s) sys
  | CallSubmit isAcceptAll => spawn Submission (submitConsent isAcceptAll s) sys
  | Mount => spawn Background (initializeApp s) sys
  | Settle i o =>
      match nth_error (pending sys) i with
      | None => sys
      | Some t =>
          spawn (origin t) (resume t o) (mkSystem (world sys) (removeAt i (pending sys)))
      end
  end.

Definition replay (events : list Event) (sys : System) : System :=
  fold_left (fun sys0 e => react e sys0) events sys.

(** The application just rendered in state [s], nothing in flight. *)
Definition boot (s : AppState) : System := mkSystem (freshWorld s) [].

Definition isSubmission (t : Task) : bool :=
  match origin t with
  | Submission => true
  | Background => false
  end.

(** The submissions in flight. *)
Definition submissionsInFlight (sys : System) : list Task :=
  filter isSubmission (pending sys).

(** Events of the user interface: [submitConsent] starts from the button only. *)
Definition fromTheButton (e : Event) : Prop :=
  match e with
  | CallSubmit _ => False
  | _ => True
  end.

(** A handler that clears the loading flag before it ends, and not before:
    started in state [st] it ends with the flag cleared, or suspends with
    the flag set and, resumed in any state with the flag set, goes on alike.
    [Q] is what holds when it settles. *)
Fixpoint serial {A : Type} (Q : Completion A -> AppState -> Prop) (p : Prog A)
    (st : AppState) : Prop :=
  match p with
  | Ret a => Q (Returned a) st
  | Throw e => Q (Rejected e) st
  | SetState f k => serial Q k (f st)
  | ShowAlert _ k => serial Q k st
  | GetItem _ k => forall v, serial Q (k v) st
  | Await _ k =>
      loading st = true /\
      forall o st', loading st' = true -> serial Q (k o) st'
  end.

(** A handler that never writes the loading flag. *)
Fixpoint neutral {A : Type} (p : Prog A) : Prop :=
  match p with
  | Ret _ | Throw _ => True
  | SetState f k => (forall s, loading (f s) = loading s) /\ neutral k
  | ShowAlert _ k => neutral k
  | GetItem _ k => forall v, neutral (k v)
  | Await _ k => forall o, neutral (k o)
  end.

Definition cleared {A : Type} (c : Completion A) (st : AppState) : Prop :=
  loading st = false.

(** What the event loop keeps true of a suspended handler. *)
Definition taskOk (t : Task) : Prop :=
  match origin t with
  | Submission => forall o st, loading st = true -> serial cleared (resume t o) st
  | Background => forall o, neutral (resume t o)
  end.

(** The invariant of the event loop under the button. *)
Definition serialized (sys : System) : Prop :=
  Forall taskOk (pending sys) /\
  (loading (app (world sys)) = false -> submissionsInFlight sys = []) /\
  (length (submissionsInFlight sys) <= 1)%nat.

(** ** The switches of the modal *)

(** [preferences[vendorKey] || false]. *)
Definition choiceOf (preferences : jsobj bool) (vendorKey : string) : bool :=
  match obj_get preferences vendorKey with
  | Some choice => choice
  | None => false
  end.

(** [toggleVendor]: [setVendors(prev => ({...prev, [vendorKey]: !prev[vendorKey]}))]. *)
Definition toggleVendor (vendorKey : string) (s : AppState) : AppState :=
  setVendors (obj_set (vendors s) vendorKey (negb (choiceOf (vendors s) vendorKey))) s.

(** [Object.keys(apiVendors).reduce((acc, key) => ({...acc, [key]: choice}), {})]. *)
Definition allSetTo (choice : bool) (s : AppState) : jsobj bool :=
  fold_left (fun acc key => obj_set acc key choice) (obj_keys (apiVendors s)) [].

Definition acceptAll (s : AppState) : AppState := setVendors (allSetTo true s) s.

Definition rejectAll (s : AppState) : AppState := setVendors (allSetTo false s) s.

(** The key under which a submission sends the choice of a listed vendor:
    [`${vendor.id} (${vendor.name})`]. *)
Definition wireKey (vendor : Vendor) : string :=
  js_to_string (v_id vendor) +++ " (" +++ js_to_string (v_name vendor) +++ ")".

(** A vendor list whose every entry sits under its own wire key. *)
Definition keyedByWireKey (vendorMap : jsobj Vendor) : Prop :=
  Forall (fun entry => fst entry = wireKey (snd entry)) vendorMap.

(** ** The other buttons

    The handlers behind the remaining buttons of the screen raise dialogs
    of their own, write the device store and show or hide the settings
    modal.  They are trees of the same kind over the wider state. *)

Record Screen : Type := mkScreen {
  cells : AppState;
  settingsModalVisible : bool
}.

Definition onCells (f : AppState -> AppState) (sc : Screen) : Screen :=
  mkScreen (f (cells sc)) (settingsModalVisible sc).

Definition setSettingsModalVisible (b : bool) (sc : Screen) : Screen :=
  mkScreen (cells sc) b.

(** The dialogs of the screen, one constructor per [Alert.alert] call
    site of the handlers below; [CoreAlert] carries those of the handlers
    above. *)
Inductive Dialog : Type :=
| CoreAlert (a : Alert)
| NewTokenGenerated (newToken : jsval)
| TokenGenerationFailed (error : JsError)
| AuthStatus (project tier authorized : jsval)
| AuthFailed (code : Z) (errorText : string)
| AuthCheckFailed (error : JsError)
| NoTokenAvailable
| ConsentFound (accept : bool) (vendorCount acceptedVendors : nat)
    (token timestamp id : jsval)
| NoConsentFound
| NoConsentFoundFor (token : jsval)
| ConsentReadError (code : Z) (errorText : string)
| ConsentCheckFailed (error : JsError)
| ValidationError
| SettingsSaved
| SettingsSaveFailed (error : JsError)
| ResetSettingsPrompt.

Inductive Action (A : Type) : Type :=
| Done (a : A)
| Fail (e : JsError)
| Change (f : Screen -> Screen) (k : Action A)
| Popup (d : Dialog) (k : Action A)
| ReadItem (key : string) (k : option string -> Action A)
| WriteItem (key value : string) (k : Action A)
| Send (r : Request) (k : FetchOutcome -> Action A).

Arguments Done {A} a.
Arguments Fail {A} e.
Arguments Change {A} f k.
Arguments Popup {A} d k.
Arguments ReadItem {A} key k.
Arguments WriteItem {A} key value k.
Arguments Send {A} r k.

Fixpoint andThen {A B : Type} (h : Action A) (f : A -> Action B) : Action B :=
  match h with
  | Done a => f a
  | Fail e => Fail e
  | Change g k => Change g (andThen k f)
  | Popup d k => Popup d (andThen k f)
  | ReadItem key k => ReadItem key (fun v => andThen (k v) f)
  | WriteItem key value k => WriteItem key value (andThen k f)
  | Send r k => Send r (fun o => andThen (k o) f)
  end.

(** [try { h } catch (error) { handle error }]. *)
Fixpoint rescue {A : Type} (h : Action A) (handle : JsError -> Action A) : Action A :=
  match h with
  | Done a => Done a
  | Fail e => handle e
  | Change g k => Change g (rescue k handle)
  | Popup d k => Popup d (rescue k handle)
  | ReadItem key k => ReadItem key (fun v => rescue (k v) handle)
  | WriteItem key value k => WriteItem key value (rescue k handle)
  | Send r k => Send r (fun o => rescue (k o) handle)
  end.

(** [try { h } finally { q }]. *)
Fixpoint ensure {A : Type} (h : Action A) (q : Action unit) : Action A :=
  match h with
  | Done a => andThen q (fun _ => Done a)
  | Fail e => andThen q (fun _ => Fail e)
  | Change g k => Change g (ensure k q)
  | Popup d k => Popup d (ensure k q)
  | ReadItem key k => ReadItem key (fun v => ensure (k v) q)
  | WriteItem key value k => WriteItem key value (ensure k q)
  | Send r k => Send r (fun o => ensure (k o) q)
  end.

Notation "x <<- h ;; q" := (andThen h (fun x => q))
  (at level 61, h at next level, right associativity).

(** A handler of the first kind, called from one of these. *)
Fixpoint core {A : Type} (p : Prog A) : Action A :=
  match p with
  | Ret a => Done a
  | Throw e => Fail e
  | SetState f k => Change (onCells f) (core k)
  | ShowAlert a k => Popup (CoreAlert a) (core k)
  | GetItem key k => ReadItem key (fun v => core (k v))
  | Await r k => Send r (fun o => core (k o))
  end.

Definition evaluate {A : Type} (x : JsError + A) : Action A :=
  match x with
  | inl e => Fail e
  | inr a => Done a
  end.

(** [await fetch(r)], then the body of the response. *)
Definition request (r : Request) : Action Response :=
  Send r (fun o =>
    match o with
    | Failed m => Fail (NetworkError m)
    | Answered response => Done response
    end).

Definition bodyJson (response : Response) : Action jsval :=
  match json response with
  | Some data => Done data
  | None => Fail SyntaxError
  end.

(** [generateNewToken]: the Generate New Token button. *)
Definition generateNewToken (sc : Screen) : Action unit :=
  Change (onCells (setLoading true))
    (ensure
       (rescue
          (newToken <<- core (fetchToken (cells sc)) ;;
           Change (onCells (setCurrentUserToken newToken))
             (Change (onCells (setLastConsentToken JNull))
                (Popup (NewTokenGenerated newToken) (Done tt))))
          (fun error => Popup (TokenGenerationFailed error) (Done tt)))
       (Change (onCells (setLoading false)) (Done tt))).

Definition authRequest (s : AppState) : Request :=
  mkRequest GET (apiBase s +++ "/auth/me") (bearer s) JUndefined.

(** [checkAuth]: the Check Auth button.  The text of the success dialog
    converts three fields of the body, and each conversion may throw. *)
Definition checkAuth (sc : Screen) : Action unit :=
  Change (onCells (setLoading true))
    (ensure
       (rescue
          (response <<- request (authRequest (cells sc)) ;;
           if ok response then
             data <<- bodyJson response ;;
             project <<- evaluate (get_prop data "projectId") ;;
             tier <<- evaluate (get_prop data "tier") ;;
             authorized <<- evaluate (get_prop data "authorized") ;;
             _ <<- evaluate (js_template project) ;;
             _ <<- evaluate (js_template tier) ;;
             _ <<- evaluate (js_template authorized) ;;
             Popup (AuthStatus project tier authorized) (Done tt)
           else
             Popup (AuthFailed (status response) (text response)) (Done tt))
          (fun error => Popup (AuthCheckFailed error) (Done tt)))
       (Change (onCells (setLoading false)) (Done tt))).

(** The entries of an object, each key once. *)
Fixpoint distinctEntries {A : Type} (seen : list string) (o : jsobj A) : jsobj A :=
  match o with
  | [] => []
  | (k, v) :: rest =>
      if existsb (String.eqb k) seen then distinctEntries seen rest
      else (k, v) :: distinctEntries (k :: seen) rest
  end.

(** [Object.values(v)] for a value that is not null: the values of an
    object, the elements of an array, the characters of a string. *)
Definition objectValues (v : jsval) : JsError + list jsval :=
  match v with
  | JUndefined | JNull => inl (TypeError "Object.values")
  | JObj fields => inr (obj_values (distinctEntries [] fields))
  | JArr xs => inr xs
  | JStr x => inr (map (fun c => JStr (String c EmptyString)) (list_ascii_of_string x))
  | JBool _ | JNum _ => inr []
  end.

(** [Object.keys(v).length]: as many keys as values. *)
Definition objectKeysLength (v : jsval) : JsError + nat :=
  values <~ objectValues v ;; inr (length values).

(** [typeof v === 'object']. *)
Definition typeofObject (v : jsval) : bool :=
  match v with
  | JNull | JArr _ | JObj _ => true
  | _ => false
  end.

(** [data.preferences?.vendors || {}]. *)
Definition vendorsOfConsent (data : jsval) : JsError + jsval :=
  preferences <~ get_prop data "preferences" ;;
  match preferences with
  | JUndefined | JNull => inr (JObj [])
  | _ => listed <~ get_prop preferences "vendors" ;; inr (js_or listed (JObj []))
  end.

(** The request for the stored consent; the token and the configuration
    id in its address are taken to convert to text. *)
Definition consentReadRequest (s : AppState) (currentConfigId : jsval) : Request :=
  mkRequest GET
    (apiBase s +++ "/client/" +++ projectId s +++ "/consents/"
       +++ js_to_string (lastConsentToken s)
       +++ "?identifier=" +++ js_to_string currentConfigId +++ "&service=cookies")
    (bearer s) JUndefined.

(** The dialog [checkConsentStatus] raises for a success with body
    [data]; the conversion of the timestamp or of the id in its text may
    throw. *)
Definition describeConsent (s : AppState) (data : jsval) : Action unit :=
  keyCount <<- (if truthy data && typeofObject data
                then evaluate (objectKeysLength data) else Done O) ;;
  if truthy data && typeofObject data && negb (Nat.eqb keyCount 0) then
    listed <<- evaluate (vendorsOfConsent data) ;;
    vendorCount <<- evaluate (objectKeysLength listed) ;;
    values <<- evaluate (objectValues listed) ;;
    accept <<- evaluate (get_prop data "accept") ;;
    createdAt <<- evaluate (get_prop data "createdAt") ;;
    timestamp <<- evaluate (get_prop data "timestamp") ;;
    id <<- evaluate (get_prop data "id") ;;
    _id <<- evaluate (get_prop data "_id") ;;
    let shownTime := js_or createdAt (js_or timestamp (JStr "Unknown")) in
    let shownId := js_or id (js_or _id (JStr "Unknown")) in
    _ <<- evaluate (js_template shownTime) ;;
    _ <<- evaluate (js_template shownId) ;;
    Popup (ConsentFound (truthy accept) vendorCount (length (filter truthy values))
             (lastConsentToken s) shownTime shownId)
      (Done tt)
  else
    Popup NoConsentFound (Done tt).

(** [checkConsentStatus]: the Check Consent Status button. *)
Definition checkConsentStatus (sc : Screen) : Action unit :=
  let s := cells sc in
  if negb (truthy (lastConsentToken s)) then Popup NoTokenAvailable (Done tt)
  else
    Change (onCells (setLoading true))
      (resolvedConfig <<- core (ensureConfigId s) ;;
       match resolvedConfig with
       | None => Done tt
       | Some currentConfigId =>
           ensure
             (rescue
                (response <<- request (consentReadRequest s currentConfigId) ;;
                 if ok response then
                   data <<- bodyJson response ;;
                   describeConsent s data
                 else if Z.eqb (status response) 404 then
                   Popup (NoConsentFoundFor (lastConsentToken s)) (Done tt)
                 else
                   Popup (ConsentReadError (status response) (text response)) (Done tt))
                (fun error => Popup (ConsentCheckFailed error) (Done tt)))
             (Change (onCells (setLoading false)) (Done tt))
       end).

(** [saveSettings]: both settings written to the device store. *)
Definition saveSettings (newProjectId newEnvironment : string) : Action unit :=
  rescue
    (WriteItem STORAGE_PROJECT_ID newProjectId
       (WriteItem STORAGE_ENVIRONMENT newEnvironment (Done tt)))
    (fun error => Fail error).

(** [handleSaveSettings]: the Save button of the settings modal.  [trim]
    is [String.prototype.trim]. *)
Definition handleSaveSettings (trim : string -> string) (sc : Screen) : Action unit :=
  let s := cells sc in
  if String.eqb (tempProjectId s) EmptyString
     || String.eqb (trim (tempProjectId s)) EmptyString
  then Popup ValidationError (Done tt)
  else
    Change (onCells (setLoading true))
      (ensure
         (rescue
            (_ <<- saveSettings (tempProjectId s) (tempEnvironment s) ;;
             Change (onCells (setProjectId (tempProjectId s)))
               (Change (onCells (setEnvironment (tempEnvironment s)))
                  (Change (setSettingsModalVisible false)
                     (Change (onCells (setConfigId JNull))
                        (Change (onCells (setCurrentUserToken JNull))
                           (Change (onCells (setLastConsentToken JNull))
                              (Change (onCells (setLastConsentId JNull))
                                 (Change (onCells (setConsentStatus NotSet))
                                    (Popup SettingsSaved (Done tt))))))))))
            (fun error => Popup (SettingsSaveFailed error) (Done tt)))
         (Change (onCells (setLoading false)) (Done tt))).

(** [openSettings], [handleCancelSettings]: the form shows the settings
    in force. *)
Definition openSettings (sc : Screen) : Screen :=
  setSettingsModalVisible true
    (onCells (setTempEnvironment (environment (cells sc)))
       (onCells (setTempProjectId (projectId (cells sc))) sc)).

Definition handleCancelSettings (sc : Screen) : Screen :=
  setSettingsModalVisible false
    (onCells (setTempEnvironment (environment (cells sc)))
       (onCells (setTempProjectId (projectId (cells sc))) sc)).

(** [handleResetSettings] raises a prompt; [confirmReset] is the Reset
    button of that prompt. *)
Definition handleResetSettings : Action unit := Popup ResetSettingsPrompt (Done tt).

Definition confirmReset (sc : Screen) : Screen :=
  onCells (setTempEnvironment DEFAULT_ENVIRONMENT)
    (onCells (setTempProjectId DEFAULT_PROJECT_ID) sc).

(** A tap on one of the environment options, which are the keys of
    [ENVIRONMENTS], and typing in the project id field. *)
Definition chooseEnvironment (key : string) (sc : Screen) : Screen :=
  onCells (setTempEnvironment key) sc.

Definition typeProjectId (text : string) (sc : Screen) : Screen :=
  onCells (setTempProjectId text) sc.

(** An environment name of the table. *)
Definition knownEnvironment (name : string) : Prop :=
  In name (obj_keys ENVIRONMENTS).

(** The screen, the device store, the requests sent and the dialogs
    raised. *)
Record Device : Type := mkDevice {
  screen : Screen;
  disk : Storage;
  wire : list Request;
  dialogs : list Dialog
}.

(** Writes to the device store are taken to succeed, like reads. *)
Fixpoint perform {A : Type} (net : Network) (h : Action A) (d : Device)
  : Completion A * Device :=
  match h with
  | Done a => (Returned a, d)
  | Fail e => (Rejected e, d)
  | Change f k => perform net k (mkDevice (f (screen d)) (disk d) (wire d) (dialogs d))
  | Popup x k => perform net k (mkDevice (screen d) (disk d) (wire d) (dialogs d ++ [x]))
  | ReadItem key k => perform net (k (obj_get (disk d) key)) d
  | WriteItem key value k =>
      perform net k (mkDevice (screen d) (obj_set (disk d) key value) (wire d) (dialogs d))
  | Send r k =>
      perform net (k (net (wire d) r))
        (mkDevice (screen d) (disk d) (wire d ++ [r]) (dialogs d))
  end.

(** A button pressed on the current render. *)
Definition press {A : Type} (net : Network) (handler : Screen -> Action A) (d : Device)
  : Completion A * Device :=
  perform net (handler (screen d)) d.

(** The device on which the world [w] is seen. *)
Definition deviceOf (settingsVisible : bool) (w : World) : Device :=
  mkDevice (mkScreen (app w) settingsVisible) (storage w) (requests w)
    (map CoreAlert (alerts w)).

(** The application at launch: the state of the first render, and what
    the device store holds. *)
Definition launch (store : Storage) : Device :=
  mkDevice (mkScreen initialState false) store [] [].

(** The device seen with the dialogs [ds] raised before [w] began. *)
Definition onDevice (settingsVisible : bool) (ds : list Dialog) (w : World) : Device :=
  mkDevice (mkScreen (app w) settingsVisible) (storage w) (requests w)
    (ds ++ map CoreAlert (alerts w)).

(** What the handlers of the first kind see of a device. *)
Definition worldOf (d : Device) : World :=
  mkWorld (cells (screen d)) (disk d) (wire d) [].

(** [trim] on strings of ASCII characters: spaces, tabs and line breaks
    dropped at both ends. *)
Definition isSpace (c : ascii) : bool :=
  let n := nat_of_ascii c in
  Nat.eqb n 32 || (Nat.leb 9 n && Nat.leb n 13).

Fixpoint dropSpaces (cs : list ascii) : list ascii :=
  match cs with
  | c :: rest => if isSpace c then dropSpaces rest else cs
  | [] => []
  end.

Definition asciiTrim (x : string) : string :=
  string_of_list_ascii (rev (dropSpaces (rev (dropSpaces (list_ascii_of_string x))))).

(** Every value of an object is [c]. *)
Definition allEqual (c : bool) (preferences : jsobj bool) : Prop :=
  Forall (fun choice => choice = c) (obj_values preferences).

(** The device after one more dialog. *)
Definition raised (x : Dialog) (d : Device) : Device :=
  mkDevice (screen d) (disk d) (wire d) (dialogs d ++ [x]).

(** What the user does with the settings: the buttons of the settings
    modal, its two inputs, and a launch that loads the saved settings. *)
Inductive SettingsEvent : Type :=
| OpenSettings
| CancelSettings
| ConfirmReset
| ChooseEnvironment (key : string)
| TypeProjectId (text : string)
| SaveSettings
| LoadSettings.

Definition onScreen (f : Screen -> Screen) (d : Device) : Device :=
  mkDevice (f (screen d)) (disk d) (wire d) (dialogs d).

Definition settingsStep (trim : string -> string) (net : Network) (d : Device)
    (e : SettingsEvent) : Device :=
  match e with
  | OpenSettings => onScreen openSettings d
  | CancelSettings => onScreen handleCancelSettings d
  | ConfirmReset => onScreen confirmReset d
  | ChooseEnvironment key => onScreen (chooseEnvironment key) d
  | TypeProjectId text => onScreen (typeProjectId text) d
  | SaveSettings => snd (press net (handleSaveSettings trim) d)
  | LoadSettings => snd (press net (fun sc => core (loadSettings (cells sc))) d)
  end.

(** The options the modal offers are the keys of [ENVIRONMENTS]. *)
Definition offered (e : SettingsEvent) : Prop :=
  match e with
  | ChooseEnvironment key => knownEnvironment key
  | _ => True
  end.

(** The environment in force and the one in the form are known ones. *)
Definition formSound (sc : Screen) : Prop :=
  knownEnvironment (environment (cells sc)) /\
  knownEnvironment (tempEnvironment (cells sc)).

(** The project id typed in passes the check of [handleSaveSettings]. *)
Definition blankProjectId (trim : string -> string) (s : AppState) : bool :=
  String.eqb (tempProjectId s) EmptyString
  || String.eqb (trim (tempProjectId s)) EmptyString.

(** The device store holds no environment name but a known one. *)
Definition storeSound (st : Storage) : Prop :=
  forall e, obj_get st STORAGE_ENVIRONMENT = Some e -> knownEnvironment e.

(** The events that edit the form or show it, and neither save nor load. *)
Definition formOnly (e : SettingsEvent) : Prop :=
  match e with
  | SaveSettings | LoadSettings => False
  | _ => True
  end.

(** What the dialog [x] of [checkConsentStatus] says of a success body
    [data]. *)
Definition describes (s : AppState) (data : jsval) (x : Dialog) : Prop :=
  (truthy data = false -> x = NoConsentFound) /\
  (data = JObj [] -> x = NoConsentFound) /\
  (forall entry rest createdAt timestamp id _id,
      data = JObj (entry :: rest) ->
      get_prop data "createdAt" = inr createdAt ->
      get_prop data "timestamp" = inr timestamp ->
      get_prop data "id" = inr id ->
      get_prop data "_id" = inr _id ->
      let shownTime := js_or createdAt (js_or timestamp (JStr "Unknown")) in
      let shownId := js_or id (js_or _id (JStr "Unknown")) in
      if convertible shownTime && convertible shownId then
        exists accept vendorCount acceptedVendors,
          x = ConsentFound accept vendorCount acceptedVendors (lastConsentToken s)
                shownTime shownId /\
          (acceptedVendors <= vendorCount)%nat
      else x = ConsentCheckFailed NotPrimitive).

(** * Properties *)

(** ** Laws of the interpreter *)

Section RunLaws.

Context {A B : Type}.
Variable net : Network.

Lemma run_bind (p : Prog A) (f : A -> Prog B) (w : World) :
  run net (bind p f) w =
  match run net p w with
  | (Returned a, w') => run net (f a) w'
  | (Rejected e, w') => (Rejected e, w')
  end.
Proof.
  revert w.
  induction p as [a | e | g k IH | al k IH | key k IH | r k IH];
    intro w; cbn [bind run]; auto.
Qed.

End RunLaws.

Section RunLaws1.

Context {A : Type}.
Variable net : Network.

Lemma run_try_catch (p : Prog A) (h : JsError -> Prog A) (w : World) :
  run net (try_catch p h) w =
  match run net p w with
  | (Returned a, w') => (Returned a, w')
  | (Rejected e, w') => run net (h e) w'
  end.
Proof.
  revert w.
  induction p as [a | e | g k IH | al k IH | key k IH | r k IH];
    intro w; cbn [try_catch run]; auto.
Qed.

Lemma run_finally (p : Prog A) (q : Prog unit) (w : World) :
  run net (finally p q) w =
  match run net p w with
  | (Returned a, w') =>
      match run net q w' with
      | (Returned _, w'') => (Returned a, w'')
      | (Rejected e', w'') => (Rejected e', w'')
      end
  | (Rejected e, w') =>
      match run net q w' with
      | (Returned _, w'') => (Rejected e, w'')
      | (Rejected e', w'') => (Rejected e', w'')
      end
  end.
Proof.
  revert w.
  induction p as [a | e | g k IH | al k IH | key k IH | r k IH];
    intro w; cbn [finally run]; auto.
  - rewrite run_bind. destruct (run net q w) as [[u | e'] w']; reflexivity.
  - rewrite run_bind. destruct (run net q w) as [[u | e'] w']; reflexivity.
Qed.

End RunLaws1.

(** ** The handlers, run *)

Ltac run_step :=
  cbn [run bind try_catch finally lift fst snd];
  repeat rewrite ?run_bind, ?run_try_catch, ?run_finally;
  cbn [run bind try_catch finally lift fst snd].

Lemma run_fetchConfiguration (net : Network) (s : AppState) (w : World) :
  run net (fetchConfiguration s) w =
  match configurationAnswer (net (requests w) (configurationRequest s)) with
  | Some id => (Returned id, withApp (setConfigId id) (sent (configurationRequest s) w))
  | None => (Returned JNull, sent (configurationRequest s) w)
  end.
Proof.
  unfold fetchConfiguration, fetch, response_json, prop, configurationAnswer.
  run_step.
  destruct (net (requests w) (configurationRequest s)) as [m | response]; run_step;
    [reflexivity |].
  destruct (ok response); run_step; [| reflexivity].
  destruct (json response) as [data |]; run_step; [| reflexivity].
  destruct (get_prop data "defaultConfigId") as [e | id]; run_step; [reflexivity |].
  destruct (truthy id); reflexivity.
Qed.

Lemma run_fetchToken (net : Network) (s : AppState) (w : World) :
  run net (fetchToken s) w =
  match tokenAnswer (net (requests w) (tokenRequest s)) with
  | inr token => (Returned token, sent (tokenRequest s) w)
  | inl e => (Rejected e, sent (tokenRequest s) w)
  end.
Proof.
  unfold fetchToken, fetch, response_json, prop, tokenAnswer.
  run_step.
  destruct (net (requests w) (tokenRequest s)) as [m | response]; run_step;
    [reflexivity |].
  destruct (ok response); run_step; [| reflexivity].
  destruct (json response) as [data |]; run_step; [| reflexivity].
  destruct (get_prop data "token") as [e | token]; run_step; [reflexivity |].
  destruct (truthy token); reflexivity.
Qed.

Lemma configurationAnswer_truthy (o : FetchOutcome) (id : jsval) :
  configurationAnswer o = Some id -> truthy id = true.
Proof.
  unfold configurationAnswer.
  destruct o as [m | response]; [discriminate |].
  destruct (ok response); [| discriminate].
  destruct (json response) as [data |]; [| discriminate].
  destruct (get_prop data "defaultConfigId") as [e | v]; [discriminate |].
  destruct (truthy v) eqn:Hv; [| discriminate].
  intro H; injection H as <-; exact Hv.
Qed.

Lemma tokenAnswer_truthy (o : FetchOutcome) (token : jsval) :
  tokenAnswer o = inr token -> truthy token = true.
Proof.
  unfold tokenAnswer.
  destruct o as [m | response]; [discriminate |].
  destruct (ok response); [| discriminate].
  destruct (json response) as [data |]; [| discriminate].
  destruct (get_prop data "token") as [e | v]; [discriminate |].
  destruct (truthy v) eqn:Hv; [| discriminate].
  intro H; injection H as <-; exact Hv.
Qed.

Lemma run_ensureConfigId (net : Network) (s : AppState) (w : World) :
  run net (ensureConfigId s) w =
  if truthy (configId s) then (Returned (Some (configId s)), w)
  else
    match configurationAnswer (net (requests w) (configurationRequest s)) with
    | Some id =>
        (Returned (Some id), withApp (setConfigId id) (sent (configurationRequest s) w))
    | None =>
        (Returned None,
         withApp (setLoading false)
           (shown AlertConfigUnavailable (sent (configurationRequest s) w)))
    end.
Proof.
  unfold ensureConfigId.
  destruct (truthy (configId s)); [reflexivity |].
  rewrite run_bind, run_fetchConfiguration.
  destruct (configurationAnswer _) as [id |] eqn:Hid.
  - rewrite (configurationAnswer_truthy _ _ Hid). reflexivity.
  - reflexivity.
Qed.

Lemma run_ensureToken (net : Network) (s : AppState) (w : World) :
  run net (ensureToken s) w =
  if truthy (currentUserToken s) then (Returned (Some (currentUserToken s)), w)
  else
    match tokenAnswer (net (requests w) (tokenRequest s)) with
    | inr token =>
        (Returned (Some token),
         withApp (setCurrentUserToken token) (sent (tokenRequest s) w))
    | inl e =>
        (Returned None,
         withApp (setLoading false)
           (shown (AlertTokenUnavailable e) (sent (tokenRequest s) w)))
    end.
Proof.
  unfold ensureToken.
  destruct (truthy (currentUserToken s)); [reflexivity |].
  rewrite run_try_catch, run_bind, run_fetchToken.
  destruct (tokenAnswer _) as [e | token]; reflexivity.
Qed.

Lemma run_transmitConsent (net : Network) (s : AppState) (isAcceptAll : bool)
    (currentConfigId tokenToUse : jsval) (w : World) :
  let request := consentRequest s isAcceptAll currentConfigId tokenToUse in
  run net (transmitConsent s isAcceptAll currentConfigId tokenToUse) w =
  (Returned tt,
   closeModal (afterConsent isAcceptAll tokenToUse (net (requests w) request)
                 (sent request w))).
Proof.
  intro request.
  unfold transmitConsent, fetch, afterConsent, accepted, parsedDataOf.
  fold request. run_step.
  destruct (net (requests w) request) as [m | response]; run_step;
    [reflexivity |].
  destruct (ok response || Z.eqb (status response) 201); run_step; [| reflexivity].
  destruct (consentIdOf _) as [e | consentId]; [reflexivity |].
  cbn [lift run]. cbv zeta. unfold js_template.
  destruct (convertible (if isSavedMarker consentId then JStr "N/A" else consentId));
    [| reflexivity].
  destruct (convertible tokenToUse); reflexivity.
Qed.

Lemma run_submitConsent (net : Network) (isAcceptAll : bool) (w : World) :
  call net (submitConsent isAcceptAll) w = (Returned tt, submitted net isAcceptAll w).
Proof.
  unfold call, submitConsent, submitted, resolvedConfig, resolvedToken, configRequests.
  cbn [run]. rewrite run_bind, run_ensureConfigId. cbn [withApp app requests].
  destruct (truthy (configId (app w))) eqn:Hc.
  - rewrite run_bind, run_ensureToken. cbn [withApp app requests].
    rewrite app_nil_r.
    destruct (truthy (currentUserToken (app w))) eqn:Ht.
    + cbn [run]. rewrite run_transmitConsent. reflexivity.
    + destruct (tokenAnswer _) as [e | token]; [reflexivity |].
      cbn [run]. rewrite run_transmitConsent. reflexivity.
  - destruct (configurationAnswer _) as [id |]; [| reflexivity].
    rewrite run_bind, run_ensureToken. cbn [withApp sent app requests].
    destruct (truthy (currentUserToken (app w))) eqn:Ht.
    + cbn [run]. rewrite run_transmitConsent. reflexivity.
    + destruct (tokenAnswer _) as [e | token]; [reflexivity |].
      cbn [run]. rewrite run_transmitConsent. reflexivity.
Qed.


(** ** Submissions always settle *)

Lemma afterConsent_alerts (isAcceptAll : bool) (tokenToUse : jsval) (o : FetchOutcome)
    (w : World) :
  exists a, alerts (afterConsent isAcceptAll tokenToUse o w) = alerts w ++ [a].
Proof.
  unfold afterConsent.
  destruct o as [m | response]; [eexists; reflexivity |].
  destruct (accepted response); [| eexists; reflexivity].
  destruct (consentIdOf _); eexists; reflexivity.
Qed.

(** C1.  Whatever the service does (a 2xx answer, any other status, a
    network failure or timeout, at the configuration, token or consent
    request), [submitConsent] returns normally: no exception leaves it.  It
    reports the outcome in exactly one dialog and leaves the loading flag
    cleared. *)
Theorem submitConsent_always_reports (net : Network) (isAcceptAll : bool) (w : World) :
  exists (w' : World) (a : Alert),
    call net (submitConsent isAcceptAll) w = (Returned tt, w') /\
    alerts w' = alerts w ++ [a] /\
    loading (app w') = false.
Proof.
  rewrite run_submitConsent.
  exists (submitted net isAcceptAll w).
  unfold submitted.
  destruct (resolvedConfig net w) as [currentConfigId |].
  - destruct (resolvedToken net w) as [e | tokenToUse].
    + eexists. split; [reflexivity |]. split; [| reflexivity].
      destruct (truthy (configId (app w))); reflexivity.
    + match goal with
      | |- context [afterConsent ?b ?t ?o ?w0] =>
          destruct (afterConsent_alerts b t o w0) as [a Ha]; exists a
      end.
      split; [reflexivity |]. split; [| reflexivity].
      change (alerts (closeModal ?x)) with (alerts x). rewrite Ha.
      destruct (truthy (configId (app w))), (truthy (currentUserToken (app w)));
        reflexivity.
  - eexists. split; [reflexivity |]. split; reflexivity.
Qed.

(** ** What a submission sends *)

(** The world in which the consent request of a submission is sent. *)
Lemma submitted_transmits (net : Network) (isAcceptAll : bool) (w : World)
    (currentConfigId tokenToUse : jsval) :
  resolvedConfig net w = Some currentConfigId ->
  resolvedToken net w = inr tokenToUse ->
  exists w3,
    requests w3 = requests w ++ configRequests (app w) ++ tokenRequests (app w) /\
    alerts w3 = alerts w /\
    storage w3 = storage w /\
    consentStatus (app w3) = consentStatus (app w) /\
    lastConsentId (app w3) = lastConsentId (app w) /\
    submitted net isAcceptAll w =
    closeModal
      (afterConsent isAcceptAll tokenToUse
         (net (requests w3) (consentRequest (app w) isAcceptAll currentConfigId tokenToUse))
         (sent (consentRequest (app w) isAcceptAll currentConfigId tokenToUse) w3)).
Proof.
  intros Hc Ht. unfold submitted. rewrite Hc, Ht. cbv zeta.
  match goal with
  | |- context [closeModal (afterConsent _ _ _ (sent _ ?w3))] => exists w3
  end.
  unfold configRequests, tokenRequests.
  destruct (truthy (configId (app w))), (truthy (currentUserToken (app w)));
    cbn [withApp sent requests alerts storage app consentStatus lastConsentId
         setLastConsentToken setCurrentUserToken setConfigId setLoading];
    rewrite ?app_nil_r, <- ?app_assoc; repeat split; reflexivity.
Qed.


Lemma resolvedToken_truthy (net : Network) (w : World) (t : jsval) :
  resolvedToken net w = inr t -> truthy t = true.
Proof.
  unfold resolvedToken.
  destruct (truthy (currentUserToken (app w))) eqn:Ht.
  - intro H; injection H as <-; exact Ht.
  - apply tokenAnswer_truthy.
Qed.


Lemma afterConsent_storage (isAcceptAll : bool) (tokenToUse : jsval) (o : FetchOutcome)
    (w : World) :
  storage (afterConsent isAcceptAll tokenToUse o w) = storage w.
Proof.
  unfold afterConsent.
  destruct o as [m | response]; [reflexivity |].
  destruct (accepted response); [| reflexivity].
  destruct (consentIdOf _); reflexivity.
Qed.




(** ** Accepted submissions *)

Lemma get_prop_defined (d : jsval) (k : string) :
  d <> JNull -> d <> JUndefined -> exists v, get_prop d k = inr v.
Proof.
  intros Hn Hu. destruct d as [| | b | n | x | xs | fields]; cbn [get_prop];
    try congruence; try (eexists; reflexivity).
  - destruct (String.eqb k "length"); eexists; reflexivity.
  - destruct (String.eqb k "length"); eexists; reflexivity.
  - destruct (obj_get fields k); eexists; reflexivity.
Qed.

(** On a body that is an object (or any value but null) the [||] chain is
    the first truthy id field, or the marker. *)
Lemma consentIdOf_serverRecordId (d : jsval) :
  d <> JNull -> d <> JUndefined ->
  consentIdOf d =
  inr match serverRecordId d with
      | Some id => id
      | None => JStr "saved"
      end.
Proof.
  intros Hn Hu.
  unfold consentIdOf, serverRecordId, recordIdFields. cbn [map find ebind].
  destruct (get_prop_defined d "id" Hn Hu) as [v1 ->]. cbn [ebind].
  destruct (truthy v1); [reflexivity |].
  destruct (get_prop_defined d "_id" Hn Hu) as [v2 ->]. cbn [ebind].
  destruct (truthy v2); [reflexivity |].
  destruct (get_prop_defined d "consentId" Hn Hu) as [v3 ->]. cbn [ebind].
  destruct (truthy v3); [reflexivity |].
  destruct (get_prop_defined d "uuid" Hn Hu) as [v4 ->]. cbn [ebind].
  destruct (truthy v4); [reflexivity |].
  destruct (get_prop_defined d "insertedId" Hn Hu) as [v5 ->]. cbn [ebind].
  destruct (truthy v5); reflexivity.
Qed.

Lemma accepted_2xx (response : Response) :
  200 <= status response <= 299 -> accepted response = true.
Proof.
  intros [Hlo Hhi]. unfold accepted, ok.
  apply Z.leb_le in Hlo. apply Z.leb_le in Hhi. rewrite Hlo, Hhi. reflexivity.
Qed.

(** C4, as the code has it.  A submission answered with a 2xx status and
    a body other than the JSON literal null, where the configuration id,
    the token and the id to show convert to text, sets the consent status,
    and records the first truthy value among the body fields id, _id,
    consentId, uuid and insertedId, or the string saved when there is none;
    the dialog shows that id, or N/A for saved.  The marker is in-band: the
    recorded id is saved exactly when the body holds no id or holds the id
    saved. *)
Theorem accepted_submission_records_id (net : Network) (isAcceptAll : bool) (w : World)
    (currentConfigId tokenToUse : jsval) (response : Response) :
  resolvedConfig net w = Some currentConfigId ->
  resolvedToken net w = inr tokenToUse ->
  net (requests w ++ configRequests (app w) ++ tokenRequests (app w))
      (consentRequest (app w) isAcceptAll currentConfigId tokenToUse)
    = Answered response ->
  200 <= status response <= 299 ->
  parsedDataOf response <> JNull ->
  parsedDataOf response <> JUndefined ->
  let w' := snd (call net (submitConsent isAcceptAll) w) in
  let recordId := match serverRecordId (parsedDataOf response) with
                  | Some id => id
                  | None => JStr "saved"
                  end in
  let shownId := if isSavedMarker recordId then JStr "N/A" else recordId in
  convertible currentConfigId = true ->
  convertible tokenToUse = true ->
  convertible shownId = true ->
  consentStatus (app w') = (if isAcceptAll then AllAccepted else CustomPreferences) /\
  lastConsentId (app w') = recordId /\
  alerts w' = alerts w ++ [AlertSuccess (status response) shownId tokenToUse] /\
  (lastConsentId (app w') = JStr "saved" <->
   serverRecordId (parsedDataOf response) = None \/
   serverRecordId (parsedDataOf response) = Some (JStr "saved")).
Proof.
  intros Hc Ht Hnet Hstatus Hn Hu. cbv zeta. intros _ Htoken Hshown.
  rewrite run_submitConsent. cbn [snd].
  destruct (submitted_transmits net isAcceptAll w _ _ Hc Ht)
    as (w3 & Hr & Ha & _ & _ & _ & ->).
  rewrite Hr, Hnet. unfold afterConsent.
  rewrite (accepted_2xx _ Hstatus), (consentIdOf_serverRecordId _ Hn Hu).
  cbv zeta. rewrite Hshown, Htoken.
  cbn [andb closeModal withApp shown sent app alerts consentStatus lastConsentId
       setModalVisible setLoading setLastConsentId setConsentStatus].
  rewrite Ha.
  repeat split; try reflexivity.
  - destruct (serverRecordId (parsedDataOf response)) as [id |];
      [intros ->; right; reflexivity | intros _; left; reflexivity].
  - intros [-> | ->]; reflexivity.
Qed.

(** The example scenario of the specification: at first launch, HTTP 201
    with body [{id: abc}] records the id abc. *)
Lemma accepted_submission_records_id_witness :
  let w' := snd (call demoService (submitConsent false) (freshWorld initialState)) in
  consentStatus (app w') = CustomPreferences /\
  lastConsentId (app w') = JStr "abc" /\
  alerts w' = [AlertSuccess 201 (JStr "abc") (JStr "tok1")].
Proof.
  cbv zeta.
  destruct (accepted_submission_records_id demoService false (freshWorld initialState)
              (JStr "cfg1") (JStr "tok1")
              (mkResponse 201 EmptyString (Some (JObj [("id", JStr "abc")]))))
    as (H1 & H2 & H3 & _).
  - reflexivity.
  - reflexivity.
  - reflexivity.
  - cbn [status]. lia.
  - discriminate.
  - discriminate.
  - reflexivity.
  - reflexivity.
  - reflexivity.
  - split; [exact H1 |]. split; [exact H2 | exact H3].
Defined.

(** An id that does not convert to text: the state is set, then building
    the text of the dialog throws, and the failure is what is shown. *)
Example unshowable_id_is_shown_as_failure :
  let odd := JObj [("toString", JStr "x")] in
  let w' := snd (call (demoServiceWith (jsonResponse 200 (JObj [("id", odd)])))
                   (submitConsent false) (freshWorld initialState)) in
  convertible odd = false /\
  consentStatus (app w') = CustomPreferences /\
  lastConsentId (app w') = odd /\
  alerts w' = [AlertSaveFailed NotPrimitive].
Proof.
  cbv zeta. repeat split; vm_compute; reflexivity.
Qed.

(** A body whose id is the string saved leaves the very world a body
    without id leaves; and a 2xx answer whose body is the JSON literal
    null is reported as a failure. *)
Lemma saved_marker_collides :
  let w0 := freshWorld initialState in
  snd (call (demoServiceWith (jsonResponse 200 (JObj [("id", JStr "saved")])))
         (submitConsent false) w0) =
  snd (call (demoServiceWith (jsonResponse 200 (JObj []))) (submitConsent false) w0) /\
  serverRecordId (JObj [("id", JStr "saved")]) = Some (JStr "saved") /\
  serverRecordId (JObj []) = None /\
  (let w' := snd (call (demoServiceWith (jsonResponse 200 JNull)) (submitConsent false) w0) in
   consentStatus (app w') = NotSet /\
   lastConsentId (app w') = JNull /\
   alerts w' = [AlertSaveFailed (TypeError "id")]).
Proof.
  cbv zeta. repeat split; vm_compute; reflexivity.
Qed.

(** ** Submissions the server refuses *)


Lemma posts_app (xs ys : list Request) : posts (xs ++ ys) = posts xs ++ posts ys.
Proof. apply filter_app. Qed.

Lemma posts_configRequests (s : AppState) : posts (configRequests s) = [].
Proof. unfold configRequests. destruct (truthy (configId s)); reflexivity. Qed.

Lemma posts_tokenRequests (s : AppState) : posts (tokenRequests s) = [].
Proof. unfold tokenRequests. destruct (truthy (currentUserToken s)); reflexivity. Qed.

Lemma posts_resolution (s : AppState) : posts (configRequests s ++ tokenRequests s) = [].
Proof. rewrite posts_app, posts_configRequests, posts_tokenRequests. reflexivity. Qed.








(** ** The vendor list *)

Lemma run_fetchVendors (net : Network) (s : AppState) (w : World) :
  let w1 := sent (vendorsRequest s) (withApp (setVendorsLoading true) w) in
  run net (fetchVendors s) w =
  match vendorsAnswer (net (requests w) (vendorsRequest s)) with
  | VendorsLoaded vendorMap vendorPreferences =>
      (Returned (Some vendorMap),
       withApp (setVendorsLoading false)
         (withApp (setVendorsLoading false)
            (withApp (setVendors vendorPreferences)
               (withApp (setApiVendors vendorMap) w1))))
  | VendorsIgnored => (Returned None, withApp (setVendorsLoading false) w1)
  | VendorsFallback =>
      (Returned None,
       withApp (setVendorsLoading false) (withApp (setVendors hardcodedPreferences) w1))
  end.
Proof.
  cbv zeta. unfold fetchVendors, fetch, response_json, prop, vendorsAnswer.
  run_step. cbn [withApp requests].
  destruct (net (requests w) (vendorsRequest s)) as [m | response]; run_step;
    [reflexivity |].
  destruct (ok response); run_step; [| reflexivity].
  destruct (json response) as [vendorData |]; run_step; [| reflexivity].
  destruct (truthy vendorData); run_step; [| reflexivity].
  destruct (get_prop vendorData "vendors") as [e | vendorList]; run_step; [reflexivity |].
  destruct vendorList as [| | b | n | x | xs | fields]; run_step; try reflexivity.
  destruct (forEachVendor xs ([], [])) as [e | [vendorMap vendorPreferences]];
    reflexivity.
Qed.

Lemma obj_set_keys {A B : Type} (m : jsobj A) (p : jsobj B) (k : string) (a : A) (b : B) :
  obj_keys m = obj_keys p ->
  obj_keys (obj_set m k a) = obj_keys (obj_set p k b).
Proof.
  revert p. induction m as [| [k1 v1] m IH]; intros [| [k2 v2] p] H;
    cbn in H; try discriminate; [reflexivity |].
  injection H as Hk Hrest. subst k2. cbn [obj_set].
  destruct (String.eqb k1 k).
  - cbn. f_equal. exact Hrest.
  - cbn. f_equal. apply IH. exact Hrest.
Qed.

Lemma obj_set_allRejected (p : jsobj bool) (k : string) :
  allRejected p -> allRejected (obj_set p k false).
Proof.
  unfold allRejected, obj_values.
  induction p as [| [k1 v1] p IH]; intro H; cbn [obj_set].
  - repeat constructor.
  - cbn [map snd] in H. inversion_clear H as [| ? ? Hv Hrest].
    destruct (String.eqb k1 k); cbn [map snd].
    + constructor; [reflexivity | exact Hrest].
    + constructor; [exact Hv | apply IH; exact Hrest].
Qed.

Lemma addVendor_sets (acc acc' : jsobj Vendor * jsobj bool) (vendor : jsval) :
  addVendor acc vendor = inr acc' ->
  exists vendorKey entry,
    acc' = (obj_set (fst acc) vendorKey entry, obj_set (snd acc) vendorKey false).
Proof.
  unfold addVendor.
  destruct (get_prop vendor "id") as [e | id]; [discriminate |].
  destruct (get_prop vendor "title") as [e | title]; [discriminate |].
  destruct (get_prop vendor "name") as [e | name]; [discriminate |].
  destruct (get_prop vendor "description") as [e | description]; [discriminate |].
  destruct (get_prop vendor "image") as [e | image]; [discriminate |].
  cbn [ebind]. unfold js_template.
  destruct (convertible id); [| discriminate].
  destruct (convertible (js_or title name)); [| discriminate].
  cbn [ebind]. intro H; injection H as <-.
  eexists. eexists. reflexivity.
Qed.

(** The two objects the loop fills keep the same keys, and every
    preference it writes is a rejection. *)
Lemma forEachVendor_rejects (xs : list jsval) (acc acc' : jsobj Vendor * jsobj bool) :
  forEachVendor xs acc = inr acc' ->
  obj_keys (fst acc) = obj_keys (snd acc) ->
  allRejected (snd acc) ->
  obj_keys (fst acc') = obj_keys (snd acc') /\ allRejected (snd acc').
Proof.
  revert acc. induction xs as [| vendor rest IH]; intros acc H Hkeys Hall;
    cbn [forEachVendor] in H.
  - injection H as <-. split; assumption.
  - destruct (addVendor acc vendor) as [e | acc1] eqn:Hadd; [discriminate |].
    destruct (addVendor_sets _ _ _ Hadd) as (vendorKey & entry & ->).
    apply (IH _ H); cbn [fst snd].
    + apply obj_set_keys. exact Hkeys.
    + apply obj_set_allRejected. exact Hall.
Qed.

Lemma vendorsAnswer_loaded (o : FetchOutcome) (vendorMap : jsobj Vendor)
    (vendorPreferences : jsobj bool) :
  vendorsAnswer o = VendorsLoaded vendorMap vendorPreferences ->
  obj_keys vendorMap = obj_keys vendorPreferences /\ allRejected vendorPreferences.
Proof.
  unfold vendorsAnswer.
  destruct o as [m | response]; [discriminate |].
  destruct (ok response); [| discriminate].
  destruct (json response) as [vendorData |]; [| discriminate].
  destruct (truthy vendorData); [| discriminate].
  destruct (get_prop vendorData "vendors") as [e | vendorList]; [discriminate |].
  destruct vendorList as [| | b | n | x | xs | fields]; try discriminate.
  destruct (forEachVendor xs ([], [])) as [e | [m p]] eqn:Hloop; [discriminate |].
  intro H; injection H as <- <-.
  apply (forEachVendor_rejects _ _ _ Hloop); [reflexivity | constructor].
Qed.

(** C10.  When [fetchVendors] loads the vendor list of the API, the list
    becomes the vendor list of the state, the preferences get exactly the
    keys of that list, and every preference is false: no vendor starts out
    accepted. *)
Theorem loaded_vendors_start_rejected (net : Network) (w : World)
    (vendorMap : jsobj Vendor) :
  fst (call net fetchVendors w) = Returned (Some vendorMap) ->
  let w' := snd (call net fetchVendors w) in
  apiVendors (app w') = vendorMap /\
  obj_keys (vendors (app w')) = obj_keys vendorMap /\
  allRejected (vendors (app w')).
Proof.
  unfold call. rewrite run_fetchVendors. cbv zeta.
  destruct (vendorsAnswer _) as [m p | |] eqn:Hanswer; cbn [fst snd];
    try discriminate.
  intro H; injection H as ->.
  destruct (vendorsAnswer_loaded _ _ _ Hanswer) as [Hkeys Hall].
  cbn [withApp app apiVendors vendors setVendorsLoading setVendors setApiVendors].
  split; [reflexivity |]. split; [symmetry; exact Hkeys | exact Hall].
Qed.

(** The demo service lists two vendors; both start rejected. *)
Lemma loaded_vendors_start_rejected_witness :
  let w' := snd (call demoService fetchVendors (freshWorld initialState)) in
  obj_keys (apiVendors (app w')) = ["v1 (One)"; "v2 (Two)"] /\
  vendors (app w') = [("v1 (One)", false); ("v2 (Two)", false)] /\
  allRejected (vendors (app w')).
Proof.
  cbv zeta.
  destruct (loaded_vendors_start_rejected demoService (freshWorld initialState)
              (apiVendors (app (snd (call demoService fetchVendors
                                       (freshWorld initialState))))))
    as (_ & _ & H).
  - reflexivity.
  - split; [reflexivity |]. split; [reflexivity | exact H].
Defined.

(** C6, as the code has it.  When the vendor request fails (a network
    error or an error status) [fetchVendors] does not throw: it returns
    null, sends nothing more, shows no dialog, resets the preferences to
    the three hardcoded vendors, all rejected, and clears the
    vendors-loading flag.  With the vendor list still the hardcoded one, as
    at first launch, the list stays and the preferences name its very
    vendors. *)
Theorem failed_vendor_fetch_falls_back (net : Network) (w : World) :
  vendorFetchFailed (net (requests w) (vendorsRequest (app w))) ->
  let w' := snd (call net fetchVendors w) in
  fst (call net fetchVendors w) = Returned None /\
  requests w' = requests w ++ [vendorsRequest (app w)] /\
  alerts w' = alerts w /\
  storage w' = storage w /\
  vendors (app w') =
    [("google_analytics", false); ("facebook_pixel", false); ("mixpanel", false)] /\
  vendorsLoading (app w') = false /\
  (apiVendors (app w) = VENDORS ->
     apiVendors (app w') = VENDORS /\
     obj_keys (vendors (app w')) = obj_keys (apiVendors (app w'))).
Proof.
  intro Hfail. cbv zeta. unfold call. rewrite run_fetchVendors. cbv zeta.
  assert (Hanswer : vendorsAnswer (net (requests w) (vendorsRequest (app w)))
                    = VendorsFallback).
  { unfold vendorsAnswer.
    destruct (net (requests w) (vendorsRequest (app w))) as [m | response];
      [reflexivity |].
    cbn in Hfail. rewrite Hfail. reflexivity. }
  rewrite Hanswer. cbn [fst snd].
  split; [reflexivity |]. split; [reflexivity |]. split; [reflexivity |].
  split; [reflexivity |]. split; [reflexivity |]. split; [reflexivity |].
  intro Hfirst.
  cbn [withApp sent app apiVendors vendors setVendorsLoading setVendors].
  rewrite Hfirst. split; reflexivity.
Qed.

(** Offline at first launch: the three hardcoded vendors stay listed, all
    rejected. *)
Lemma failed_vendor_fetch_falls_back_witness :
  let w' := snd (call offline fetchVendors (freshWorld initialState)) in
  vendorFetchFailed (offline [] (vendorsRequest initialState)) /\
  fst (call offline fetchVendors (freshWorld initialState)) = Returned None /\
  apiVendors (app w') = VENDORS /\
  obj_keys (vendors (app w')) = obj_keys (apiVendors (app w')).
Proof.
  cbv zeta. split; [exact I |].
  destruct (failed_vendor_fetch_falls_back offline (freshWorld initialState) I)
    as (Hcall & _ & _ & _ & _ & _ & Hfirst).
  split; [exact Hcall | exact (Hfirst eq_refl)].
Defined.

(** A failed vendor fetch yields no configuration with an empty vendor
    list: at first launch the handler returns null, and the vendor list of
    the state is the hardcoded one. *)
Lemma failed_vendor_fetch_keeps_vendors :
  let w0 := freshWorld initialState in
  fst (call offline fetchVendors w0) = Returned None /\
  obj_keys (apiVendors (app (snd (call offline fetchVendors w0)))) =
    ["google_analytics"; "facebook_pixel"; "mixpanel"].
Proof.
  cbv zeta. repeat split; vm_compute; reflexivity.
Qed.

(** ** The configuration id *)

Lemma configUnavailable_answer (o : FetchOutcome) :
  configUnavailable o -> configurationAnswer o = None.
Proof.
  unfold configUnavailable, configurationAnswer.
  destruct o as [m | response]; [reflexivity |].
  intros [Hok | [Hjson | (data & Hjson & Hfield)]].
  - rewrite Hok. reflexivity.
  - rewrite Hjson. destruct (ok response); reflexivity.
  - rewrite Hjson. destruct (ok response); [| reflexivity].
    destruct (get_prop data "defaultConfigId") as [e | v]; [reflexivity |].
    rewrite (Hfield v eq_refl). reflexivity.
Qed.

(** C3, as the code has it.  [fetchConfiguration] never throws.  It
    returns null whenever the request fails, the status is an error, the
    body is not JSON or the payload has no truthy defaultConfigId, and then
    leaves the state as it was.  On success it stores the id in the
    configId cell and returns it.  Every call asks the service, cached id
    or not; the cache is read by the caller: the resolution step of a
    submission returns a cached id without any request. *)
Theorem fetchConfiguration_resolves (net : Network) (w : World) :
  let s := app w in
  let o := net (requests w) (configurationRequest s) in
  let result := fst (call net fetchConfiguration w) in
  let w' := snd (call net fetchConfiguration w) in
  requests w' = requests w ++ [configurationRequest s] /\
  (configUnavailable o -> result = Returned JNull /\ app w' = app w) /\
  (forall response data id,
      o = Answered response ->
      ok response = true ->
      json response = Some data ->
      get_prop data "defaultConfigId" = inr id ->
      truthy id = true ->
      result = Returned id /\ app w' = setConfigId id (app w)) /\
  (truthy (configId s) = true ->
   call net ensureConfigId w = (Returned (Some (configId s)), w)).
Proof.
  cbv zeta. unfold call. rewrite run_fetchConfiguration, run_ensureConfigId.
  split; [destruct (configurationAnswer _); reflexivity |].
  split; [| split].
  - intro H. rewrite (configUnavailable_answer _ H). split; reflexivity.
  - intros response data id Ho Hok Hjson Hfield Hid.
    rewrite Ho. unfold configurationAnswer. rewrite Hok, Hjson, Hfield, Hid.
    split; reflexivity.
  - intros ->. reflexivity.
Qed.

(** Offline the id is unavailable; the demo service provides [cfg1], and
    a submission that starts with [cfg1] cached sends no request for it. *)
Lemma fetchConfiguration_resolves_witness :
  let w0 := freshWorld initialState in
  let w1 := snd (call demoService fetchConfiguration w0) in
  fst (call offline fetchConfiguration w0) = Returned JNull /\
  fst (call demoService fetchConfiguration w0) = Returned (JStr "cfg1") /\
  configId (app w1) = JStr "cfg1" /\
  call offline ensureConfigId w1 = (Returned (Some (JStr "cfg1")), w1).
Proof.
  cbv zeta.
  destruct (fetchConfiguration_resolves offline (freshWorld initialState))
    as (_ & Hnone & _ & _).
  destruct (fetchConfiguration_resolves demoService (freshWorld initialState))
    as (_ & _ & Hsome & _).
  destruct (fetchConfiguration_resolves offline
              (snd (call demoService fetchConfiguration (freshWorld initialState))))
    as (_ & _ & _ & Hcached).
  split; [exact (proj1 (Hnone I)) |].
  destruct (Hsome (mkResponse 200 EmptyString (Some (JObj [("defaultConfigId", JStr "cfg1")])))
              (JObj [("defaultConfigId", JStr "cfg1")]) (JStr "cfg1")
              eq_refl eq_refl eq_refl eq_refl eq_refl) as [Hresult Happ].
  split; [exact Hresult |].
  split; [rewrite Happ; reflexivity |].
  exact (Hcached eq_refl).
Defined.

(** With [cfg1] cached by an earlier call, a later call of
    [fetchConfiguration] still asks the service, and returns null when the
    service cannot be reached. *)
Lemma fetchConfiguration_ignores_cache :
  let w0 := freshWorld initialState in
  let w1 := snd (call demoService fetchConfiguration w0) in
  configId (app w1) = JStr "cfg1" /\
  fst (call offline fetchConfiguration w1) = Returned JNull /\
  requests (snd (call demoService fetchConfiguration w1)) =
    [configurationRequest initialState; configurationRequest initialState].
Proof.
  cbv zeta. repeat split; vm_compute; reflexivity.
Qed.

(** ** The user token *)

Lemma afterConsent_token (isAcceptAll : bool) (tokenToUse : jsval) (o : FetchOutcome)
    (w : World) :
  currentUserToken (app (afterConsent isAcceptAll tokenToUse o w)) =
  currentUserToken (app w).
Proof.
  unfold afterConsent.
  destruct o as [m | response]; [reflexivity |].
  destruct (accepted response); [| reflexivity].
  destruct (consentIdOf _); reflexivity.
Qed.

(** A submission that reaches the service leaves its token in the cell. *)
Lemma submitted_token (net : Network) (isAcceptAll : bool) (w : World)
    (currentConfigId tokenToUse : jsval) :
  resolvedConfig net w = Some currentConfigId ->
  resolvedToken net w = inr tokenToUse ->
  currentUserToken (app (submitted net isAcceptAll w)) = tokenToUse.
Proof.
  intros Hc Ht. unfold submitted. rewrite Hc, Ht. cbv zeta.
  change (currentUserToken (app (closeModal ?x))) with (currentUserToken (app x)).
  rewrite afterConsent_token.
  unfold resolvedToken in Ht.
  destruct (truthy (currentUserToken (app w))).
  - injection Ht as <-. destruct (truthy (configId (app w))); reflexivity.
  - reflexivity.
Qed.

Lemma run_loadSettings_token (net : Network) (w : World) :
  currentUserToken (app (snd (call net loadSettings w))) = currentUserToken (app w).
Proof.
  unfold call, loadSettings. cbn [run].
  destruct (obj_get (storage w) STORAGE_PROJECT_ID) as [p |];
    [destruct (negb (String.eqb p EmptyString)) |];
    (destruct (obj_get (storage w) STORAGE_ENVIRONMENT) as [e |];
     [destruct (negb (String.eqb e EmptyString));
      [destruct (obj_get ENVIRONMENTS e) |] |]);
    reflexivity.
Qed.

(** The mount effect leaves the token it fetched in the cell, whatever
    the cell held. *)
Lemma initializeApp_token (net : Network) (w : World) (token : jsval) :
  let s := app w in
  tokenAnswer (net (requests w ++ [configurationRequest s; vendorsRequest s])
                 (tokenRequest s)) = inr token ->
  currentUserToken (app (snd (call net initializeApp w))) = token.
Proof.
  cbv zeta. intro Htoken. unfold call, initializeApp.
  rewrite run_bind, run_fetchConfiguration.
  destruct (configurationAnswer _) as [id |];
    rewrite run_bind, run_fetchVendors; cbv zeta;
    (destruct (vendorsAnswer _) as [m p | |];
     rewrite run_try_catch, run_bind, run_fetchToken;
     cbn [withApp sent requests app]; rewrite <- app_assoc; cbn [List.app];
     rewrite Htoken; reflexivity).
Qed.

(** C5, as the code has it.  [fetchToken] never reads the device store:
    every call asks the service for a new token and returns the token of
    the answer, the same whatever the store holds.  [loadSettings] restores
    no token.  The token lives in the currentUserToken cell only.  A
    submission made with the cell set asks for no token.  A submission
    that runs to its end with no other handler in between leaves the token
    it worked with in the cell, so that a submission started in the state
    it leaves works with the identical token.  The mount effect writes the
    cell too, with the token it fetched, whatever the cell held. *)
Theorem token_is_kept_in_memory (net : Network) (w : World) :
  requests (snd (call net fetchToken w)) = requests w ++ [tokenRequest (app w)] /\
  (forall response data token,
      net (requests w) (tokenRequest (app w)) = Answered response ->
      ok response = true ->
      json response = Some data ->
      get_prop data "token" = inr token ->
      truthy token = true ->
      fst (call net fetchToken w) = Returned token) /\
  (forall store,
      fst (call net fetchToken (mkWorld (app w) store (requests w) (alerts w))) =
      fst (call net fetchToken w)) /\
  storage (snd (call net fetchToken w)) = storage w /\
  currentUserToken (app (snd (call net loadSettings w))) = currentUserToken (app w) /\
  (truthy (currentUserToken (app w)) = true ->
   resolvedToken net w = inr (currentUserToken (app w)) /\
   tokenRequests (app w) = []) /\
  (forall isAcceptAll currentConfigId tokenToUse net',
      resolvedConfig net w = Some currentConfigId ->
      resolvedToken net w = inr tokenToUse ->
      let w' := snd (call net (submitConsent isAcceptAll) w) in
      currentUserToken (app w') = tokenToUse /\
      resolvedToken net' w' = inr tokenToUse) /\
  (forall token,
      tokenAnswer (net (requests w ++ [configurationRequest (app w);
                                       vendorsRequest (app w)])
                     (tokenRequest (app w))) = inr token ->
      currentUserToken (app (snd (call net initializeApp w))) = token).
Proof.
  split; [unfold call; rewrite run_fetchToken; destruct (tokenAnswer _); reflexivity |].
  split.
  { intros response data token Hnet Hok Hjson Hprop Htruthy.
    unfold call. rewrite run_fetchToken. unfold tokenAnswer.
    rewrite Hnet, Hok, Hjson, Hprop, Htruthy. reflexivity. }
  split; [intro store; unfold call; rewrite !run_fetchToken; cbn [requests app];
          destruct (tokenAnswer _); reflexivity |].
  split; [unfold call; rewrite run_fetchToken; destruct (tokenAnswer _); reflexivity |].
  split; [apply run_loadSettings_token |].
  split.
  { intro Ht. unfold resolvedToken, tokenRequests. rewrite Ht. split; reflexivity. }
  split.
  - intros isAcceptAll currentConfigId tokenToUse net' Hc Ht. cbv zeta.
    rewrite run_submitConsent. cbn [snd].
    pose proof (submitted_token net isAcceptAll w _ _ Hc Ht) as Hcell.
    split; [exact Hcell |].
    unfold resolvedToken. rewrite Hcell.
    rewrite (resolvedToken_truthy net w _ Ht). reflexivity.
  - intros token Htoken. apply (initializeApp_token net w token Htoken).
Qed.

(** After a first submission fetched [tok1], a second one, against a
    service that would now issue another token, still works with [tok1]. *)
Lemma token_is_kept_in_memory_witness :
  let w1 := snd (call demoService (submitConsent false) (freshWorld initialState)) in
  currentUserToken (app w1) = JStr "tok1" /\
  resolvedToken issuingService w1 = inr (JStr "tok1").
Proof.
  cbv zeta.
  destruct (token_is_kept_in_memory demoService (freshWorld initialState))
    as (_ & _ & _ & _ & _ & _ & H & _).
  exact (H false (JStr "cfg1") (JStr "tok1") issuingService eq_refl eq_refl).
Defined.

(** The token request of the mount effect is still in flight when Save My
    Choices is tapped: the submission fetches a token of its own and posts
    it, the late answer of the mount effect then replaces it in the cell,
    and the next submission posts the other token. *)
Example late_mount_token_replaces_the_cell :
  let configured := jsonResponse 200 (JObj [("defaultConfigId", JStr "cfg1")]) in
  let issued := fun name => jsonResponse 200 (JObj [("token", JStr name)]) in
  let created := jsonResponse 201 (JObj [("id", JStr "abc")]) in
  let sys :=
    replay [ Mount; Settle 0 configured; Settle 0 (Failed "timeout");
             PressSave false; Settle 1 (issued "tokA"); Settle 1 created;
             Settle 0 (issued "tokB");
             PressSave false; Settle 0 created ]
      (boot initialState) in
  map (fun r => get_prop (body r) "token") (posts (requests (world sys))) =
    [inr (JStr "tokA"); inr (JStr "tokB")] /\
  pending sys = [] /\
  currentUserToken (app (world sys)) = JStr "tokB".
Proof.
  cbv zeta. repeat split; vm_compute; reflexivity.
Qed.

(** Two calls of [fetchToken] in a row, the device store untouched in
    between, return two different tokens: the store is never consulted. *)
Lemma fetchToken_is_not_idempotent :
  let w0 := mkWorld initialState [(STORAGE_PROJECT_ID, DEFAULT_PROJECT_ID)] [] [] in
  let w1 := snd (call issuingService fetchToken w0) in
  fst (call issuingService fetchToken w0) = Returned (JStr "tok0") /\
  fst (call issuingService fetchToken w1) = Returned (JStr "tok1") /\
  storage w1 = storage w0 /\
  app w1 = app w0.
Proof.
  cbv zeta. repeat split; vm_compute; reflexivity.
Qed.

(** ** The accept flag *)

Section Sends.

Variable P : Request -> Prop.

Lemma sends_bind {A B : Type} (p : Prog A) (f : A -> Prog B) :
  sends P p -> (forall a, sends P (f a)) -> sends P (bind p f).
Proof.
  intros Hp Hf.
  induction p as [a | e | g k IH | al k IH | key k IH | r k IH]; cbn [bind sends] in *;
    auto.
  destruct Hp as [Hr Hk]. split; auto.
Qed.

Lemma sends_try_catch {A : Type} (p : Prog A) (h : JsError -> Prog A) :
  sends P p -> (forall e, sends P (h e)) -> sends P (try_catch p h).
Proof.
  intros Hp Hh.
  induction p as [a | e | g k IH | al k IH | key k IH | r k IH];
    cbn [try_catch sends] in *; auto.
  destruct Hp as [Hr Hk]. split; auto.
Qed.

Lemma sends_finally {A : Type} (p : Prog A) (q : Prog unit) :
  sends P p -> sends P q -> sends P (finally p q).
Proof.
  intros Hp Hq.
  induction p as [a | e | g k IH | al k IH | key k IH | r k IH];
    cbn [finally sends] in *; auto.
  - apply sends_bind; [exact Hq | intros; exact I].
  - apply sends_bind; [exact Hq | intros; exact I].
  - destruct Hp as [Hr Hk]. split; auto.
Qed.

Lemma sends_lift {A : Type} (x : JsError + A) : sends P (lift x).
Proof. destruct x; exact I. Qed.

Lemma sends_fetch (r : Request) : P r -> sends P (fetch r).
Proof.
  intro Hr. unfold fetch. cbn [sends]. split; [exact Hr |].
  intros [m | response]; exact I.
Qed.

(** What a handler is allowed to send is what it is seen to send. *)
Lemma sends_run {A : Type} (net : Network) (p : Prog A) (w : World) :
  sends P p ->
  exists newRequests,
    requests (snd (run net p w)) = requests w ++ newRequests /\
    Forall P newRequests.
Proof.
  revert w.
  induction p as [a | e | g k IH | al k IH | key k IH | r k IH]; intros w Hp;
    cbn [run sends] in *.
  - exists []. rewrite app_nil_r. split; [reflexivity | constructor].
  - exists []. rewrite app_nil_r. split; [reflexivity | constructor].
  - apply (IH (withApp g w) Hp).
  - apply (IH (shown al w) Hp).
  - apply (IH _ w (Hp _)).
  - destruct Hp as [Hr Hk].
    destruct (IH (net (requests w) r) (sent r w) (Hk _)) as (rest & Hreq & Hall).
    exists (r :: rest). split.
    + rewrite Hreq. cbn [sent requests]. rewrite <- app_assoc. reflexivity.
    + constructor; assumption.
Qed.

End Sends.

Lemma sends_fetchConfiguration (s : AppState) : sends acceptsOnWire (fetchConfiguration s).
Proof.
  unfold fetchConfiguration.
  apply sends_try_catch; [| intros; exact I].
  apply sends_bind; [apply sends_fetch; discriminate |].
  intro response. destruct (ok response); [| exact I].
  apply sends_bind; [unfold response_json; destruct (json response); exact I |].
  intro data. apply sends_bind; [apply sends_lift |].
  intro id. destruct (truthy id); exact I.
Qed.

Lemma sends_fetchToken (s : AppState) : sends acceptsOnWire (fetchToken s).
Proof.
  unfold fetchToken.
  apply sends_try_catch; [| intros; exact I].
  apply sends_bind; [apply sends_fetch; discriminate |].
  intro response. destruct (ok response); [| exact I].
  apply sends_bind; [unfold response_json; destruct (json response); exact I |].
  intro data. apply sends_bind; [apply sends_lift |].
  intro token. destruct (truthy token); exact I.
Qed.

Lemma sends_submitConsent (isAcceptAll : bool) (s : AppState) :
  sends acceptsOnWire (submitConsent isAcceptAll s).
Proof.
  unfold submitConsent. cbn [sends].
  apply sends_bind.
  { unfold ensureConfigId. destruct (truthy (configId s)); [exact I |].
    apply sends_bind; [apply sends_fetchConfiguration |].
    intro fetched. destruct (truthy fetched); exact I. }
  intros [currentConfigId |]; [| exact I].
  apply sends_bind.
  { unfold ensureToken. destruct (truthy (currentUserToken s)); [exact I |].
    apply sends_try_catch; [| intros; exact I].
    apply sends_bind; [apply sends_fetchToken | intros; exact I]. }
  intros [tokenToUse |]; [| exact I].
  cbn [sends]. unfold transmitConsent.
  apply sends_finally; [| exact I].
  apply sends_try_catch; [| intros; exact I].
  apply sends_bind; [apply sends_fetch; intros _; reflexivity |].
  intro response. cbv zeta.
  destruct (ok response || Z.eqb (status response) 201); [| exact I].
  apply sends_bind; [apply sends_lift |].
  intro consentId. cbn [sends]. cbv zeta.
  apply sends_bind; [apply sends_lift |].
  intros _. apply sends_bind; [apply sends_lift | intros; exact I].
Qed.

Lemma sends_simple_submitConsent (now : Z) (isAcceptAll : bool) (s : AppState) :
  sends acceptsOnWire (SimpleDemo.submitConsent now isAcceptAll s).
Proof.
  unfold SimpleDemo.submitConsent. cbn [sends].
  apply sends_bind.
  { destruct (truthy (configId s)); [exact I |].
    apply sends_bind.
    - unfold SimpleDemo.fetchConfiguration.
      apply sends_try_catch; [| intros; exact I].
      apply sends_bind; [apply sends_fetch; discriminate |].
      intro response. destruct (ok response); [| exact I].
      apply sends_bind; [unfold response_json; destruct (json response); exact I |].
      intro data. apply sends_bind; [apply sends_lift |].
      intro id. destruct (truthy id); exact I.
    - intro fetched. destruct (truthy fetched); exact I. }
  intros [currentConfigId |]; [| exact I].
  apply sends_finally; [| exact I].
  apply sends_try_catch; [| intros; exact I].
  apply sends_bind; [apply sends_fetch; intros _; reflexivity |].
  intro response. cbv zeta.
  destruct (ok response || Z.eqb (status response) 201); [| exact I].
  cbn [sends]. apply sends_bind; [apply sends_lift |].
  intro id. cbn [sends]. apply sends_bind; [apply sends_lift | intros; exact I].
Qed.

(** C9.  Every consent the client posts has [accept: true] at the top of
    its payload, whatever the flag of the call and whatever the choices in
    the state: in the application of App.js and in the earlier demo alike. *)
Theorem accept_is_always_true (net : Network) (isAcceptAll : bool) (w : World) :
  (exists newRequests,
      requests (snd (call net (submitConsent isAcceptAll) w)) = requests w ++ newRequests /\
      Forall acceptsOnWire newRequests) /\
  (forall now,
      exists newRequests,
        requests (snd (call net (SimpleDemo.submitConsent now isAcceptAll) w)) =
          requests w ++ newRequests /\
        Forall acceptsOnWire newRequests) /\
  (forall s currentConfigId tokenToUse,
      get_prop (consentPayload s isAcceptAll currentConfigId tokenToUse) "accept" =
        inr (JBool true)) /\
  (forall now s,
      get_prop (SimpleDemo.consentPayload now isAcceptAll s) "accept" = inr (JBool true)).
Proof.
  split; [apply sends_run, sends_submitConsent |].
  split; [intro now; apply sends_run, sends_simple_submitConsent |].
  split; reflexivity.
Qed.

(** With both listed vendors rejected and the flag off, the payload still
    says [accept: true]. *)
Example accept_true_when_all_rejected :
  let w0 := snd (call demoService initializeApp (freshWorld initialState)) in
  let w1 := snd (call demoService (submitConsent false) w0) in
  exists r,
    posts (requests w1) = [r] /\
    vendorChoicesOf (body r) =
      inr (JObj [("v1 (One)", JBool false); ("v2 (Two)", JBool false)]) /\
    get_prop (body r) "accept" = inr (JBool true).
Proof.
  cbv zeta. eexists. split; [vm_compute; reflexivity |].
  split; vm_compute; reflexivity.
Qed.

(** ** Overlapping submissions *)

Section Serial.

Context {A B : Type}.

Lemma serial_mono (Q Q' : Completion A -> AppState -> Prop) (p : Prog A) :
  (forall c st, Q c st -> Q' c st) ->
  forall st, serial Q p st -> serial Q' p st.
Proof.
  intro HQ.
  induction p as [a | e | g k IH | al k IH | key k IH | r k IH]; intros st H;
    cbn [serial] in *; auto.
  destruct H as [Hl Hk]. split; auto.
Qed.

Lemma serial_bind (Q : Completion B -> AppState -> Prop) (p : Prog A) (f : A -> Prog B) :
  forall st,
    serial (fun c st' => match c with
                         | Returned a => serial Q (f a) st'
                         | Rejected e => Q (Rejected e) st'
                         end) p st ->
    serial Q (bind p f) st.
Proof.
  induction p as [a | e | g k IH | al k IH | key k IH | r k IH]; intros st H;
    cbn [serial bind] in *; auto.
  destruct H as [Hl Hk]. split; auto.
Qed.

End Serial.

Section Serial1.

Context {A : Type}.

Lemma serial_try_catch (Q : Completion A -> AppState -> Prop) (p : Prog A)
    (h : JsError -> Prog A) :
  forall st,
    serial (fun c st' => match c with
                         | Returned a => Q (Returned a) st'
                         | Rejected e => serial Q (h e) st'
                         end) p st ->
    serial Q (try_catch p h) st.
Proof.
  induction p as [a | e | g k IH | al k IH | key k IH | r k IH]; intros st H;
    cbn [serial try_catch] in *; auto.
  destruct H as [Hl Hk]. split; auto.
Qed.

Lemma serial_finally (Q : Completion A -> AppState -> Prop) (p : Prog A) (q : Prog unit) :
  forall st,
    serial (fun c st' =>
              serial (fun c' st'' => match c' with
                                     | Returned _ => Q c st''
                                     | Rejected e' => Q (Rejected e') st''
                                     end) q st') p st ->
    serial Q (finally p q) st.
Proof.
  induction p as [a | e | g k IH | al k IH | key k IH | r k IH]; intros st H;
    cbn [serial finally] in *; auto.
  - apply serial_bind. revert H. apply serial_mono. intros [u | e'] st' H'; exact H'.
  - apply serial_bind. revert H. apply serial_mono. intros [u | e'] st' H'; exact H'.
  - destruct H as [Hl Hk]. split; auto.
Qed.

Lemma serial_lift (Q : Completion A -> AppState -> Prop) (x : JsError + A) (st : AppState) :
  (forall c, Q c st) -> serial Q (lift x) st.
Proof. intro H. destruct x; apply H. Qed.

End Serial1.

(** While the flag is set, a request keeps it set. *)
Definition busy {A : Type} (c : Completion A) (st : AppState) : Prop :=
  loading st = true.

Lemma serial_fetch (r : Request) (st : AppState) :
  loading st = true -> serial busy (fetch r) st.
Proof.
  intro H. unfold fetch. cbn [serial]. split; [exact H |].
  intros [m | response] st' H'; exact H'.
Qed.

Lemma serial_fetchConfiguration (s st : AppState) :
  loading st = true ->
  serial (fun c st' => loading st' = true /\ exists v, c = Returned v)
    (fetchConfiguration s) st.
Proof.
  intro H. unfold fetchConfiguration.
  apply serial_try_catch, serial_bind.
  apply (serial_mono busy); [| apply serial_fetch; exact H].
  intros [response | e] st' H'; unfold busy in H'; cbn [serial];
    [| split; [exact H' | eexists; reflexivity]].
  destruct (ok response); cbn [serial]; [| split; [exact H' | eexists; reflexivity]].
  apply serial_bind. unfold response_json.
  destruct (json response) as [data |]; cbn [serial];
    [| split; [exact H' | eexists; reflexivity]].
  apply serial_bind. unfold prop.
  destruct (get_prop data "defaultConfigId") as [e | id]; cbn [serial lift];
    [split; [exact H' | eexists; reflexivity] |].
  destruct (truthy id); cbn [serial]; (split; [exact H' | eexists; reflexivity]).
Qed.

Lemma serial_fetchToken (s st : AppState) :
  loading st = true -> serial busy (fetchToken s) st.
Proof.
  intro H. unfold fetchToken.
  apply serial_try_catch, serial_bind.
  apply (serial_mono busy); [| apply serial_fetch; exact H].
  intros [response | e] st' H'; unfold busy in H'; cbn [serial]; [| exact H'].
  destruct (ok response); cbn [serial]; [| exact H'].
  apply serial_bind. unfold response_json.
  destruct (json response) as [data |]; cbn [serial]; [| exact H'].
  apply serial_bind. unfold prop.
  destruct (get_prop data "token") as [e | token]; cbn [serial lift]; [exact H' |].
  destruct (truthy token); cbn [serial]; exact H'.
Qed.

(** [submitConsent] sets the flag first, and clears it on every way out. *)
Lemma serial_submitConsent (isAcceptAll : bool) (s st : AppState) :
  serial cleared (submitConsent isAcceptAll s) st.
Proof.
  unfold submitConsent. cbn [serial].
  assert (Hbusy : loading (setLoading true st) = true) by reflexivity.
  revert Hbusy. generalize (setLoading true st). clear st. intros st Hbusy.
  apply serial_bind.
  unfold ensureConfigId.
  assert (Hrest : forall currentConfigId st',
             loading st' = true ->
             serial cleared
               (resolvedToken <- ensureToken s ;;
                match resolvedToken with
                | None => Ret tt
                | Some tokenToUse =>
                    SetState (setLastConsentToken tokenToUse)
                      (transmitConsent s isAcceptAll currentConfigId tokenToUse)
                end) st').
  { intros currentConfigId st' H'.
    assert (Hsend : forall tokenToUse st'',
               loading st'' = true ->
               serial cleared
                 (SetState (setLastConsentToken tokenToUse)
                    (transmitConsent s isAcceptAll currentConfigId tokenToUse)) st'').
    { intros tokenToUse st'' H''. cbn [serial]. unfold transmitConsent.
      apply serial_finally, serial_try_catch, serial_bind.
      apply (serial_mono busy); [| apply serial_fetch; exact H''].
      intros [response | e] st3 H3; cbn [serial]; [| reflexivity].
      destruct (ok response || Z.eqb (status response) 201); cbn [serial];
        [| reflexivity].
      apply serial_bind, serial_lift. intros [consentId | e]; [| reflexivity].
      cbn [serial]. cbv zeta.
      apply serial_bind, serial_lift. intros [shownText | e]; [| reflexivity].
      apply serial_bind, serial_lift. intros [tokenText | e]; reflexivity. }
    apply serial_bind. unfold ensureToken.
    destruct (truthy (currentUserToken s)); cbn [serial]; [apply Hsend; exact H' |].
    apply serial_try_catch, serial_bind.
    apply (serial_mono busy); [| apply serial_fetchToken; exact H'].
    intros [token | e] st'' H''; unfold busy in H''; cbn [serial]; [| reflexivity].
    apply Hsend. exact H''. }
  destruct (truthy (configId s)); cbn [serial]; [apply Hrest; exact Hbusy |].
  apply serial_bind.
  apply (serial_mono (fun c st' => loading st' = true /\ exists v, c = Returned v));
    [| apply serial_fetchConfiguration; exact Hbusy].
  intros c st' [H' [v ->]]. cbn [serial].
  destruct (truthy v); cbn [serial]; [apply Hrest; exact H' | reflexivity].
Qed.

Lemma neutral_bind {A B : Type} (p : Prog A) (f : A -> Prog B) :
  neutral p -> (forall a, neutral (f a)) -> neutral (bind p f).
Proof.
  intros Hp Hf.
  induction p as [a | e | g k IH | al k IH | key k IH | r k IH];
    cbn [bind neutral] in *; auto.
  destruct Hp as [Hg Hk]. split; auto.
Qed.

Lemma neutral_try_catch {A : Type} (p : Prog A) (h : JsError -> Prog A) :
  neutral p -> (forall e, neutral (h e)) -> neutral (try_catch p h).
Proof.
  intros Hp Hh.
  induction p as [a | e | g k IH | al k IH | key k IH | r k IH];
    cbn [try_catch neutral] in *; auto.
  destruct Hp as [Hg Hk]. split; auto.
Qed.

Lemma neutral_finally {A : Type} (p : Prog A) (q : Prog unit) :
  neutral p -> neutral q -> neutral (finally p q).
Proof.
  intros Hp Hq.
  induction p as [a | e | g k IH | al k IH | key k IH | r k IH];
    cbn [finally neutral] in *; auto.
  - apply neutral_bind; [exact Hq | intros; exact I].
  - apply neutral_bind; [exact Hq | intros; exact I].
  - destruct Hp as [Hg Hk]. split; auto.
Qed.

Lemma neutral_lift {A : Type} (x : JsError + A) : neutral (lift x).
Proof. destruct x; exact I. Qed.

Lemma neutral_fetch (r : Request) : neutral (fetch r).
Proof. unfold fetch. cbn [neutral]. intros [m | response]; exact I. Qed.

Lemma neutral_response_json (response : Response) : neutral (response_json response).
Proof. unfold response_json. destruct (json response); exact I. Qed.

Lemma neutral_fetchConfiguration (s : AppState) : neutral (fetchConfiguration s).
Proof.
  unfold fetchConfiguration.
  apply neutral_try_catch; [| intros; exact I].
  apply neutral_bind; [apply neutral_fetch |].
  intro response. destruct (ok response); [| exact I].
  apply neutral_bind; [apply neutral_response_json |].
  intro data. apply neutral_bind; [apply neutral_lift |].
  intro id. destruct (truthy id); cbn [neutral]; [| exact I].
  split; [reflexivity | exact I].
Qed.

Lemma neutral_fetchToken (s : AppState) : neutral (fetchToken s).
Proof.
  unfold fetchToken.
  apply neutral_try_catch; [| intros; exact I].
  apply neutral_bind; [apply neutral_fetch |].
  intro response. destruct (ok response); [| exact I].
  apply neutral_bind; [apply neutral_response_json |].
  intro data. apply neutral_bind; [apply neutral_lift |].
  intro token. destruct (truthy token); exact I.
Qed.

Lemma neutral_fetchVendors (s : AppState) : neutral (fetchVendors s).
Proof.
  unfold fetchVendors. cbn [neutral]. split; [reflexivity |].
  apply neutral_finally; [| cbn [neutral]; split; [reflexivity | exact I]].
  apply neutral_try_catch;
    [| intros; cbn [neutral]; split; [reflexivity | exact I]].
  apply neutral_bind; [apply neutral_fetch |].
  intro response.
  destruct (ok response); [| cbn [neutral]; split; [reflexivity | exact I]].
  apply neutral_bind; [apply neutral_response_json |].
  intro vendorData. destruct (truthy vendorData); [| exact I].
  apply neutral_bind; [apply neutral_lift |].
  intros [| | b | n | x | xs | fields]; try exact I.
  destruct (forEachVendor xs ([], [])) as [e | [vendorMap vendorPreferences]];
    cbn [neutral]; [exact I |].
  repeat (split; [reflexivity |]). exact I.
Qed.

(** The mount effect never touches the loading flag. *)
Lemma neutral_initializeApp (s : AppState) : neutral (initializeApp s).
Proof.
  unfold initializeApp.
  apply neutral_bind; [apply neutral_fetchConfiguration |]. intros _.
  apply neutral_bind; [apply neutral_fetchVendors |]. intros _.
  apply neutral_try_catch; [| intros; exact I].
  apply neutral_bind; [apply neutral_fetchToken |].
  intro token. cbn [neutral]. split; [reflexivity | exact I].
Qed.

Lemma advance_serial (p : Prog unit) (w : World) :
  serial cleared p (app w) ->
  match advance p w with
  | (w', None) => loading (app w') = false
  | (w', Some (_, k)) =>
      loading (app w') = true /\
      forall o st, loading st = true -> serial cleared (k o) st
  end.
Proof.
  revert w.
  induction p as [a | e | g k IH | al k IH | key k IH | r k IH]; intros w H;
    cbn [advance serial] in *.
  - exact H.
  - exact H.
  - apply (IH (withApp g w)). exact H.
  - apply (IH (shown al w)). exact H.
  - apply (IH _ w). apply H.
  - exact H.
Qed.

Lemma advance_neutral (p : Prog unit) (w : World) :
  neutral p ->
  match advance p w with
  | (w', None) => loading (app w') = loading (app w)
  | (w', Some (_, k)) =>
      loading (app w') = loading (app w) /\ forall o, neutral (k o)
  end.
Proof.
  revert w.
  induction p as [a | e | g k IH | al k IH | key k IH | r k IH]; intros w H;
    cbn [advance neutral] in *.
  - reflexivity.
  - reflexivity.
  - destruct H as [Hg Hk]. specialize (IH (withApp g w) Hk).
    destruct (advance k (withApp g w)) as [w' [[r k'] |]];
      cbn [withApp app] in IH; rewrite Hg in IH; exact IH.
  - apply (IH (shown al w)). exact H.
  - apply (IH _ w). apply H.
  - split; [reflexivity | exact H].
Qed.

Lemma removeAt_split {A : Type} (l : list A) (i : nat) (t : A) :
  nth_error l i = Some t ->
  exists l1 l2, l = l1 ++ t :: l2 /\ removeAt i l = l1 ++ l2.
Proof.
  revert i. induction l as [| x l IH]; intros [| i] H; cbn in H; try discriminate.
  - injection H as ->. exists [], l. split; reflexivity.
  - destruct (IH i H) as (l1 & l2 & Hl & Hr).
    exists (x :: l1), l2. split.
    + rewrite Hl at 1. reflexivity.
    + change (removeAt (S i) (x :: l)) with (x :: removeAt i l). rewrite Hr.
      reflexivity.
Qed.

(** A submission started when none is in flight keeps the invariant. *)
Lemma spawn_submission (p : Prog unit) (sys : System) :
  serial cleared p (app (world sys)) ->
  Forall taskOk (pending sys) ->
  submissionsInFlight sys = [] ->
  serialized (spawn Submission p sys).
Proof.
  intros Hp Hok Hnone. unfold spawn.
  pose proof (advance_serial p (world sys) Hp) as Hadv.
  destruct (advance p (world sys)) as [w' [[r k] |]]; unfold serialized;
    cbn [pending world].
  - destruct Hadv as [Hbusy Hk].
    split; [| split].
    + apply Forall_app. split; [exact Hok |]. constructor; [| constructor].
      unfold taskOk. cbn [origin resume]. exact Hk.
    + rewrite Hbusy. discriminate.
    + unfold submissionsInFlight in *. cbn [pending]. rewrite filter_app, Hnone.
      cbn. lia.
  - split; [exact Hok |]. unfold submissionsInFlight in *. cbn [pending].
    rewrite Hnone. split; [reflexivity | cbn; lia].
Qed.

(** A handler that leaves the flag alone keeps the invariant. *)
Lemma spawn_background (p : Prog unit) (sys : System) :
  neutral p ->
  serialized sys ->
  serialized (spawn Background p sys).
Proof.
  intros Hp (Hok & Hidle & Hone). unfold spawn.
  pose proof (advance_neutral p (world sys) Hp) as Hadv.
  destruct (advance p (world sys)) as [w' [[r k] |]]; unfold serialized;
    cbn [pending world].
  - destruct Hadv as [Hsame Hk].
    unfold submissionsInFlight in *. cbn [pending].
    rewrite filter_app. cbn [filter isSubmission origin]. rewrite app_nil_r.
    split; [| split].
    + apply Forall_app. split; [exact Hok |]. constructor; [| constructor].
      unfold taskOk. cbn [origin resume]. exact Hk.
    + rewrite Hsame. exact Hidle.
    + exact Hone.
  - unfold submissionsInFlight in *. cbn [pending].
    split; [exact Hok |]. split; [rewrite Hadv; exact Hidle | exact Hone].
Qed.

(** Every event of the user interface keeps the invariant. *)
Lemma react_serialized (e : Event) (sys : System) :
  fromTheButton e -> serialized sys -> serialized (react e sys).
Proof.
  intros He Hinv. destruct e as [isAcceptAll | isAcceptAll | | i o]; cbn [react].
  - destruct (loading (app (world sys))) eqn:Hl; cbn [orb]; [exact Hinv |].
    destruct (vendorsLoading (app (world sys))); [exact Hinv |].
    destruct Hinv as (Hok & Hidle & _).
    apply spawn_submission; [apply serial_submitConsent | exact Hok | exact (Hidle Hl)].
  - destruct He.
  - apply spawn_background; [apply neutral_initializeApp | exact Hinv].
  - destruct (nth_error (pending sys) i) as [t |] eqn:Ht; [| exact Hinv].
    destruct Hinv as (Hok & Hidle & Hone).
    destruct (removeAt_split _ _ _ Ht) as (l1 & l2 & Hl & Hr).
    rewrite Hr. unfold submissionsInFlight in Hidle, Hone. rewrite Hl in Hok, Hidle, Hone.
    apply Forall_app in Hok. destruct Hok as [Hok1 Hok2].
    inversion_clear Hok2 as [| ? ? Ht_ok Hok2'].
    rewrite filter_app in Hidle, Hone. cbn [filter] in Hidle, Hone.
    unfold taskOk in Ht_ok.
    destruct (origin t) eqn:Horigin.
    + assert (Hsub : isSubmission t = true)
        by (unfold isSubmission; rewrite Horigin; reflexivity).
      rewrite Hsub in Hidle, Hone.
      assert (Hbusy : loading (app (world sys)) = true).
      { destruct (loading (app (world sys))); [reflexivity |].
        specialize (Hidle eq_refl). destruct (filter isSubmission l1); discriminate. }
      rewrite length_app in Hone. cbn [length] in Hone.
      assert (H1 : filter isSubmission l1 = [])
        by (destruct (filter isSubmission l1); [reflexivity | cbn in Hone; lia]).
      assert (H2 : filter isSubmission l2 = [])
        by (destruct (filter isSubmission l2); [reflexivity | cbn in Hone; lia]).
      apply spawn_submission; cbn [world pending].
      * apply Ht_ok. exact Hbusy.
      * apply Forall_app. split; assumption.
      * unfold submissionsInFlight. cbn [pending]. rewrite filter_app, H1, H2.
        reflexivity.
    + assert (Hsub : isSubmission t = false)
        by (unfold isSubmission; rewrite Horigin; reflexivity).
      rewrite Hsub in Hidle, Hone.
      apply spawn_background; [apply Ht_ok |].
      unfold serialized, submissionsInFlight. cbn [world pending].
      rewrite filter_app.
      split; [apply Forall_app; split; assumption |].
      split; assumption.
Qed.

Lemma replay_serialized (events : list Event) (sys : System) :
  Forall fromTheButton events -> serialized sys -> serialized (replay events sys).
Proof.
  revert sys. induction events as [| e events IH]; intros sys Hev Hinv; cbn [replay fold_left].
  - exact Hinv.
  - inversion_clear Hev as [| ? ? He Hrest].
    apply IH; [exact Hrest |]. apply react_serialized; assumption.
Qed.

Lemma advance_submitConsent_ready (isAcceptAll : bool) (w : World) :
  truthy (configId (app w)) = true ->
  truthy (currentUserToken (app w)) = true ->
  exists w' k,
    advance (submitConsent isAcceptAll (app w)) w =
      (w', Some (consentRequest (app w) isAcceptAll (configId (app w))
                   (currentUserToken (app w)), k)) /\
    alerts w' = alerts w.
Proof.
  intros Hc Ht. unfold submitConsent, ensureConfigId, ensureToken.
  rewrite Hc, Ht. cbn [bind advance].
  unfold transmitConsent, fetch. cbn [bind try_catch finally advance].
  eexists. eexists. split; reflexivity.
Qed.

(** C2, as the code has it.  [submitConsent] has no check for a submission
    in flight: called with the configuration id and the token set, it posts
    its consent at once, next to whatever is in flight, and shows no dialog.
    What serializes submissions is the button: it is disabled while the
    loading flag is set, [submitConsent] sets the flag on entry and clears
    it only when it ends, and the mount effect leaves the flag alone.  So
    in every state reached by taps on the button, runs of the mount effect
    and requests settling in any order, at most one submission is in
    flight. *)
Theorem submissions_serialized_by_the_button :
  (forall sys isAcceptAll,
      let s := app (world sys) in
      truthy (configId s) = true ->
      truthy (currentUserToken s) = true ->
      let sys' := react (CallSubmit isAcceptAll) sys in
      map inFlight (pending sys') =
        map inFlight (pending sys) ++
        [consentRequest s isAcceptAll (configId s) (currentUserToken s)] /\
      alerts (world sys') = alerts (world sys)) /\
  (forall events s0,
      Forall fromTheButton events ->
      (length (submissionsInFlight (replay events (boot s0))) <= 1)%nat).
Proof.
  split.
  - intros sys isAcceptAll s Hc Ht. cbv zeta. cbn [react]. unfold spawn.
    destruct (advance_submitConsent_ready isAcceptAll (world sys) Hc Ht)
      as (w' & k & -> & Ha).
    cbn [pending world]. rewrite map_app. split; [reflexivity | exact Ha].
  - intros events s0 Hev.
    assert (Hboot : serialized (boot s0)).
    { unfold serialized, boot, submissionsInFlight. cbn.
      split; [constructor |]. split; [reflexivity | lia]. }
    destruct (replay_serialized events (boot s0) Hev Hboot) as (_ & _ & Hone).
    exact Hone.
Qed.

(** Two taps in a row on the ready application: the second finds the
    button disabled, and one submission is in flight. *)
Lemma submissions_serialized_by_the_button_witness :
  let sys := replay [PressSave false; PressSave false] (boot readyState) in
  Forall fromTheButton [PressSave false; PressSave false] /\
  map inFlight (submissionsInFlight sys) =
    [consentRequest readyState false (JStr "cfg1") (JStr "tok1")] /\
  (length (submissionsInFlight sys) <= 1)%nat.
Proof.
  cbv zeta.
  assert (Hev : Forall fromTheButton [PressSave false; PressSave false])
    by (repeat constructor).
  split; [exact Hev |]. split; [reflexivity |].
  exact (proj2 submissions_serialized_by_the_button
           [PressSave false; PressSave false] readyState Hev).
Defined.

(** Two calls of [submitConsent] that overlap: both consents are in flight
    with the same token, no dialog rejects either, and both end accepted. *)
Lemma overlapping_calls_both_transmit :
  let consent := consentRequest readyState false (JStr "cfg1") (JStr "tok1") in
  let created := jsonResponse 201 (JObj [("id", JStr "abc")]) in
  let sys := replay [CallSubmit false; CallSubmit false] (boot readyState) in
  let sys' := replay [Settle 0 created; Settle 0 created] sys in
  map inFlight (submissionsInFlight sys) = [consent; consent] /\
  get_prop (body consent) "token" = inr (JStr "tok1") /\
  alerts (world sys) = [] /\
  pending sys' = [] /\
  alerts (world sys') =
    [AlertSuccess 201 (JStr "abc") (JStr "tok1");
     AlertSuccess 201 (JStr "abc") (JStr "tok1")].
Proof.
  cbv zeta. repeat split; vm_compute; reflexivity.
Qed.

(** * Further properties of the handlers *)

(** ** Objects *)

Lemma obj_get_set_same {A : Type} (o : jsobj A) (k : string) (v : A) :
  obj_get (obj_set o k v) k = Some v.
Proof.
  induction o as [| [k1 v1] o IH]; cbn [obj_set obj_get].
  - rewrite String.eqb_refl. reflexivity.
  - destruct (String.eqb k1 k) eqn:Hk; cbn [obj_get]; rewrite Hk; [reflexivity | exact IH].
Qed.

Lemma obj_get_set_other {A : Type} (o : jsobj A) (k k' : string) (v : A) :
  k' <> k -> obj_get (obj_set o k v) k' = obj_get o k'.
Proof.
  intro Hne. induction o as [| [k1 v1] o IH]; cbn [obj_set obj_get].
  - destruct (String.eqb k k') eqn:Hk; [| reflexivity].
    apply String.eqb_eq in Hk. congruence.
  - destruct (String.eqb k1 k) eqn:Hk; cbn [obj_get].
    + apply String.eqb_eq in Hk. subst k1.
      destruct (String.eqb k k') eqn:Hk'; [| reflexivity].
      apply String.eqb_eq in Hk'. congruence.
    + rewrite IH. reflexivity.
Qed.

Lemma obj_set_present {A : Type} (o : jsobj A) (k : string) (v : A) :
  obj_get o k = Some v -> obj_set o k v = o.
Proof.
  induction o as [| [k1 v1] o IH]; cbn [obj_set obj_get]; [discriminate |].
  destruct (String.eqb k1 k).
  - intro H; injection H as ->. reflexivity.
  - intro H. rewrite (IH H). reflexivity.
Qed.

Lemma obj_set_twice {A : Type} (o : jsobj A) (k : string) (a b : A) :
  obj_set (obj_set o k a) k b = obj_set o k b.
Proof.
  induction o as [| [k1 v1] o IH]; cbn [obj_set].
  - rewrite String.eqb_refl. reflexivity.
  - destruct (String.eqb k1 k) eqn:Hk; cbn [obj_set]; rewrite Hk; [reflexivity |].
    rewrite IH. reflexivity.
Qed.

Lemma obj_keys_set {A : Type} (o : jsobj A) (k k' : string) (v : A) :
  In k' (obj_keys (obj_set o k v)) <-> k' = k \/ In k' (obj_keys o).
Proof.
  unfold obj_keys. induction o as [| [k1 v1] o IH]; cbn [obj_set map fst In].
  - split; [intros [H | []]; left; congruence | intros [H | []]; left; congruence].
  - destruct (String.eqb k1 k) eqn:Hk; cbn [map fst In].
    + apply String.eqb_eq in Hk. subst k1. intuition congruence.
    + rewrite IH. tauto.
Qed.

Lemma obj_keys_set_NoDup {A : Type} (o : jsobj A) (k : string) (v : A) :
  NoDup (obj_keys o) -> NoDup (obj_keys (obj_set o k v)).
Proof.
  unfold obj_keys. induction o as [| [k1 v1] o IH]; intro H; cbn [obj_set map fst].
  - constructor; [intros [] | constructor].
  - inversion_clear H as [| ? ? Hnot Hrest].
    destruct (String.eqb k1 k) eqn:Hk; cbn [map fst].
    + constructor; assumption.
    + constructor; [| apply IH; exact Hrest].
      intro Hin. apply (obj_keys_set o k k1 v) in Hin. destruct Hin as [-> | Hin].
      * rewrite String.eqb_refl in Hk. discriminate.
      * exact (Hnot Hin).
Qed.

Lemma obj_set_allEqual (p : jsobj bool) (k : string) (c : bool) :
  allEqual c p -> allEqual c (obj_set p k c).
Proof.
  unfold allEqual, obj_values.
  induction p as [| [k1 v1] p IH]; intro H; cbn [obj_set].
  - repeat constructor.
  - cbn [map snd] in H. inversion_clear H as [| ? ? Hv Hrest].
    destruct (String.eqb k1 k); cbn [map snd].
    + constructor; [reflexivity | exact Hrest].
    + constructor; [exact Hv | apply IH; exact Hrest].
Qed.

(** The object that [reduce] builds over a list of keys. *)
Lemma reduce_keys (c : bool) (keys : list string) (init : jsobj bool) :
  let o := fold_left (fun acc key => obj_set acc key c) keys init in
  (allEqual c init -> allEqual c o) /\
  (NoDup (obj_keys init) -> NoDup (obj_keys o)) /\
  (forall k, In k (obj_keys o) <-> In k keys \/ In k (obj_keys init)) /\
  (forall k, In k keys -> obj_get o k = Some c).
Proof.
  cbv zeta. revert init.
  induction keys as [| key keys IH]; intro init; cbn [fold_left].
  - split; [tauto |]. split; [tauto |]. split; [intro k; cbn [In]; tauto | intros k []].
  - destruct (IH (obj_set init key c)) as (Hall & Hnodup & Hkeys & Hget).
    split; [| split; [| split]].
    + intro H. apply Hall, obj_set_allEqual, H.
    + intro H. apply Hnodup, obj_keys_set_NoDup, H.
    + intro k. rewrite Hkeys, obj_keys_set. cbn [In].
      split; [intros [H | [H | H]] | intros [[H | H] | H]]; auto.
    + intros k [Heq | Hin]; [subst key | apply Hget; exact Hin].
      destruct (in_dec string_dec k keys) as [Hin | Hnot]; [apply Hget; exact Hin |].
      clear IH Hall Hnodup Hkeys Hget.
      assert (Hkeep : forall ks o,
                 ~ In k ks ->
                 obj_get (fold_left (fun acc key0 => obj_set acc key0 c) ks o) k
                 = obj_get o k).
      { induction ks as [| k0 ks IHks]; intros o Hno; cbn [fold_left]; [reflexivity |].
        rewrite IHks by (intro; apply Hno; right; assumption).
        apply obj_get_set_other. intro; apply Hno; left; congruence. }
      rewrite (Hkeep keys _ Hnot). apply obj_get_set_same.
Qed.

(** ** The switches *)

(** X1.  A switch flips the choice of its vendor and of no other: the
    toggled vendor reads the negation of what it read (a vendor without a
    stored choice reads rejected, so its first toggle accepts it), every
    other vendor reads what it read, and toggling twice a vendor that has a
    stored choice gives back the very state.  Nothing but the preferences
    changes. *)
Theorem toggleVendor_flips_one (vendorKey : string) (s : AppState) :
  choiceOf (vendors (toggleVendor vendorKey s)) vendorKey
    = negb (choiceOf (vendors s) vendorKey) /\
  (forall other, other <> vendorKey ->
     obj_get (vendors (toggleVendor vendorKey s)) other = obj_get (vendors s) other) /\
  (In vendorKey (obj_keys (vendors s)) ->
     toggleVendor vendorKey (toggleVendor vendorKey s) = s) /\
  setVendors (vendors s) (toggleVendor vendorKey s) = s.
Proof.
  unfold toggleVendor, choiceOf. cbn [vendors setVendors].
  split; [rewrite obj_get_set_same; reflexivity |].
  split; [intros other Hne; apply obj_get_set_other; exact Hne |].
  split; [| destruct s; reflexivity].
  intro Hin. rewrite obj_get_set_same, obj_set_twice, negb_involutive.
  assert (Hget : exists c, obj_get (vendors s) vendorKey = Some c).
  { revert Hin. unfold obj_keys.
    induction (vendors s) as [| [k1 v1] o IH]; cbn [map fst In obj_get]; [intros [] |].
    intros [-> | Hin]; [rewrite String.eqb_refl; eexists; reflexivity |].
    destruct (String.eqb k1 vendorKey); [eexists; reflexivity | apply IH; exact Hin]. }
  destruct Hget as [c Hc]. rewrite Hc. rewrite (obj_set_present _ _ _ Hc).
  destruct s; reflexivity.
Qed.

(** A listed vendor toggled twice reads as before; an unlisted one ends
    rejected but stored. *)
Lemma toggleVendor_flips_one_witness :
  toggleVendor "v1 (One)" (toggleVendor "v1 (One)" readyState) = readyState /\
  vendors (toggleVendor "v9" (toggleVendor "v9" readyState)) =
    [("v1 (One)", false); ("v2 (Two)", false); ("v9", false)].
Proof.
  split.
  - apply (proj1 (proj2 (proj2 (toggleVendor_flips_one "v1 (One)" readyState)))).
    vm_compute. left. reflexivity.
  - reflexivity.
Defined.

Lemma obj_set_allEqual_value (p : jsobj bool) (k : string) (c v : bool) :
  v = c -> allEqual c p -> allEqual c (obj_set p k v).
Proof. intros ->. apply obj_set_allEqual. Qed.

(** The choices a submission sends are all [c] when every listed vendor
    reads [c] under the flag. *)
Lemma buildVendorPreferences_allEqual (c : bool) (s : AppState) (isAcceptAll : bool) :
  (forall entry, In entry (apiVendors s) ->
     isAcceptAll || choiceOf (vendors s) (fst entry) = c) ->
  allEqual c (buildVendorPreferences s isAcceptAll).
Proof.
  unfold buildVendorPreferences.
  assert (Hgen : forall l acc,
             (forall entry, In entry l ->
                isAcceptAll || choiceOf (vendors s) (fst entry) = c) ->
             allEqual c acc ->
             allEqual c
               (fold_left
                  (fun vendorPreferences entry =>
                     let vendorKey := fst entry in
                     let vendor := snd entry in
                     let formattedKey :=
                       js_to_string (v_id vendor) +++ " (" +++
                       js_to_string (v_name vendor) +++ ")" in
                     obj_set vendorPreferences formattedKey
                       (isAcceptAll ||
                        match obj_get (vendors s) vendorKey with
                        | Some choice => choice
                        | None => false
                        end)) l acc)).
  { induction l as [| entry l IH]; intros acc Hl Hacc; cbn [fold_left]; [exact Hacc |].
    apply IH; [intros e He; apply Hl; right; exact He |].
    cbv zeta. apply obj_set_allEqual_value; [| exact Hacc].
    apply (Hl entry). left. reflexivity. }
  intro H. apply Hgen; [exact H | constructor].
Qed.

(** X2.  Accept All gives every listed vendor, and no other key, the choice
    true, and Reject All the choice false, each key once.  A submission
    made right after sends all choices true, respectively all false; and a
    submission with the accept-all flag on sends all choices true whatever
    the switches say. *)
Theorem acceptAll_rejectAll_cover_the_list (s : AppState) :
  allEqual true (vendors (acceptAll s)) /\
  allEqual false (vendors (rejectAll s)) /\
  NoDup (obj_keys (vendors (acceptAll s))) /\
  NoDup (obj_keys (vendors (rejectAll s))) /\
  (forall k, In k (obj_keys (vendors (acceptAll s))) <-> In k (obj_keys (apiVendors s))) /\
  (forall k, In k (obj_keys (vendors (rejectAll s))) <-> In k (obj_keys (apiVendors s))) /\
  allEqual true (buildVendorPreferences (acceptAll s) false) /\
  allEqual false (buildVendorPreferences (rejectAll s) false) /\
  allEqual true (buildVendorPreferences s true).
Proof.
  unfold acceptAll, rejectAll, allSetTo. cbn [vendors setVendors].
  destruct (reduce_keys true (obj_keys (apiVendors s)) [])
    as (Hall_t & Hnodup_t & Hkeys_t & Hget_t).
  destruct (reduce_keys false (obj_keys (apiVendors s)) [])
    as (Hall_f & Hnodup_f & Hkeys_f & Hget_f).
  cbv zeta in *.
  assert (Hempty : forall c, allEqual c []) by (intro; constructor).
  split; [apply Hall_t, Hempty |].
  split; [apply Hall_f, Hempty |].
  split; [apply Hnodup_t; constructor |].
  split; [apply Hnodup_f; constructor |].
  split; [intro k; rewrite Hkeys_t; cbn [obj_keys map In]; tauto |].
  split; [intro k; rewrite Hkeys_f; cbn [obj_keys map In]; tauto |].
  split; [| split].
  - apply buildVendorPreferences_allEqual. cbn [vendors apiVendors setVendors orb].
    intros entry Hin. unfold choiceOf. rewrite Hget_t; [reflexivity |].
    unfold obj_keys. apply in_map. exact Hin.
  - apply buildVendorPreferences_allEqual. cbn [vendors apiVendors setVendors orb].
    intros entry Hin. unfold choiceOf. rewrite Hget_f; [reflexivity |].
    unfold obj_keys. apply in_map. exact Hin.
  - apply buildVendorPreferences_allEqual. intros; reflexivity.
Qed.

(** ** What a submission leaves in the state *)

Lemma afterConsent_frame (isAcceptAll : bool) (tokenToUse : jsval) (o : FetchOutcome)
    (w : World) :
  let w' := afterConsent isAcceptAll tokenToUse o w in
  vendors (app w') = vendors (app w) /\
  apiVendors (app w') = apiVendors (app w) /\
  lastConsentToken (app w') = lastConsentToken (app w) /\
  modalVisible (app w') = modalVisible (app w) /\
  projectId (app w') = projectId (app w) /\
  environment (app w') = environment (app w).
Proof.
  cbv zeta. unfold afterConsent.
  destruct o as [m | response]; [repeat split |].
  destruct (accepted response); [| repeat split].
  destruct (consentIdOf _); repeat split.
Qed.

(** What the world a submission leaves behind keeps, and what it
    records. *)
Lemma submitted_frame (net : Network) (isAcceptAll : bool) (w : World) :
  let w' := submitted net isAcceptAll w in
  vendors (app w') = vendors (app w) /\
  apiVendors (app w') = apiVendors (app w) /\
  projectId (app w') = projectId (app w) /\
  environment (app w') = environment (app w) /\
  match resolvedConfig net w, resolvedToken net w with
  | Some _, inr tokenToUse =>
      lastConsentToken (app w') = tokenToUse /\ modalVisible (app w') = false
  | _, _ =>
      lastConsentToken (app w') = lastConsentToken (app w) /\
      modalVisible (app w') = modalVisible (app w)
  end.
Proof.
  cbv zeta. unfold submitted.
  destruct (resolvedConfig net w) as [currentConfigId |].
  - destruct (resolvedToken net w) as [e | tokenToUse].
    + destruct (truthy (configId (app w))); repeat split.
    + cbv zeta.
      match goal with
      | |- context [afterConsent ?b ?t ?o ?w0] =>
          destruct (afterConsent_frame b t o w0) as (Hv & Ha & Hl & Hm & Hp & He)
      end.
      cbv zeta in Hv, Ha, Hl, Hm, Hp, He.
      change (vendors (app (closeModal ?x))) with (vendors (app x)).
      change (apiVendors (app (closeModal ?x))) with (apiVendors (app x)).
      change (projectId (app (closeModal ?x))) with (projectId (app x)).
      change (environment (app (closeModal ?x))) with (environment (app x)).
      change (lastConsentToken (app (closeModal ?x))) with (lastConsentToken (app x)).
      rewrite Hv, Ha, Hl, Hp, He.
      destruct (truthy (configId (app w))), (truthy (currentUserToken (app w)));
        repeat split.
  - repeat split.
Qed.

(** X3.  A submission never changes the vendor list, the switches, the
    project or the environment.  Once it reaches the consent service,
    whatever the answer, the token it sent is recorded as the last consent
    token and the modal is closed; when it stops before, for want of a
    configuration id or of a token, the last consent token and the modal
    stay as they were. *)
Theorem submission_records_its_token (net : Network) (isAcceptAll : bool) (w : World) :
  let w' := snd (call net (submitConsent isAcceptAll) w) in
  vendors (app w') = vendors (app w) /\
  apiVendors (app w') = apiVendors (app w) /\
  projectId (app w') = projectId (app w) /\
  environment (app w') = environment (app w) /\
  match resolvedConfig net w, resolvedToken net w with
  | Some _, inr tokenToUse =>
      lastConsentToken (app w') = tokenToUse /\ modalVisible (app w') = false
  | _, _ =>
      lastConsentToken (app w') = lastConsentToken (app w) /\
      modalVisible (app w') = modalVisible (app w)
  end.
Proof.
  cbv zeta. rewrite run_submitConsent. cbn [snd]. apply submitted_frame.
Qed.

(** Against the failing service the refused consent still leaves its
    token behind; offline nothing is recorded and the modal stays open. *)
Lemma submission_records_its_token_witness :
  let open := setModalVisible true initialState in
  let refused := snd (call failingService (submitConsent false) (freshWorld open)) in
  let stopped := snd (call offline (submitConsent false) (freshWorld open)) in
  lastConsentToken (app refused) = JStr "tok1" /\
  modalVisible (app refused) = false /\
  lastConsentToken (app stopped) = JNull /\
  modalVisible (app stopped) = true.
Proof.
  cbv zeta.
  pose proof (submission_records_its_token failingService false
                (freshWorld (setModalVisible true initialState))) as H1.
  pose proof (submission_records_its_token offline false
                (freshWorld (setModalVisible true initialState))) as H2.
  cbv zeta in H1, H2.
  destruct H1 as (_ & _ & _ & _ & H1). destruct H2 as (_ & _ & _ & _ & H2).
  split; [exact (proj1 H1) |]. split; [exact (proj2 H1) |].
  split; [exact (proj1 H2) | exact (proj2 H2)].
Defined.

(** ** Loading the vendor list *)

(** What one vendor of the payload adds does not depend on what is
    already there. *)
Lemma addVendor_uniform (vendor : jsval) :
  (exists e, forall acc, addVendor acc vendor = inl e) \/
  (exists vendorKey entry,
      vendorKey = wireKey entry /\
      forall acc,
        addVendor acc vendor =
        inr (obj_set (fst acc) vendorKey entry, obj_set (snd acc) vendorKey false)).
Proof.
  unfold addVendor.
  destruct (get_prop vendor "id") as [e | id]; [left; exists e; reflexivity |].
  destruct (get_prop vendor "title") as [e | title]; [left; exists e; reflexivity |].
  destruct (get_prop vendor "name") as [e | name]; [left; exists e; reflexivity |].
  destruct (get_prop vendor "description") as [e | description];
    [left; exists e; reflexivity |].
  destruct (get_prop vendor "image") as [e | image]; [left; exists e; reflexivity |].
  cbn [ebind]. unfold js_template.
  destruct (convertible id); [| left; eexists; reflexivity].
  destruct (convertible (js_or title name)); [| left; eexists; reflexivity].
  right. cbn [ebind]. eexists. eexists. split; [| intro acc; reflexivity].
  reflexivity.
Qed.

Lemma forEachVendor_app (xs ys : list jsval) (acc : jsobj Vendor * jsobj bool) :
  forEachVendor (xs ++ ys) acc =
  match forEachVendor xs acc with
  | inl e => inl e
  | inr acc' => forEachVendor ys acc'
  end.
Proof.
  revert acc. induction xs as [| x xs IH]; intro acc; [reflexivity |].
  rewrite <- app_comm_cons. cbn [forEachVendor].
  destruct (addVendor acc x); [reflexivity | apply IH].
Qed.

Lemma obj_set_keyedByWireKey (m : jsobj Vendor) (entry : Vendor) :
  keyedByWireKey m -> keyedByWireKey (obj_set m (wireKey entry) entry).
Proof.
  unfold keyedByWireKey.
  induction m as [| [k1 v1] m IH]; intro H; cbn [obj_set].
  - constructor; [reflexivity | constructor].
  - inversion_clear H as [| ? ? Hk Hrest].
    destruct (String.eqb k1 (wireKey entry)) eqn:Heq.
    + apply String.eqb_eq in Heq. constructor; [exact Heq | exact Hrest].
    + constructor; [exact Hk | apply IH; exact Hrest].
Qed.

Lemma forEachVendor_keys (xs : list jsval) (acc acc' : jsobj Vendor * jsobj bool) :
  forEachVendor xs acc = inr acc' ->
  NoDup (obj_keys (fst acc)) -> keyedByWireKey (fst acc) ->
  NoDup (obj_keys (fst acc')) /\ keyedByWireKey (fst acc').
Proof.
  revert acc. induction xs as [| vendor rest IH]; intros acc H Hnodup Hkeyed;
    cbn [forEachVendor] in H.
  - injection H as <-. split; assumption.
  - destruct (addVendor_uniform vendor) as [[e He] | (k & entry & Hk & Hadd)].
    + rewrite He in H. discriminate.
    + rewrite Hadd in H. apply (IH _ H); cbn [fst].
      * apply obj_keys_set_NoDup. exact Hnodup.
      * subst k. apply obj_set_keyedByWireKey. exact Hkeyed.
Qed.

Lemma obj_set_absent {A : Type} (o : jsobj A) (k : string) (v : A) :
  ~ In k (obj_keys o) -> obj_set o k v = o ++ [(k, v)].
Proof.
  unfold obj_keys. induction o as [| [k1 v1] o IH]; intro H; cbn [obj_set app];
    [reflexivity |].
  cbn [map fst In] in H.
  destruct (String.eqb k1 k) eqn:Hk.
  - apply String.eqb_eq in Hk. exfalso. apply H. left. exact Hk.
  - rewrite IH; [reflexivity |]. intro Hin. apply H. right. exact Hin.
Qed.

(** On a list keyed by wire keys, each once, a submission sends one
    choice per listed vendor, under the listed keys and in their order. *)
Lemma buildVendorPreferences_keys (s : AppState) (isAcceptAll : bool) :
  NoDup (obj_keys (apiVendors s)) ->
  keyedByWireKey (apiVendors s) ->
  obj_keys (buildVendorPreferences s isAcceptAll) = obj_keys (apiVendors s).
Proof.
  unfold buildVendorPreferences, keyedByWireKey.
  change (obj_keys (apiVendors s)) with (obj_keys (@nil (string * bool)) ++ obj_keys (apiVendors s)).
  generalize (@nil (string * bool)) as acc.
  induction (apiVendors s) as [| [k v] l IH]; intros acc Hnodup Hkeyed; cbn [fold_left].
  - cbn. rewrite app_nil_r. reflexivity.
  - inversion_clear Hkeyed as [| ? ? Hk Hrest]. cbn [fst snd] in Hk. cbv zeta.
    cbn [fst snd]. fold (wireKey v). rewrite <- Hk.
    assert (Hfresh : ~ In k (obj_keys acc)).
    { intro Hin. unfold obj_keys in Hnodup. cbn [map fst] in Hnodup.
      apply NoDup_remove_2 in Hnodup. apply Hnodup. apply in_or_app. left. exact Hin. }
    rewrite (obj_set_absent _ _ _ Hfresh).
    rewrite IH.
    + unfold obj_keys. rewrite map_app. cbn [map fst]. rewrite <- app_assoc. reflexivity.
    + unfold obj_keys in *. rewrite map_app. cbn [map fst] in *.
      rewrite <- app_assoc. exact Hnodup.
    + exact Hrest.
Qed.

Lemma vendorsAnswer_keys (o : FetchOutcome) (vendorMap : jsobj Vendor)
    (vendorPreferences : jsobj bool) :
  vendorsAnswer o = VendorsLoaded vendorMap vendorPreferences ->
  NoDup (obj_keys vendorMap) /\ keyedByWireKey vendorMap.
Proof.
  unfold vendorsAnswer.
  destruct o as [m | response]; [discriminate |].
  destruct (ok response); [| discriminate].
  destruct (json response) as [vendorData |]; [| discriminate].
  destruct (truthy vendorData); [| discriminate].
  destruct (get_prop vendorData "vendors") as [e | vendorList]; [discriminate |].
  destruct vendorList as [| | b | n | x | xs | fields]; try discriminate.
  destruct (forEachVendor xs ([], [])) as [e | [m p]] eqn:Hloop; [discriminate |].
  intro H; injection H as <- <-.
  apply (forEachVendor_keys _ _ _ Hloop); constructor.
Qed.

(** X4.  A vendor list loaded from the API holds each key once, and every
    vendor sits under the very key a submission sends its choice under; so
    the next submission sends exactly one choice per listed vendor, under
    the listed keys and in the listed order. *)
Theorem loaded_vendors_are_keyed_once (net : Network) (w : World)
    (vendorMap : jsobj Vendor) :
  fst (call net fetchVendors w) = Returned (Some vendorMap) ->
  let s' := app (snd (call net fetchVendors w)) in
  NoDup (obj_keys vendorMap) /\
  keyedByWireKey vendorMap /\
  (forall isAcceptAll,
      obj_keys (buildVendorPreferences s' isAcceptAll) = obj_keys vendorMap).
Proof.
  unfold call. rewrite run_fetchVendors. cbv zeta.
  destruct (vendorsAnswer _) as [m p | |] eqn:Hanswer; cbn [fst snd];
    try discriminate.
  intro H; injection H as ->.
  destruct (vendorsAnswer_keys _ _ _ Hanswer) as [Hnodup Hkeyed].
  split; [exact Hnodup |]. split; [exact Hkeyed |].
  intro isAcceptAll. apply buildVendorPreferences_keys;
    cbn [withApp app apiVendors setVendorsLoading setVendors setApiVendors]; assumption.
Qed.

Lemma loaded_vendors_are_keyed_once_witness :
  let s' := app (snd (call demoService fetchVendors (freshWorld initialState))) in
  obj_keys (buildVendorPreferences s' false) = ["v1 (One)"; "v2 (Two)"].
Proof.
  cbv zeta.
  destruct (loaded_vendors_are_keyed_once demoService (freshWorld initialState)
              (apiVendors (app (snd (call demoService fetchVendors
                                       (freshWorld initialState)))))
              eq_refl) as (_ & _ & H).
  exact (H false).
Defined.

(** X5.  When the payload lists the same vendor key more than once, the
    later vendor wins: after the loop, the key of the last vendor of the
    payload holds that vendor. *)
Theorem later_vendor_wins (xs : list jsval) (vendor : jsval) (vendorKey : string)
    (entry : Vendor) (vendorMap : jsobj Vendor) (vendorPreferences : jsobj bool) :
  addVendor ([], []) vendor = inr ([(vendorKey, entry)], [(vendorKey, false)]) ->
  forEachVendor (xs ++ [vendor]) ([], []) = inr (vendorMap, vendorPreferences) ->
  obj_get vendorMap vendorKey = Some entry /\
  obj_get vendorPreferences vendorKey = Some false.
Proof.
  intros Hone Hloop. rewrite forEachVendor_app in Hloop.
  destruct (forEachVendor xs ([], [])) as [e | acc]; [discriminate |].
  cbn [forEachVendor] in Hloop.
  destruct (addVendor_uniform vendor) as [[e He] | (k & entry' & _ & Hadd)].
  - rewrite He in Hone. discriminate.
  - rewrite Hadd in Hone, Hloop. cbn [fst snd obj_set] in Hone.
    injection Hone as -> ->. injection Hloop as <- <-.
    split; apply obj_get_set_same.
Qed.

(** Two vendors with the same id and title: one entry, the later
    description. *)
Lemma later_vendor_wins_witness :
  let first := JObj [("id", JStr "v1"); ("title", JStr "One"); ("description", JStr "old")] in
  let second := JObj [("id", JStr "v1"); ("title", JStr "One"); ("description", JStr "new")] in
  exists vendorMap vendorPreferences,
    forEachVendor ([first] ++ [second]) ([], []) = inr (vendorMap, vendorPreferences) /\
    obj_keys vendorMap = ["v1 (One)"] /\
    obj_get vendorMap "v1 (One)" =
      Some (mkVendor (JStr "v1") (JStr "One") (JStr "new") JUndefined).
Proof.
  cbv zeta.
  exists [("v1 (One)", mkVendor (JStr "v1") (JStr "One") (JStr "new") JUndefined)].
  exists [("v1 (One)", false)].
  split; [reflexivity |]. split; [reflexivity |].
  exact (proj1 (later_vendor_wins
                  [JObj [("id", JStr "v1"); ("title", JStr "One");
                         ("description", JStr "old")]]
                  (JObj [("id", JStr "v1"); ("title", JStr "One");
                         ("description", JStr "new")])
                  "v1 (One)"
                  (mkVendor (JStr "v1") (JStr "One") (JStr "new") JUndefined)
                  [("v1 (One)", mkVendor (JStr "v1") (JStr "One") (JStr "new") JUndefined)]
                  [("v1 (One)", false)]
                  eq_refl eq_refl)).
Defined.

Lemma forEachVendor_null (xs : list jsval) (acc : jsobj Vendor * jsobj bool) :
  In JNull xs -> exists e, forEachVendor xs acc = inl e.
Proof.
  revert acc. induction xs as [| x xs IH]; intros acc Hin; [destruct Hin |].
  cbn [forEachVendor]. destruct Hin as [-> | Hin].
  - eexists. reflexivity.
  - destruct (addVendor acc x) as [e | acc']; [eexists; reflexivity |].
    apply IH. exact Hin.
Qed.

(** X6.  A vendor payload is installed whole or not at all.  When one
    element of the vendor array is null, none of its vendors is installed:
    the handler returns null, the vendor list stays as it was and the
    preferences fall back to the three hardcoded vendors.  When the answer
    is a success whose payload has no vendor array, the handler returns
    null and leaves both the list and the preferences as they were.  The
    vendors-loading flag is cleared either way. *)
Theorem vendor_payload_is_all_or_nothing (net : Network) (w : World)
    (response : Response) (vendorData vendorList : jsval) :
  net (requests w) (vendorsRequest (app w)) = Answered response ->
  ok response = true ->
  json response = Some vendorData ->
  truthy vendorData = true ->
  get_prop vendorData "vendors" = inr vendorList ->
  let result := fst (call net fetchVendors w) in
  let s' := app (snd (call net fetchVendors w)) in
  (forall xs, vendorList = JArr xs -> In JNull xs ->
     result = Returned None /\
     apiVendors s' = apiVendors (app w) /\
     vendors s' = hardcodedPreferences /\
     vendorsLoading s' = false) /\
  ((forall xs, vendorList <> JArr xs) ->
     result = Returned None /\
     apiVendors s' = apiVendors (app w) /\
     vendors s' = vendors (app w) /\
     vendorsLoading s' = false).
Proof.
  intros Hnet Hok Hjson Htruthy Hlist. cbv zeta.
  unfold call. rewrite run_fetchVendors. cbv zeta.
  unfold vendorsAnswer. rewrite Hnet, Hok, Hjson, Htruthy, Hlist.
  split.
  - intros xs -> Hin. destruct (forEachVendor_null xs ([], []) Hin) as [e ->].
    repeat split.
  - intro Hnot.
    destruct vendorList as [| | b | n | x | xs | fields];
      try (exfalso; exact (Hnot _ eq_refl)); repeat split.
Qed.

(** A list of one vendor and one null installs nothing; a payload whose
    [vendors] is a string is passed over. *)
Lemma vendor_payload_is_all_or_nothing_witness :
  let broken := JArr [JObj [("id", JStr "v1"); ("name", JStr "One")]; JNull] in
  let brokenService : Network :=
    fun _ _ => jsonResponse 200 (JObj [("vendors", broken)]) in
  let oddService : Network :=
    fun _ _ => jsonResponse 200 (JObj [("vendors", JStr "none")]) in
  let w1 := snd (call demoService fetchVendors (freshWorld initialState)) in
  apiVendors (app (snd (call brokenService fetchVendors w1))) = apiVendors (app w1) /\
  vendors (app (snd (call brokenService fetchVendors w1))) = hardcodedPreferences /\
  vendors (app (snd (call oddService fetchVendors w1))) = vendors (app w1).
Proof.
  cbv zeta.
  set (w1 := snd (call demoService fetchVendors (freshWorld initialState))).
  set (broken := JArr [JObj [("id", JStr "v1"); ("name", JStr "One")]; JNull]).
  destruct (vendor_payload_is_all_or_nothing
              (fun _ _ => jsonResponse 200 (JObj [("vendors", broken)])) w1
              (mkResponse 200 EmptyString (Some (JObj [("vendors", broken)])))
              (JObj [("vendors", broken)]) broken
              eq_refl eq_refl eq_refl eq_refl eq_refl) as [Hbroken _].
  destruct (vendor_payload_is_all_or_nothing
              (fun _ _ => jsonResponse 200 (JObj [("vendors", JStr "none")])) w1
              (mkResponse 200 EmptyString (Some (JObj [("vendors", JStr "none")])))
              (JObj [("vendors", JStr "none")]) (JStr "none")
              eq_refl eq_refl eq_refl eq_refl eq_refl) as [_ Hodd].
  destruct (Hbroken _ eq_refl) as (_ & Ha & Hv & _).
  { right. left. reflexivity. }
  destruct Hodd as (_ & _ & Hv' & _).
  { intros xs H. discriminate H. }
  split; [exact Ha |]. split; [exact Hv | exact Hv'].
Defined.

(** ** Fetching a token *)

(** X7.  [fetchToken] touches neither the state, the store nor the
    dialogs; it sends one request and settles by its answer: a token only
    when the answer is a success carrying a truthy token; a rejection
    carrying the status and the body text on an error status; a token-not-
    found rejection on a success whose token is missing or falsy; and the
    network error itself when the request fails. *)
Theorem fetchToken_settles_by_answer (net : Network) (w : World) :
  let o := net (requests w) (tokenRequest (app w)) in
  let result := fst (call net fetchToken w) in
  snd (call net fetchToken w) = sent (tokenRequest (app w)) w /\
  (forall token, result = Returned token -> truthy token = true) /\
  (forall m, o = Failed m -> result = Rejected (NetworkError m)) /\
  (forall response, o = Answered response -> ok response = false ->
     result = Rejected (ApiError (status response) (text response))) /\
  (forall response data token,
     o = Answered response -> ok response = true -> json response = Some data ->
     get_prop data "token" = inr token ->
     result = if truthy token then Returned token else Rejected TokenNotFound).
Proof.
  cbv zeta. unfold call. rewrite run_fetchToken.
  split; [destruct (tokenAnswer _); reflexivity |].
  split.
  { destruct (tokenAnswer _) as [e | t] eqn:Ht; cbn [fst]; [discriminate |].
    intros token H; injection H as <-. exact (tokenAnswer_truthy _ _ Ht). }
  split; [intros m ->; reflexivity |].
  split.
  - intros response -> Hok. unfold tokenAnswer. rewrite Hok. reflexivity.
  - intros response data token -> Hok Hjson Hfield. unfold tokenAnswer.
    rewrite Hok, Hjson, Hfield. destruct (truthy token); reflexivity.
Qed.

Lemma fetchToken_settles_by_answer_witness :
  fst (call demoService fetchToken (freshWorld initialState)) = Returned (JStr "tok1") /\
  fst (call offline fetchToken (freshWorld initialState))
    = Rejected (NetworkError "Network request failed").
Proof.
  destruct (fetchToken_settles_by_answer demoService (freshWorld initialState))
    as (_ & _ & _ & _ & Hok).
  destruct (fetchToken_settles_by_answer offline (freshWorld initialState))
    as (_ & _ & Hfail & _).
  split.
  - exact (Hok (mkResponse 200 EmptyString (Some (JObj [("token", JStr "tok1")])))
             (JObj [("token", JStr "tok1")]) (JStr "tok1")
             eq_refl eq_refl eq_refl eq_refl).
  - exact (Hfail _ eq_refl).
Defined.

(** ** Start-up *)

(** X8.  The mount effect always runs to its end: whatever the service
    answers it sends the configuration, vendors and token requests, in this
    order, shows no dialog, leaves the store and the loading flag alone and
    ends with the vendors-loading flag cleared.  The configuration id and
    the user token end as the fetched ones when their fetch succeeded, and
    as they were otherwise. *)
Theorem initializeApp_runs_all_three (net : Network) (w : World) :
  let s := app w in
  let history := requests w in
  let w' := snd (call net initializeApp w) in
  fst (call net initializeApp w) = Returned tt /\
  requests w' = history ++ [configurationRequest s; vendorsRequest s; tokenRequest s] /\
  alerts w' = alerts w /\
  storage w' = storage w /\
  loading (app w') = loading s /\
  vendorsLoading (app w') = false /\
  configId (app w') =
    match configurationAnswer (net history (configurationRequest s)) with
    | Some id => id
    | None => configId s
    end /\
  currentUserToken (app w') =
    match tokenAnswer (net (history ++ [configurationRequest s; vendorsRequest s])
                         (tokenRequest s)) with
    | inr token => token
    | inl _ => currentUserToken s
    end.
Proof.
  cbv zeta. unfold call, initializeApp.
  rewrite run_bind, run_fetchConfiguration.
  assert (Hstep : forall w1,
             requests w1 = requests w ++ [configurationRequest (app w)] ->
             alerts w1 = alerts w -> storage w1 = storage w ->
             loading (app w1) = loading (app w) ->
             let r := run net
                        (_ <- fetchVendors (app w);;
                         try_catch
                           (token <- fetchToken (app w);;
                            SetState (setCurrentUserToken token) (Ret tt))
                           (fun _ => Ret tt)) w1 in
             fst r = Returned tt /\
             requests (snd r) =
               requests w ++ [configurationRequest (app w); vendorsRequest (app w);
                              tokenRequest (app w)] /\
             alerts (snd r) = alerts w /\
             storage (snd r) = storage w /\
             loading (app (snd r)) = loading (app w) /\
             vendorsLoading (app (snd r)) = false /\
             configId (app (snd r)) = configId (app w1) /\
             currentUserToken (app (snd r)) =
               match tokenAnswer (net (requests w ++ [configurationRequest (app w);
                                                      vendorsRequest (app w)])
                                    (tokenRequest (app w))) with
               | inr token => token
               | inl _ => currentUserToken (app w1)
               end).
  { intros w1 Hr Ha Hs Hl. cbv zeta.
    rewrite run_bind, run_fetchVendors. cbv zeta.
    destruct (vendorsAnswer _) as [m p | |];
      rewrite run_try_catch, run_bind, run_fetchToken;
      cbn [withApp sent requests app]; rewrite Hr, <- app_assoc; cbn [app];
      (destruct (tokenAnswer _) as [e | token];
       cbn [run fst snd withApp sent requests alerts storage app loading vendorsLoading
            configId currentUserToken setCurrentUserToken setVendorsLoading setVendors
            setApiVendors];
       rewrite ?Hr, ?Ha, ?Hs, ?Hl, <- ?app_assoc; repeat split). }
  destruct (configurationAnswer _) as [id |].
  - destruct (Hstep (withApp (setConfigId id) (sent (configurationRequest (app w)) w)))
      as (H1 & H2 & H3 & H4 & H5 & H6 & H7 & H8); try reflexivity.
    repeat split; assumption.
  - destruct (Hstep (sent (configurationRequest (app w)) w))
      as (H1 & H2 & H3 & H4 & H5 & H6 & H7 & H8); try reflexivity.
    repeat split; assumption.
Qed.

(** ** The other buttons *)

Lemma perform_andThen {A B : Type} (net : Network) (h : Action A) (f : A -> Action B)
    (d : Device) :
  perform net (andThen h f) d =
  match perform net h d with
  | (Returned a, d') => perform net (f a) d'
  | (Rejected e, d') => (Rejected e, d')
  end.
Proof.
  revert d.
  induction h as [a | e | g k IH | x k IH | key k IH | key value k IH | r k IH];
    intro d; cbn [andThen perform]; auto.
Qed.

Lemma perform_rescue {A : Type} (net : Network) (h : Action A)
    (handle : JsError -> Action A) (d : Device) :
  perform net (rescue h handle) d =
  match perform net h d with
  | (Returned a, d') => (Returned a, d')
  | (Rejected e, d') => perform net (handle e) d'
  end.
Proof.
  revert d.
  induction h as [a | e | g k IH | x k IH | key k IH | key value k IH | r k IH];
    intro d; cbn [rescue perform]; auto.
Qed.

Lemma perform_ensure {A : Type} (net : Network) (h : Action A) (q : Action unit)
    (d : Device) :
  perform net (ensure h q) d =
  match perform net h d with
  | (Returned a, d') =>
      match perform net q d' with
      | (Returned _, d'') => (Returned a, d'')
      | (Rejected e', d'') => (Rejected e', d'')
      end
  | (Rejected e, d') =>
      match perform net q d' with
      | (Returned _, d'') => (Rejected e, d'')
      | (Rejected e', d'') => (Rejected e', d'')
      end
  end.
Proof.
  revert d.
  induction h as [a | e | g k IH | x k IH | key k IH | key value k IH | r k IH];
    intro d; cbn [ensure perform]; auto.
  - rewrite perform_andThen. destruct (perform net q d) as [[u | e'] d']; reflexivity.
  - rewrite perform_andThen. destruct (perform net q d) as [[u | e'] d']; reflexivity.
Qed.

(** A handler of the first kind does on the device what it does on the
    world the device shows. *)
Lemma perform_core {A : Type} (net : Network) (p : Prog A) (b : bool) (ds : list Dialog)
    (w : World) :
  perform net (core p) (onDevice b ds w) =
  (fst (run net p w), onDevice b ds (snd (run net p w))).
Proof.
  revert w.
  induction p as [a | e | g k IH | al k IH | key k IH | r k IH]; intro w;
    cbn [core perform run fst snd].
  - reflexivity.
  - reflexivity.
  - apply (IH (withApp g w)).
  - rewrite <- (IH (shown al w)). f_equal. unfold onDevice, shown.
    cbn [app storage requests alerts screen disk wire dialogs].
    rewrite map_app, app_assoc. reflexivity.
  - apply (IH _ w).
  - apply (IH _ (sent r w)).
Qed.

Lemma onDevice_worldOf (d : Device) :
  onDevice (settingsModalVisible (screen d)) (dialogs d) (worldOf d) = d.
Proof.
  destruct d as [[s b] st rs ds]. unfold onDevice, worldOf. cbn. rewrite app_nil_r.
  reflexivity.
Qed.

Lemma perform_core_on (net : Network) {A : Type} (p : Prog A) (d : Device) :
  perform net (core p) d =
  (fst (run net p (worldOf d)),
   onDevice (settingsModalVisible (screen d)) (dialogs d) (snd (run net p (worldOf d)))).
Proof.
  rewrite <- (onDevice_worldOf d) at 1. apply perform_core.
Qed.

Ltac perform_step :=
  cbn [perform andThen rescue ensure evaluate fst snd];
  repeat rewrite ?perform_ensure, ?perform_rescue, ?perform_andThen;
  cbn [perform andThen rescue ensure evaluate fst snd].

(** The tokens after Generate New Token, when the service issues one. *)
Lemma generateNewToken_issued (net : Network) (d : Device) (newToken : jsval) :
  tokenAnswer (net (wire d) (tokenRequest (cells (screen d)))) = inr newToken ->
  let s' := cells (screen (snd (press net generateNewToken d))) in
  currentUserToken s' = newToken /\ lastConsentToken s' = JNull.
Proof.
  intro Hanswer. cbv zeta. unfold press, generateNewToken. perform_step.
  rewrite perform_core_on, run_fetchToken.
  cbn [worldOf screen disk wire dialogs cells onCells requests app].
  rewrite Hanswer.
  cbn [fst snd onDevice sent perform app storage requests alerts screen disk wire dialogs
       cells onCells settingsModalVisible map].
  split; reflexivity.
Qed.



(** ** Reading a consent back *)

Lemma objectValues_defined (v : jsval) :
  truthy v = true ->
  exists values, objectValues v = inr values /\ objectKeysLength v = inr (length values).
Proof.
  unfold objectKeysLength.
  destruct v as [| | b | n | x | xs | fields]; cbn [truthy objectValues ebind];
    try discriminate; intros _; eexists; split; reflexivity.
Qed.

Lemma vendorsOfConsent_defined (data : jsval) :
  data <> JNull -> data <> JUndefined ->
  exists listed, vendorsOfConsent data = inr listed /\ truthy listed = true.
Proof.
  intros Hn Hu. unfold vendorsOfConsent.
  destruct (get_prop_defined data "preferences" Hn Hu) as [preferences ->].
  cbn [ebind].
  destruct preferences as [| | b | n | x | xs | fields];
    try (exists (JObj []); split; reflexivity);
    match goal with
    | |- context [get_prop ?p "vendors"] =>
        destruct (get_prop_defined p "vendors") as [listed ->]; try discriminate
    end;
    cbn [ebind]; exists (js_or listed (JObj [])); (split; [reflexivity |]);
    unfold js_or; destruct (truthy listed) eqn:Hl; [exact Hl | reflexivity].
Qed.

(** The dialog a success body gets: no consent for an empty or odd body,
    the consent and its counts for an object with entries, and a throw
    when the timestamp or the id to show does not convert to text. *)
Lemma describeConsent_raises (net : Network) (s : AppState) (data : jsval) (d : Device) :
  exists x,
    (perform net (describeConsent s data) d = (Returned tt, raised x d) \/
     perform net (describeConsent s data) d = (Rejected NotPrimitive, d) /\
     x = ConsentCheckFailed NotPrimitive) /\
    describes s data x.
Proof.
  unfold describes.
  destruct data as [| | b | n | x | xs | fields].
  1-5: exists NoConsentFound; unfold describeConsent; cbn [truthy typeofObject andb];
       perform_step; cbn [Nat.eqb negb andb];
       (split; [left; try (destruct b); try (destruct (negb _)); reflexivity |]);
       (split; [reflexivity |]); (split; [reflexivity |]);
       intros entry rest ? ? ? ? H; discriminate H.
  - (* an array *)
    destruct xs as [| x0 xs].
    + exists NoConsentFound. split; [left; reflexivity |].
      split; [reflexivity |]. split; [reflexivity |].
      intros ? ? ? ? ? ? H; discriminate H.
    + eexists. split; [left; reflexivity |]. split; [discriminate |].
      split; [discriminate |]. intros ? ? ? ? ? ? H; discriminate H.
  - (* an object *)
    destruct fields as [| [k v] rest].
    + exists NoConsentFound. split; [left; reflexivity |].
      split; [reflexivity |]. split; [reflexivity |].
      intros ? ? ? ? ? ? H; discriminate H.
    + set (data := JObj ((k, v) :: rest)).
      assert (Hn : data <> JNull) by discriminate.
      assert (Hu : data <> JUndefined) by discriminate.
      destruct (vendorsOfConsent_defined data Hn Hu) as (listed & Hlisted & Htruthy).
      destruct (objectValues_defined listed Htruthy) as (values & Hvalues & Hcount).
      destruct (get_prop_defined data "accept" Hn Hu) as [accept Haccept].
      destruct (get_prop_defined data "createdAt" Hn Hu) as [createdAt HcreatedAt].
      destruct (get_prop_defined data "timestamp" Hn Hu) as [timestamp Htimestamp].
      destruct (get_prop_defined data "id" Hn Hu) as [id Hid].
      destruct (get_prop_defined data "_id" Hn Hu) as [_id H_id].
      assert (Hrun :
        perform net (describeConsent s data) d =
        perform net
          (_ <<- evaluate (js_template (js_or createdAt (js_or timestamp (JStr "Unknown")))) ;;
           _ <<- evaluate (js_template (js_or id (js_or _id (JStr "Unknown")))) ;;
           Popup (ConsentFound (truthy accept) (length values)
                    (length (filter truthy values)) (lastConsentToken s)
                    (js_or createdAt (js_or timestamp (JStr "Unknown")))
                    (js_or id (js_or _id (JStr "Unknown"))))
             (Done tt)) d).
      { unfold describeConsent. fold data.
        change (truthy data) with true. change (typeofObject data) with true.
        cbn [andb]. unfold objectKeysLength at 1.
        change (objectValues data) with
          (@inr JsError _ (obj_values (distinctEntries [] ((k, v) :: rest)))).
        cbn [ebind distinctEntries existsb obj_values map length]. perform_step.
        cbn [Nat.eqb negb].
        rewrite Hlisted. perform_step. rewrite Hcount. perform_step.
        rewrite Hvalues. perform_step. rewrite Haccept. perform_step.
        rewrite HcreatedAt. perform_step. rewrite Htimestamp. perform_step.
        rewrite Hid. perform_step. rewrite H_id. perform_step.
        reflexivity. }
      rewrite Hrun. unfold js_template.
      destruct (convertible (js_or createdAt (js_or timestamp (JStr "Unknown"))))
        eqn:Htime;
        [destruct (convertible (js_or id (js_or _id (JStr "Unknown")))) eqn:Hshown |].
      * eexists. split; [left; reflexivity |].
        split; [discriminate |]. split; [discriminate |].
        intros entry rest' c t i i' _ Hc Ht Hi Hi'. cbv zeta.
        rewrite HcreatedAt in Hc. rewrite Htimestamp in Ht.
        rewrite Hid in Hi. rewrite H_id in Hi'.
        injection Hc as <-. injection Ht as <-. injection Hi as <-. injection Hi' as <-.
        rewrite Htime, Hshown. cbn [andb].
        do 3 eexists. split; [reflexivity |]. apply filter_length_le.
      * exists (ConsentCheckFailed NotPrimitive). split; [right; split; reflexivity |].
        split; [discriminate |]. split; [discriminate |].
        intros entry rest' c t i i' _ Hc Ht Hi Hi'. cbv zeta.
        rewrite HcreatedAt in Hc. rewrite Htimestamp in Ht.
        rewrite Hid in Hi. rewrite H_id in Hi'.
        injection Hc as <-. injection Ht as <-. injection Hi as <-. injection Hi' as <-.
        rewrite Htime, Hshown. reflexivity.
      * exists (ConsentCheckFailed NotPrimitive). split; [right; split; reflexivity |].
        split; [discriminate |]. split; [discriminate |].
        intros entry rest' c t i i' _ Hc Ht Hi Hi'. cbv zeta.
        rewrite HcreatedAt in Hc. rewrite Htimestamp in Ht.
        rewrite Hid in Hi. rewrite H_id in Hi'.
        injection Hc as <-. injection Ht as <-. injection Hi as <-. injection Hi' as <-.
        rewrite Htime. reflexivity.
Qed.

(** The [try] statement of [checkConsentStatus], run. *)
Lemma perform_consentRead (net : Network) (s : AppState) (currentConfigId : jsval)
    (d : Device) :
  let r := consentReadRequest s currentConfigId in
  let o := net (wire d) r in
  exists x,
    perform net
      (ensure
         (rescue
            (response <<- request r ;;
             if ok response then
               data <<- bodyJson response ;;
               describeConsent s data
             else if Z.eqb (status response) 404 then
               Popup (NoConsentFoundFor (lastConsentToken s)) (Done tt)
             else
               Popup (ConsentReadError (status response) (text response)) (Done tt))
            (fun error => Popup (ConsentCheckFailed error) (Done tt)))
         (Change (onCells (setLoading false)) (Done tt))) d =
    (Returned tt,
     mkDevice (onCells (setLoading false) (screen d)) (disk d) (wire d ++ [r])
       (dialogs d ++ [x])) /\
    (forall m, o = Failed m -> x = ConsentCheckFailed (NetworkError m)) /\
    (forall response, o = Answered response -> ok response = false ->
       x = if Z.eqb (status response) 404
           then NoConsentFoundFor (lastConsentToken s)
           else ConsentReadError (status response) (text response)) /\
    (forall response, o = Answered response -> ok response = true ->
       json response = None -> x = ConsentCheckFailed SyntaxError) /\
    (forall response data, o = Answered response -> ok response = true ->
       json response = Some data -> describes s data x).
Proof.
  cbv zeta. unfold request, bodyJson. perform_step.
  destruct (net (wire d) (consentReadRequest s currentConfigId)) as [m | response].
  - perform_step. eexists. split; [reflexivity |].
    split; [intros m' H; injection H as <-; reflexivity |].
    split; [intros ? H; discriminate H |].
    split; [intros ? H; discriminate H | intros ? ? H; discriminate H].
  - perform_step. destruct (ok response) eqn:Hok.
    + destruct (json response) as [data |] eqn:Hjson.
      * perform_step.
        match goal with
        | |- context [perform net (describeConsent s data) ?d0] =>
            destruct (describeConsent_raises net s data d0) as (x & [-> | [-> ->]] & Hx)
        end.
        all: perform_step; eexists; (split; [reflexivity |]);
          (split; [intros ? H; discriminate H |]);
          (split; [intros ? H; injection H as <-; congruence |]);
          (split; [intros ? H; injection H as <-; congruence |]);
          intros response' data' H _ Hjson'; injection H as <-;
          rewrite Hjson in Hjson'; injection Hjson' as <-; exact Hx.
      * perform_step. eexists. split; [reflexivity |].
        split; [intros ? H; discriminate H |].
        split; [intros ? H; injection H as <-; congruence |].
        split; [reflexivity |].
        intros response' data' H _ Hjson'. injection H as <-. congruence.
    + destruct (Z.eqb (status response) 404) eqn:H404; perform_step;
        (eexists; split; [reflexivity |]);
        (split; [intros ? H; discriminate H |]);
        (split; [intros ? H _; injection H as <-; rewrite H404; reflexivity |]);
        (split; [intros ? H; injection H as <-; congruence |]);
        intros response' data' H; injection H as <-; congruence.
Qed.

(** Check Consent Status with no consent token to ask with. *)
Lemma checkConsentStatus_no_token (net : Network) (d : Device) :
  truthy (lastConsentToken (cells (screen d))) = false ->
  press net checkConsentStatus d = (Returned tt, raised NoTokenAvailable d).
Proof.
  intro Htoken. unfold press, checkConsentStatus. cbv zeta. rewrite Htoken.
  reflexivity.
Qed.


(** X10.  Check Consent Status never throws and never writes the store or
    the tokens.  While no consent was submitted it sends nothing and leaves
    the loading flag alone.  Otherwise it resolves the configuration id as
    a submission does, asks once for the consent stored under the last
    consent token and that configuration id, shows exactly one dialog and
    ends with the loading flag cleared; with no configuration id to be had
    it asks for nothing. *)
Theorem checkConsentStatus_asks_with_last_token (net : Network) (d : Device) :
  let s := cells (screen d) in
  let d' := snd (press net checkConsentStatus d) in
  fst (press net checkConsentStatus d) = Returned tt /\
  disk d' = disk d /\
  lastConsentToken (cells (screen d')) = lastConsentToken s /\
  currentUserToken (cells (screen d')) = currentUserToken s /\
  (exists x, dialogs d' = dialogs d ++ [x]) /\
  (truthy (lastConsentToken s) = false -> d' = raised NoTokenAvailable d) /\
  (truthy (lastConsentToken s) = true ->
     loading (cells (screen d')) = false /\
     wire d' =
       wire d ++ configRequests s ++
         match resolvedConfig net (worldOf d) with
         | Some currentConfigId => [consentReadRequest s currentConfigId]
         | None => []
         end).
Proof.
  cbv zeta. unfold press, checkConsentStatus. cbv zeta.
  destruct (truthy (lastConsentToken (cells (screen d)))) eqn:Htoken; cbn [negb].
  2: { cbn [perform fst snd]. unfold raised.
       repeat split; try discriminate. eexists; reflexivity. }
  perform_step. rewrite perform_core_on, run_ensureConfigId.
  unfold resolvedConfig, configRequests.
  cbn [worldOf screen disk wire dialogs cells onCells requests app].
  destruct (truthy (configId (cells (screen d)))) eqn:Hconfig.
  - cbn [fst snd]. 
    match goal with
    | |- context [perform net (ensure ?h ?q) ?d0] =>
        destruct (perform_consentRead net (cells (screen d))
                    (configId (cells (screen d))) d0) as (x & Hread & _)
    end.
    cbv zeta in Hread. rewrite Hread.
    cbn [fst snd onDevice screen disk wire dialogs cells onCells app storage requests
         alerts map].
    rewrite ?app_nil_r.
    repeat split; try discriminate. eexists; reflexivity.
  - destruct (configurationAnswer _) as [id |]; cbn [fst snd].
    + match goal with
      | |- context [perform net (ensure ?h ?q) ?d0] =>
          destruct (perform_consentRead net (cells (screen d)) id d0) as (x & Hread & _)
      end.
      cbv zeta in Hread. rewrite Hread.
      cbn [fst snd onDevice sent withApp screen disk wire dialogs cells onCells app
           storage requests alerts map].
      rewrite ?app_nil_r, <- ?app_assoc.
      repeat split; try discriminate. eexists; reflexivity.
    + cbn [perform fst snd onDevice sent shown withApp screen disk wire dialogs cells
           onCells app storage requests alerts map].
      rewrite ?app_nil_r.
      repeat split; try discriminate. eexists; reflexivity.
Qed.

(** At first launch there is no consent to ask for; after a submission
    the consent is asked for once, the configuration id being cached. *)
Lemma checkConsentStatus_asks_with_last_token_witness :
  let fresh := launch [] in
  let w1 := snd (call demoService (submitConsent false) (freshWorld initialState)) in
  snd (press offline checkConsentStatus fresh) = raised NoTokenAvailable fresh /\
  wire (snd (press offline checkConsentStatus (deviceOf false w1))) =
    requests w1 ++ [consentReadRequest (app w1) (JStr "cfg1")].
Proof.
  cbv zeta.
  destruct (checkConsentStatus_asks_with_last_token offline (launch []))
    as (_ & _ & _ & _ & _ & Hnone & _).
  destruct (checkConsentStatus_asks_with_last_token offline
              (deviceOf false (snd (call demoService (submitConsent false)
                                      (freshWorld initialState)))))
    as (_ & _ & _ & _ & _ & _ & Hsome).
  split; [exact (Hnone eq_refl) |].
  exact (proj2 (Hsome eq_refl)).
Defined.

(** Check Consent Status with a token and a configuration id to ask
    with. *)
Lemma press_checkConsentStatus (net : Network) (d : Device) (currentConfigId : jsval) :
  let s := cells (screen d) in
  let o := net (wire d ++ configRequests s) (consentReadRequest s currentConfigId) in
  truthy (lastConsentToken s) = true ->
  resolvedConfig net (worldOf d) = Some currentConfigId ->
  exists x,
    dialogs (snd (press net checkConsentStatus d)) = dialogs d ++ [x] /\
    (forall m, o = Failed m -> x = ConsentCheckFailed (NetworkError m)) /\
    (forall response, o = Answered response -> ok response = false ->
       x = if Z.eqb (status response) 404
           then NoConsentFoundFor (lastConsentToken s)
           else ConsentReadError (status response) (text response)) /\
    (forall response, o = Answered response -> ok response = true ->
       json response = None -> x = ConsentCheckFailed SyntaxError) /\
    (forall response data, o = Answered response -> ok response = true ->
       json response = Some data -> describes s data x).
Proof.
  cbv zeta. intros Htoken Hconfig.
  unfold press, checkConsentStatus. cbv zeta. rewrite Htoken. cbn [negb].
  perform_step. rewrite perform_core_on, run_ensureConfigId.
  unfold resolvedConfig in Hconfig. unfold configRequests.
  cbn [worldOf screen disk wire dialogs cells onCells requests app] in *.
  destruct (truthy (configId (cells (screen d)))) eqn:Hcached.
  - injection Hconfig as <-. cbn [fst snd].
    match goal with
    | |- context [perform net (ensure ?h ?q) ?d0] =>
        destruct (perform_consentRead net (cells (screen d))
                    (configId (cells (screen d))) d0) as (x & Hread & Hx)
    end.
    cbv zeta in Hread, Hx. rewrite Hread. exists x.
    cbn [fst snd onDevice screen disk wire dialogs cells onCells app storage requests
         alerts map] in *.
    rewrite ?app_nil_r in *. split; [reflexivity | exact Hx].
  - rewrite Hconfig. cbn [fst snd].
    match goal with
    | |- context [perform net (ensure ?h ?q) ?d0] =>
        destruct (perform_consentRead net (cells (screen d)) currentConfigId d0)
          as (x & Hread & Hx)
    end.
    cbv zeta in Hread, Hx. rewrite Hread. exists x.
    cbn [fst snd onDevice sent withApp screen disk wire dialogs cells onCells app
         storage requests alerts map] in *.
    rewrite ?app_nil_r in *. split; [reflexivity | exact Hx].
Qed.

(** X11.  Check Consent Status tells the absence of a consent from a
    failure, for a token and a configuration id that convert to text.  An
    answer 404, an empty object and a falsy body are reported as no consent
    found; any other error status is reported with its code and text, a
    body that is not JSON and a failed request as a failure of the check.
    An object with entries is reported as the consent found, with its
    timestamp and id, its vendor count and its count of accepted vendors,
    which never exceeds the vendor count; but when the timestamp or the id
    to show does not convert to text, building the dialog throws and a
    failure of the check is reported instead. *)
Theorem checkConsentStatus_tells_absence_from_failure (net : Network) (d : Device)
    (currentConfigId : jsval) :
  let s := cells (screen d) in
  let o := net (wire d ++ configRequests s) (consentReadRequest s currentConfigId) in
  truthy (lastConsentToken s) = true ->
  resolvedConfig net (worldOf d) = Some currentConfigId ->
  convertible (lastConsentToken s) = true ->
  convertible currentConfigId = true ->
  exists x,
    dialogs (snd (press net checkConsentStatus d)) = dialogs d ++ [x] /\
    (forall m, o = Failed m -> x = ConsentCheckFailed (NetworkError m)) /\
    (forall response, o = Answered response -> status response = 404 ->
       x = NoConsentFoundFor (lastConsentToken s)) /\
    (forall response, o = Answered response -> ok response = false ->
       status response <> 404 ->
       x = ConsentReadError (status response) (text response)) /\
    (forall response, o = Answered response -> ok response = true ->
       json response = None -> x = ConsentCheckFailed SyntaxError) /\
    (forall response data, o = Answered response -> ok response = true ->
       json response = Some data ->
       (truthy data = false -> x = NoConsentFound) /\
       (data = JObj [] -> x = NoConsentFound) /\
       (forall entry rest createdAt timestamp id _id,
          data = JObj (entry :: rest) ->
          get_prop data "createdAt" = inr createdAt ->
          get_prop data "timestamp" = inr timestamp ->
          get_prop data "id" = inr id ->
          get_prop data "_id" = inr _id ->
          let shownTime := js_or createdAt (js_or timestamp (JStr "Unknown")) in
          let shownId := js_or id (js_or _id (JStr "Unknown")) in
          if convertible shownTime && convertible shownId then
            exists accept vendorCount acceptedVendors,
              x = ConsentFound accept vendorCount acceptedVendors (lastConsentToken s)
                    shownTime shownId /\
              (acceptedVendors <= vendorCount)%nat
          else x = ConsentCheckFailed NotPrimitive)).
Proof.
  cbv zeta. intros Htoken Hconfig _ _.
  destruct (press_checkConsentStatus net d currentConfigId Htoken Hconfig)
    as (x & Hd & Hfail & Herr & Hsyntax & Hdata).
  exists x. split; [exact Hd |]. split; [exact Hfail |].
  split; [| split; [| split; [exact Hsyntax | exact Hdata]]].
  - intros response Ho H404. rewrite (Herr response Ho).
    + rewrite H404. reflexivity.
    + unfold ok. rewrite H404. reflexivity.
  - intros response Ho Hok Hnot. rewrite (Herr response Ho Hok).
    destruct (Z.eqb (status response) 404) eqn:Heq; [| reflexivity].
    apply Z.eqb_eq in Heq. contradiction.
Qed.

(** After a submission, a service that has no such consent answers 404;
    one that answers with a consent whose id is an object with a toString
    property gets the failure of the check. *)
Lemma checkConsentStatus_tells_absence_from_failure_witness :
  let w1 := snd (call demoService (submitConsent false) (freshWorld initialState)) in
  let notFound : Network := fun _ _ => Answered (mkResponse 404 "Not Found" None) in
  let odd : Network :=
    fun _ _ => jsonResponse 200 (JObj [("id", JObj [("toString", JStr "x")])]) in
  dialogs (snd (press notFound checkConsentStatus (deviceOf false w1))) =
    [CoreAlert (AlertSuccess 201 (JStr "abc") (JStr "tok1"));
     NoConsentFoundFor (JStr "tok1")] /\
  dialogs (snd (press odd checkConsentStatus (deviceOf false w1))) =
    [CoreAlert (AlertSuccess 201 (JStr "abc") (JStr "tok1"));
     ConsentCheckFailed NotPrimitive].
Proof.
  cbv zeta.
  destruct (checkConsentStatus_tells_absence_from_failure
              (fun _ _ => Answered (mkResponse 404 "Not Found" None))
              (deviceOf false (snd (call demoService (submitConsent false)
                                      (freshWorld initialState))))
              (JStr "cfg1") eq_refl eq_refl eq_refl eq_refl)
    as (x & Hd & _ & H404 & _).
  destruct (checkConsentStatus_tells_absence_from_failure
              (fun _ _ => jsonResponse 200 (JObj [("id", JObj [("toString", JStr "x")])]))
              (deviceOf false (snd (call demoService (submitConsent false)
                                      (freshWorld initialState))))
              (JStr "cfg1") eq_refl eq_refl eq_refl eq_refl)
    as (y & Hd' & _ & _ & _ & _ & Hdata).
  split.
  - rewrite Hd. rewrite (H404 _ eq_refl eq_refl). reflexivity.
  - rewrite Hd'.
    destruct (Hdata _ _ eq_refl eq_refl eq_refl) as (_ & _ & Hentries).
    rewrite (Hentries _ _ JUndefined JUndefined (JObj [("toString", JStr "x")]) JUndefined
               eq_refl eq_refl eq_refl eq_refl eq_refl).
    reflexivity.
Defined.

(** ** A submission, then the other buttons *)





(** X13.  A new token makes the application forget the last consent:
    right after Generate New Token has succeeded, Check Consent Status
    finds no token to ask with, sends nothing and changes nothing but the
    dialogs; and the next submission works with the new token. *)
Theorem new_token_forgets_last_consent (net net' : Network) (d : Device)
    (newToken : jsval) :
  tokenAnswer (net (wire d) (tokenRequest (cells (screen d)))) = inr newToken ->
  let d' := snd (press net generateNewToken d) in
  press net' checkConsentStatus d' = (Returned tt, raised NoTokenAvailable d') /\
  resolvedToken net' (worldOf d') = inr newToken.
Proof.
  intro Hanswer. cbv zeta.
  destruct (generateNewToken_issued net d newToken Hanswer) as [Hcur Hlast].
  cbv zeta in Hcur, Hlast.
  split.
  - apply checkConsentStatus_no_token. rewrite Hlast. reflexivity.
  - unfold resolvedToken. cbn [worldOf app]. rewrite Hcur.
    rewrite (tokenAnswer_truthy _ _ Hanswer). reflexivity.
Qed.

Lemma new_token_forgets_last_consent_witness :
  let d := deviceOf false (snd (call demoService (submitConsent false)
                                  (freshWorld initialState))) in
  let d' := snd (press issuingService generateNewToken d) in
  press offline checkConsentStatus d' = (Returned tt, raised NoTokenAvailable d') /\
  resolvedToken offline (worldOf d') = inr (JStr "tok3").
Proof.
  cbv zeta.
  exact (new_token_forgets_last_consent issuingService offline
           (deviceOf false (snd (call demoService (submitConsent false)
                                   (freshWorld initialState))))
           (JStr "tok3") eq_refl).
Defined.

(** ** Settings *)

(** X14.  Save in the settings modal refuses an empty or blank project
    id: it shows the validation dialog and changes nothing else.
    Otherwise, on a store that takes the writes, it never throws, sends no
    request, writes the project id and the environment of the form to the
    device store, puts them in force, closes the modal, and resets the
    session: configuration id, user token, last consent token and id are
    dropped and the consent status is Not Set. *)
Theorem handleSaveSettings_saves_and_resets (trim : string -> string) (net : Network)
    (d : Device) :
  let s := cells (screen d) in
  let d' := snd (press net (handleSaveSettings trim) d) in
  let s' := cells (screen d') in
  fst (press net (handleSaveSettings trim) d) = Returned tt /\
  wire d' = wire d /\
  (blankProjectId trim s = true -> d' = raised ValidationError d) /\
  (blankProjectId trim s = false ->
     disk d' =
       obj_set (obj_set (disk d) STORAGE_PROJECT_ID (tempProjectId s))
         STORAGE_ENVIRONMENT (tempEnvironment s) /\
     projectId s' = tempProjectId s /\
     environment s' = tempEnvironment s /\
     settingsModalVisible (screen d') = false /\
     loading s' = false /\
     configId s' = JNull /\
     currentUserToken s' = JNull /\
     lastConsentToken s' = JNull /\
     lastConsentId s' = JNull /\
     consentStatus s' = NotSet /\
     vendors s' = vendors s /\
     dialogs d' = dialogs d ++ [SettingsSaved]).
Proof.
  destruct d as [[s vis] st rs ds].
  cbv zeta. unfold press, handleSaveSettings, saveSettings, blankProjectId. cbv zeta.
  cbn [screen cells].
  destruct (String.eqb (tempProjectId s) EmptyString
            || String.eqb (trim (tempProjectId s)) EmptyString).
  - cbn [perform fst snd]. repeat split; try discriminate.
  - lazy [perform andThen rescue ensure evaluate fst snd
          screen disk wire dialogs cells onCells setSettingsModalVisible
          settingsModalVisible].
    split; [reflexivity |]. split; [reflexivity |]. split; [discriminate |].
    intros _.
    do 11 (split; [reflexivity |]). reflexivity.
Qed.

Lemma handleSaveSettings_saves_and_resets_witness :
  let form := typeProjectId "proj42" (chooseEnvironment "production"
                (openSettings (screen (deviceOf false
                   (snd (call demoService (submitConsent false)
                           (freshWorld initialState))))))) in
  let d := mkDevice form [] [] [] in
  let d' := snd (press offline (handleSaveSettings asciiTrim) d) in
  disk d' = [(STORAGE_PROJECT_ID, "proj42"); (STORAGE_ENVIRONMENT, "production")] /\
  configId (cells (screen d')) = JNull /\
  snd (press offline (handleSaveSettings asciiTrim)
         (onScreen (typeProjectId "   ") d)) =
    raised ValidationError (onScreen (typeProjectId "   ") d).
Proof.
  cbv zeta.
  set (form := typeProjectId "proj42" (chooseEnvironment "production"
                 (openSettings (screen (deviceOf false
                    (snd (call demoService (submitConsent false)
                            (freshWorld initialState)))))))).
  destruct (handleSaveSettings_saves_and_resets asciiTrim offline
              (mkDevice form [] [] [])) as (_ & _ & _ & Hsave).
  destruct (handleSaveSettings_saves_and_resets asciiTrim offline
              (onScreen (typeProjectId "   ") (mkDevice form [] [] [])))
    as (_ & _ & Hblank & _).
  destruct (Hsave eq_refl) as (Hdisk & _ & _ & _ & _ & Hconfig & _).
  split; [exact Hdisk |]. split; [exact Hconfig | exact (Hblank eq_refl)].
Defined.

(** What a save leaves of the settings, in force, in the form and in the
    store. *)
Lemma handleSaveSettings_settings (trim : string -> string) (net : Network) (d : Device) :
  let s := cells (screen d) in
  let d' := snd (press net (handleSaveSettings trim) d) in
  let s' := cells (screen d') in
  (blankProjectId trim s = true -> d' = raised ValidationError d) /\
  (blankProjectId trim s = false ->
     disk d' =
       obj_set (obj_set (disk d) STORAGE_PROJECT_ID (tempProjectId s))
         STORAGE_ENVIRONMENT (tempEnvironment s) /\
     projectId s' = tempProjectId s /\
     environment s' = tempEnvironment s /\
     tempEnvironment s' = tempEnvironment s).
Proof.
  destruct d as [[s vis] st rs ds].
  cbv zeta. unfold press, handleSaveSettings, saveSettings, blankProjectId. cbv zeta.
  cbn [screen cells].
  destruct (String.eqb (tempProjectId s) EmptyString
            || String.eqb (trim (tempProjectId s)) EmptyString).
  - cbn [perform fst snd]. split; [reflexivity | discriminate].
  - lazy [perform andThen rescue ensure evaluate fst snd
          screen disk wire dialogs cells onCells setSettingsModalVisible
          settingsModalVisible].
    split; [discriminate |]. intros _.
    do 3 (split; [reflexivity |]). reflexivity.
Qed.

Lemma knownEnvironment_cases (name : string) :
  knownEnvironment name ->
  name = "local-dev" \/ name = "staging" \/ name = "production".
Proof.
  unfold knownEnvironment. cbn. intros [H | [H | [H | []]]]; auto.
Qed.

Lemma knownEnvironment_listed (name : string) :
  knownEnvironment name -> exists url, obj_get ENVIRONMENTS name = Some url.
Proof.
  intro H. destruct (knownEnvironment_cases name H) as [-> | [-> | ->]];
    eexists; reflexivity.
Qed.

(** What [loadSettings] leaves of the settings: the store as it was, the
    project id of the store when it holds one that is not empty, and the
    environment of the store when it holds a known one. *)
Lemma loadSettings_settings (net : Network) (w : World) :
  let w' := snd (call net loadSettings w) in
  storage w' = storage w /\
  (forall p, obj_get (storage w) STORAGE_PROJECT_ID = Some p -> p <> EmptyString ->
     projectId (app w') = p /\ tempProjectId (app w') = p) /\
  (forall e, obj_get (storage w) STORAGE_ENVIRONMENT = Some e -> knownEnvironment e ->
     environment (app w') = e /\ tempEnvironment (app w') = e) /\
  (obj_get (storage w) STORAGE_ENVIRONMENT = None ->
     environment (app w') = environment (app w) /\
     tempEnvironment (app w') = tempEnvironment (app w)).
Proof.
  cbv zeta. unfold call, loadSettings. cbn [run].
  destruct w as [s st rs al]. cbn [storage app].
  destruct (obj_get st STORAGE_PROJECT_ID) as [p |];
    [destruct (String.eqb p EmptyString) eqn:Hp;
     [apply String.eqb_eq in Hp |] |];
    cbn [negb run withApp app storage requests alerts].
  all: (destruct (obj_get st STORAGE_ENVIRONMENT) as [e |];
    [destruct (String.eqb e EmptyString) eqn:He;
     [| destruct (obj_get ENVIRONMENTS e) eqn:Hurl] |];
    cbn [negb run withApp app storage requests alerts snd]).
  all: split; [reflexivity |].
  all: split; [intros p' Hp' Hne; try discriminate;
               try (injection Hp' as <-); try contradiction;
               split; reflexivity |].
  all: split; [| intro Hnone; try discriminate; split; reflexivity].
  all: intros e' He' Hknown; try discriminate; injection He' as <-.
  all: try (split; reflexivity).
  all: destruct (knownEnvironment_listed e Hknown) as [url Hlisted].
  - apply String.eqb_eq in He. subst e. discriminate.
  - congruence.
  - apply String.eqb_eq in He. subst e. discriminate.
  - congruence.
  - apply String.eqb_eq in He. subst e. discriminate.
  - congruence.
Qed.

(** X15.  What Save wrote, [loadSettings] reads back: after a save that
    passed the check with a known environment in the form, [loadSettings]
    run on the resulting store, in whatever state, sets the project id and
    the environment, in force and in the form, to the saved ones. *)
Theorem saved_settings_are_restored (trim : string -> string) (net net' : Network)
    (d : Device) (w : World) :
  let s := cells (screen d) in
  blankProjectId trim s = false ->
  knownEnvironment (tempEnvironment s) ->
  let d' := snd (press net (handleSaveSettings trim) d) in
  storage w = disk d' ->
  let restored := app (snd (call net' loadSettings w)) in
  projectId restored = tempProjectId s /\
  tempProjectId restored = tempProjectId s /\
  environment restored = tempEnvironment s /\
  tempEnvironment restored = tempEnvironment s /\
  projectId restored = projectId (cells (screen d')) /\
  environment restored = environment (cells (screen d')).
Proof.
  cbv zeta. intros Hcheck Hknown Hstore.
  destruct (handleSaveSettings_settings trim net d) as (_ & Hsave).
  cbv zeta in Hsave. destruct (Hsave Hcheck) as (Hdisk & Hproj & Henv & _).
  assert (Hne : tempProjectId (cells (screen d)) <> EmptyString).
  { unfold blankProjectId in Hcheck. apply orb_false_elim in Hcheck.
    destruct Hcheck as [Hcheck _]. intro Heq. rewrite Heq in Hcheck. discriminate. }
  assert (Hp : obj_get (storage w) STORAGE_PROJECT_ID
               = Some (tempProjectId (cells (screen d)))).
  { rewrite Hstore, Hdisk, obj_get_set_other by discriminate. apply obj_get_set_same. }
  assert (He : obj_get (storage w) STORAGE_ENVIRONMENT
               = Some (tempEnvironment (cells (screen d)))).
  { rewrite Hstore, Hdisk. apply obj_get_set_same. }
  destruct (loadSettings_settings net' w) as (_ & Hloadp & Hloade & _).
  cbv zeta in Hloadp, Hloade.
  destruct (Hloadp _ Hp Hne) as [H1 H2].
  destruct (Hloade _ He Hknown) as [H3 H4].
  split; [exact H1 |]. split; [exact H2 |]. split; [exact H3 |]. split; [exact H4 |].
  rewrite H1, H3, Hproj, Henv. split; reflexivity.
Qed.

Lemma saved_settings_are_restored_witness :
  let form := typeProjectId "proj42" (chooseEnvironment "production"
                (openSettings (mkScreen initialState false))) in
  let d' := snd (press offline (handleSaveSettings asciiTrim) (mkDevice form [] [] [])) in
  let restored := app (snd (call offline loadSettings
                              (mkWorld readyState (disk d') [] []))) in
  projectId restored = "proj42" /\
  environment restored = "production".
Proof.
  cbv zeta.
  set (form := typeProjectId "proj42" (chooseEnvironment "production"
                 (openSettings (mkScreen initialState false)))).
  assert (Hk : knownEnvironment "production") by (right; right; left; reflexivity).
  destruct (saved_settings_are_restored asciiTrim offline offline
              (mkDevice form [] [] [])
              (mkWorld readyState
                 (disk (snd (press offline (handleSaveSettings asciiTrim)
                               (mkDevice form [] [] [])))) [] [])
              eq_refl Hk eq_refl) as (Hp & _ & He & _).
  split; [exact Hp | exact He].
Defined.

(** One step of the settings keeps the environments known. *)
Lemma settingsStep_sound (trim : string -> string) (net : Network) (d : Device)
    (e : SettingsEvent) :
  offered e ->
  formSound (screen d) /\ storeSound (disk d) ->
  formSound (screen (settingsStep trim net d e)) /\
  storeSound (disk (settingsStep trim net d e)).
Proof.
  intros Hoff [[Henv Htemp] Hstore].
  destruct e as [| | | key | text | |]; cbn [settingsStep offered] in *.
  - destruct d as [[s vis] st rs ds]. unfold formSound in *. cbn in *. auto.
  - destruct d as [[s vis] st rs ds]. unfold formSound in *. cbn in *. auto.
  - destruct d as [[s vis] st rs ds]. unfold formSound in *. cbn in *.
    split; [split; [assumption | right; left; reflexivity] | assumption].
  - destruct d as [[s vis] st rs ds]. unfold formSound in *. cbn in *. auto.
  - destruct d as [[s vis] st rs ds]. unfold formSound in *. cbn in *. auto.
  - destruct (handleSaveSettings_settings trim net d) as (Hblank & Hsave).
    cbv zeta in Hblank, Hsave.
    destruct (blankProjectId trim (cells (screen d))).
    + rewrite (Hblank eq_refl). unfold raised. cbn [screen disk].
      split; [split |]; assumption.
    + destruct (Hsave eq_refl) as (Hdisk & _ & He & Ht).
      unfold formSound. rewrite He, Ht, Hdisk.
      split; [split; assumption |].
      intros e' He'. rewrite obj_get_set_same in He'. injection He' as <-. assumption.
  - unfold press. rewrite perform_core_on. cbn [snd].
    destruct (loadSettings_settings net (worldOf d)) as (Hst & _ & Hsome & Hnone).
    cbv zeta in Hst, Hsome, Hnone. unfold call in Hst, Hsome, Hnone.
    change (app (worldOf d)) with (cells (screen d)) in *.
    change (storage (worldOf d)) with (disk d) in *.
    unfold onDevice, formSound. cbn [screen disk cells].
    rewrite Hst. split; [| assumption].
    destruct (obj_get (disk d) STORAGE_ENVIRONMENT) as [e |] eqn:Hget.
    + destruct (Hsome e eq_refl (Hstore e Hget)) as [-> ->].
      split; apply (Hstore e Hget).
    + destruct (Hnone eq_refl) as [-> ->]. split; assumption.
Qed.

(** X16.  Whatever the user does with the settings, the environment in
    force, the one in the form and the one in the device store stay among
    the environments of the table, so every request goes to one of its
    three services: from a launch on a store that holds no unknown
    environment, through any sequence of opening, cancelling, resetting,
    choosing an offered environment, typing a project id, saving and
    loading. *)
Theorem environment_stays_known (trim : string -> string) (net : Network)
    (store : Storage) (events : list SettingsEvent) :
  storeSound store ->
  Forall offered events ->
  let d := fold_left (settingsStep trim net) events (launch store) in
  formSound (screen d) /\ storeSound (disk d) /\
  In (apiBase (cells (screen d))) (obj_values ENVIRONMENTS).
Proof.
  intros Hstore Hev. cbv zeta.
  assert (Hinv : formSound (screen (fold_left (settingsStep trim net) events (launch store)))
                 /\ storeSound (disk (fold_left (settingsStep trim net) events
                                        (launch store)))).
  { assert (Hlaunch : formSound (screen (launch store)) /\ storeSound (disk (launch store))).
    { split; [| exact Hstore]. split; right; left; reflexivity. }
    revert Hlaunch. generalize (launch store) as d.
    induction Hev as [| e events He Hev IH]; intros d Hd; cbn [fold_left].
    - exact Hd.
    - apply IH. apply settingsStep_sound; assumption. }
  destruct Hinv as [Hform Hst]. split; [exact Hform |]. split; [exact Hst |].
  destruct Hform as [Henv _]. unfold apiBase.
  destruct (knownEnvironment_cases _ Henv) as [-> | [-> | ->]]; cbn; auto.
Qed.

Lemma environment_stays_known_witness :
  let events := [OpenSettings; ChooseEnvironment "production"; TypeProjectId "proj42";
                 SaveSettings; OpenSettings; ConfirmReset; CancelSettings; LoadSettings] in
  let d := fold_left (settingsStep asciiTrim offline) events
             (launch [(STORAGE_ENVIRONMENT, "local-dev")]) in
  environment (cells (screen d)) = "production" /\
  In (apiBase (cells (screen d))) (obj_values ENVIRONMENTS).
Proof.
  cbv zeta. split; [reflexivity |].
  refine (proj2 (proj2 (environment_stays_known asciiTrim offline
            [(STORAGE_ENVIRONMENT, "local-dev")]
            [OpenSettings; ChooseEnvironment "production"; TypeProjectId "proj42";
             SaveSettings; OpenSettings; ConfirmReset; CancelSettings; LoadSettings]
            _ _))).
  - intros e He. cbn in He. injection He as <-. left. reflexivity.
  - repeat (apply Forall_cons;
            [first [exact I | right; right; left; reflexivity] |]).
    apply Forall_nil.
Defined.

(** An event of the form leaves alone what is in force, the store and the
    requests. *)
Lemma settingsStep_formOnly (trim : string -> string) (net : Network) (d : Device)
    (e : SettingsEvent) :
  formOnly e ->
  let d' := settingsStep trim net d e in
  projectId (cells (screen d')) = projectId (cells (screen d)) /\
  environment (cells (screen d')) = environment (cells (screen d)) /\
  configId (cells (screen d')) = configId (cells (screen d)) /\
  currentUserToken (cells (screen d')) = currentUserToken (cells (screen d)) /\
  disk d' = disk d /\ wire d' = wire d.
Proof.
  intro He. destruct d as [[s vis] st rs ds].
  destruct e; cbn [formOnly] in He; try contradiction; cbv zeta;
    repeat split.
Qed.

(** X17.  Edits of the settings form wait for Save: opening the modal,
    typing a project id, choosing an environment, resetting the form and
    cancelling, in any order and number, change neither the project and
    environment in force, nor the configuration id and user token, nor the
    device store, and send nothing; the requests of the next submission
    are the ones of before.  A Cancel then puts the form back to the
    settings in force. *)
Theorem form_edits_wait_for_save (trim : string -> string) (net : Network) (d : Device)
    (events : list SettingsEvent) :
  Forall formOnly events ->
  let s := cells (screen d) in
  let d' := fold_left (settingsStep trim net) events d in
  let s' := cells (screen d') in
  projectId s' = projectId s /\
  environment s' = environment s /\
  disk d' = disk d /\
  wire d' = wire d /\
  configRequests s' = configRequests s /\
  tokenRequests s' = tokenRequests s /\
  tempProjectId (cells (screen (settingsStep trim net d' CancelSettings))) = projectId s /\
  tempEnvironment (cells (screen (settingsStep trim net d' CancelSettings))) = environment s.
Proof.
  intro Hev. cbv zeta.
  assert (Hinv :
    let d' := fold_left (settingsStep trim net) events d in
    projectId (cells (screen d')) = projectId (cells (screen d)) /\
    environment (cells (screen d')) = environment (cells (screen d)) /\
    configId (cells (screen d')) = configId (cells (screen d)) /\
    currentUserToken (cells (screen d')) = currentUserToken (cells (screen d)) /\
    disk d' = disk d /\ wire d' = wire d).
  { revert d. induction Hev as [| e events He Hev IH]; intro d; cbn [fold_left].
    - cbv zeta. repeat split.
    - destruct (IH (settingsStep trim net d e)) as (H1 & H2 & H3 & H4 & H5 & H6).
      destruct (settingsStep_formOnly trim net d e He) as (G1 & G2 & G3 & G4 & G5 & G6).
      cbv zeta. repeat split; etransitivity; eassumption. }
  cbv zeta in Hinv. destruct Hinv as (H1 & H2 & H3 & H4 & H5 & H6).
  split; [exact H1 |]. split; [exact H2 |]. split; [exact H5 |]. split; [exact H6 |].
  split.
  { unfold configRequests, configurationRequest, bearer, apiToken, apiBase.
    rewrite H1, H2, H3. reflexivity. }
  split.
  { unfold tokenRequests, tokenRequest, bearer, apiToken, apiBase.
    rewrite H1, H2, H4. reflexivity. }
  destruct (fold_left (settingsStep trim net) events d) as [[s' vis'] st' rs' ds'].
  cbn in *. split; assumption.
Qed.

Lemma form_edits_wait_for_save_witness :
  let events := [OpenSettings; TypeProjectId "proj42"; ChooseEnvironment "production";
                 ConfirmReset; TypeProjectId "other"] in
  let d := deviceOf false (mkWorld readyState [] [] []) in
  let d' := fold_left (settingsStep asciiTrim offline) events d in
  tempProjectId (cells (screen d')) = "other" /\
  projectId (cells (screen d')) = DEFAULT_PROJECT_ID /\
  configRequests (cells (screen d')) = [].
Proof.
  cbv zeta. split; [reflexivity |].
  assert (Hev : Forall formOnly
                  [OpenSettings; TypeProjectId "proj42"; ChooseEnvironment "production";
                   ConfirmReset; TypeProjectId "other"])
    by (repeat constructor).
  destruct (form_edits_wait_for_save asciiTrim offline
              (deviceOf false (mkWorld readyState [] [] [])) _ Hev)
    as (Hp & _ & _ & _ & Hc & _).
  split; [exact Hp | exact Hc].
Defined.

(** ** Check Auth *)

(** X18.  Check Auth only reports: it never throws, sends the one
    request to /auth/me with the bearer token of the project, raises
    exactly one dialog, and leaves the state, apart from the loading flag
    it clears, and the device store as they were.  A refusal of the
    service is shown with its status and text, a failure of the network
    with its message. *)
Theorem checkAuth_only_reports (net : Network) (d : Device) :
  let s := cells (screen d) in
  let d' := snd (press net checkAuth d) in
  fst (press net checkAuth d) = Returned tt /\
  wire d' = wire d ++ [authRequest s] /\
  disk d' = disk d /\
  screen d' = onCells (setLoading false) (screen d) /\
  (exists x, dialogs d' = dialogs d ++ [x]) /\
  (forall response,
      net (wire d) (authRequest s) = Answered response -> ok response = false ->
      dialogs d' = dialogs d ++ [AuthFailed (status response) (text response)]) /\
  (forall message,
      net (wire d) (authRequest s) = Failed message ->
      dialogs d' = dialogs d ++ [AuthCheckFailed (NetworkError message)]).
Proof.
  destruct d as [[s vis] st rs ds]. destruct s.
  cbv zeta. unfold press, checkAuth, request.
  cbn [screen cells disk wire dialogs].
  cbn [perform andThen rescue ensure fst snd screen disk wire dialogs cells onCells].
  destruct (net rs _) as [message | response] eqn:Hnet.
  - cbn. repeat split; try (eexists; reflexivity); intros; congruence.
  - cbn [perform andThen rescue ensure fst snd screen disk wire dialogs cells onCells].
    destruct (ok response) eqn:Hok.
    + unfold bodyJson. destruct (json response) as [data |].
      * cbn [perform andThen rescue ensure fst snd screen disk wire dialogs cells onCells].
        unfold js_template.
        destruct (get_prop data "projectId") as [e1 | project];
          [| destruct (get_prop data "tier") as [e2 | tier];
             [| destruct (get_prop data "authorized") as [e3 | authorized]]];
          cbn [perform andThen rescue ensure evaluate];
          try (destruct (convertible project);
               cbn [perform andThen rescue ensure evaluate];
               [destruct (convertible tier);
                cbn [perform andThen rescue ensure evaluate];
                [destruct (convertible authorized) |] |]);
          cbn; repeat split; try (eexists; reflexivity); intros; congruence.
      * cbn. repeat split; try (eexists; reflexivity); intros; congruence.
    + cbn. repeat split; try (eexists; reflexivity); intros; congruence.
Qed.

(** ** The earlier demo *)


